(** * The core-file target of gdb (gdb/corelow.c)

    A shallow embedding of the core-file backend: the registry of core
    handlers, the session life cycle ([core_open], [core_xclose]), the
    register-section reader and the partial-transfer router, followed by
    the properties the specification states about them.

    C integers are [Z]; where the source computes in a fixed width the
    wrap-around is written out ([wrap_int], [wrap_u64]).  Bytes are [Z]
    values in [0, 256).  The global variables of the debugger that the
    file reads or writes are the fields of [gdb_state]; code that throws
    ([error], [perror_with_name]) lives in the monad [M]. *)

From Stdlib Require Import ZArith List String Ascii Bool Lia.
Import ListNotations.
Local Open Scope string_scope.
Local Open Scope list_scope.
Local Open Scope Z_scope.

(* ================================================================== *)
(** ** Machine integers *)

(** [int]: 32 bits, two's complement. *)
Definition wrap_int (z : Z) : Z := (z + 2 ^ 31) mod 2 ^ 32 - 2 ^ 31.

(** [ULONGEST]: 64 bits, unsigned. *)
Definition wrap_u64 (z : Z) : Z := z mod 2 ^ 64.

(** [LONGEST]: 64 bits, two's complement. *)
Definition wrap_s64 (z : Z) : Z := (z + 2 ^ 63) mod 2 ^ 64 - 2 ^ 63.

(** [long] as glibc's [strtol] returns it: saturated, not wrapped. *)
Definition clamp_long (z : Z) : Z := Z.max (- 2 ^ 63) (Z.min (2 ^ 63 - 1) z).

(* ================================================================== *)
(** ** The container (BFD) as this file sees it *)

(** A section of the container.  [sec_contents] is what a read of the
    section finds in the file; [None] stands for a read that fails. *)
Record asection : Type := {
  sec_name : string;
  sec_vma : Z;
  sec_size : Z;
  filepos : Z;
  sec_flags : Z;
  sec_contents : option (list Z)
}.

(** The architecture descriptor, reduced to the predicates and methods
    corelow.c consults. *)
Record regset : Type := {
  regset_name : string;
  regset_flags : Z
}.

Record core_regset_section : Type := {
  crs_sect_name : string;
  crs_size : Z;
  crs_regset : option regset;
  crs_human_name : option string
}.

Record gdbarch : Type := {
  gdbarch_name : string;
  gdbarch_iterate_over_regset_sections_p : bool;
  gdbarch_iterate_over_regset_sections : list core_regset_section;
  gdbarch_core_xfer_shared_libraries : option (Z -> Z -> list Z);
  gdbarch_core_xfer_shared_libraries_aix : option (Z -> Z -> list Z);
  gdbarch_num_regs : Z
}.

Record bfd : Type := {
  bfd_get_filename : string;
  bfd_get_flavour : Z;
  bfd_sections : list asection;
  bfd_big_endian : bool;
  bfd_check_format_core : bool;          (* bfd_check_format (abfd, bfd_core) *)
  bfd_core_file_pid : Z;
  bfd_core_file_failing_command : option string;
  bfd_core_file_failing_signal : Z;
  gdbarch_from_bfd : option gdbarch
}.

(** [bfd_get_section_by_name]: the first section carrying the name. *)
Definition bfd_get_section_by_name (abfd : bfd) (name : string) : option asection :=
  find (fun s => String.eqb (sec_name s) name) (bfd_sections abfd).

Definition bfd_section_size (s : asection) : Z := sec_size s.

(** Modelled from the spec: [bfd_get_section_contents] belongs to the
    container parser, which is not part of corelow.c.  It hands out
    exactly [count] bytes starting at [offset], and fails when the file
    cannot be read or the range leaves the section. *)
Definition bfd_get_section_contents (s : asection) (offset count : Z) : option (list Z) :=
  match sec_contents s with
  | None => None
  | Some c =>
      if (0 <=? offset) && (0 <=? count) && (offset + count <=? Z.of_nat (List.length c))
      then Some (firstn (Z.to_nat count) (skipn (Z.to_nat offset) c))
      else None
  end.

(* ================================================================== *)
(** ** Core handlers and their registry *)

(** [struct core_fns].  The sniffer receives the handler itself in the
    source; the only field a sniffer reads from it is the flavour, which
    is what [core_sniffer] is given here. *)
Record core_fns : Type := {
  core_fns_name : string;
  core_flavour : Z;
  core_sniffer : Z -> bfd -> bool;
  check_format : bfd -> bool;
  core_read_registers_p : bool           (* core_read_registers != NULL *)
}.

(** [core_file_fns] is a linked list; a new handler becomes its head. *)
Definition deprecated_add_core_fns (cf : core_fns) (core_file_fns : list core_fns)
  : list core_fns := cf :: core_file_fns.

Definition default_core_sniffer (our_flavour : Z) (abfd : bfd) : bool :=
  bfd_get_flavour abfd =? our_flavour.

Definition default_check_format (abfd : bfd) : bool := false.

(** [gdb_check_format]: true as soon as one handler accepts. *)
Fixpoint gdb_check_format (core_file_fns : list core_fns) (abfd : bfd) : bool :=
  match core_file_fns with
  | [] => false
  | cf :: next => if check_format cf abfd then true else gdb_check_format next abfd
  end.

(* ================================================================== *)
(** ** Messages *)

(** What the debugger tells the user.  Each constructor is one format
    string of corelow.c with its arguments. *)
Inductive message : Type :=
| warn_ambiguous_core_format (filename : string) (matches : Z)
| err_no_core_file_handler (filename : string)
| err_no_core_file_specified (use_detach : bool)
| err_perror (filename : string)
| err_not_a_core_dump (filename : string)
| err_cant_find_sections (filename : string)
| err_post_create_inferior
| warn_couldnt_find_registers (human_name : string)
| warn_section_too_small (section_name : string)
| warn_unexpected_size (section_name : string)
| warn_couldnt_read_registers (human_name name : string)
| msg_cant_fetch_registers
| warn_couldnt_read_auxv
| warn_couldnt_read_wcookie
| warn_couldnt_read_spu
| msg_core_was_generated_by (command : string)
| msg_program_terminated_with_signal (siggy : Z).

(* ================================================================== *)
(** ** Threads, inferiors, targets *)

Record ptid_t : Type := { ptid_get_pid : Z; ptid_get_lwp : Z; ptid_get_tid : Z }.

Definition ptid_build (pid lwp tid : Z) : ptid_t :=
  {| ptid_get_pid := pid; ptid_get_lwp := lwp; ptid_get_tid := tid |}.
Definition pid_to_ptid (pid : Z) : ptid_t := ptid_build pid 0 0.
Definition null_ptid : ptid_t := ptid_build 0 0 0.

Definition ptid_equal (a b : ptid_t) : bool :=
  (ptid_get_pid a =? ptid_get_pid b) && (ptid_get_lwp a =? ptid_get_lwp b)
  && (ptid_get_tid a =? ptid_get_tid b).

Record inferior : Type := { inf_pid : Z; fake_pid_p : bool }.

(** An arbitrary identifier for the core inferior. *)
Definition CORELOW_PID : Z := 1.

Record target_section : Type := {
  ts_addr : Z;
  ts_endaddr : Z;
  the_bfd_section : asection
}.

(** [struct core_target_ops_with_data] without its base class.
    [core_data] is [None] while the [sections] pointer is null. *)
Record core_target_ops_with_data : Type := {
  core_vec : option core_fns;
  core_gdbarch : option gdbarch;
  core_data : option (list target_section)
}.

(** [enum strata]. *)
Definition file_stratum : Z := 1.
Definition process_stratum : Z := 2.

(** A target on the stack: an instance of this backend, or another
    target known by its short name and its stratum. *)
Inductive target_ops : Type :=
| core_target (cops : core_target_ops_with_data)
| other_target (to_shortname : string) (stratum : Z).

Definition to_stratum (t : target_ops) : Z :=
  match t with
  | core_target _ => process_stratum
  | other_target _ stratum => stratum
  end.

(** Memory obtained from [xmalloc] and friends. *)
Inductive block : Type :=
| blk_filename
| blk_cops
| blk_sections.

(** Deferred actions of the cleanup chain. *)
Inductive cleanup : Type :=
| cleanup_xfree_filename
| cleanup_bfd_unref (filename : string)
| cleanup_core_close.

(** The register cache of the current thread, seen from this file: the
    calls that supplied registers to it, oldest first.  The decoders
    themselves belong to the architecture and to the core handlers. *)
Inductive supply_call : Type :=
| supply_regset (rs : regset) (regnum : Z) (contents : list Z) (size : Z)
| core_read_registers (cf : core_fns) (contents : list Z) (size : Z)
                      (which : Z) (reg_addr : Z)
| supply_unavailable.

(** The global state corelow.c works on.  The head of a list is its
    most recent element for [target_stack] (top of the stack),
    [cleanup_chain], [bfd_refs] and [allocated]; [thread_list],
    [regcache] and [messages] grow at the end.  [new_cops] is the target
    [core_open] has allocated and not yet pushed: the local [cops],
    which the cleanup refers to by pointer.  The inferior list is the
    current inferior and the others. *)
Record gdb_state : Type := {
  target_stack : list target_ops;
  core_bfd : option bfd;
  bfd_refs : list string;
  allocated : list block;
  new_cops : option core_target_ops_with_data;
  cleanup_chain : list cleanup;
  current_inferior : inferior;
  other_inferiors : list inferior;
  thread_list : list ptid_t;
  inferior_ptid : ptid_t;
  so_list : list string;
  exec_bfd : option bfd;
  target_gdbarch : option gdbarch;
  regcache : list supply_call;
  messages : list message
}.

(** *** Field updates *)

Definition set_target_stack (v : list target_ops) (s : gdb_state) : gdb_state :=
  let '(Build_gdb_state ts cb br al nc cc ci oi tl ip so eb tg rc ms) := s in
  Build_gdb_state v cb br al nc cc ci oi tl ip so eb tg rc ms.

Definition set_core_bfd (v : option bfd) (s : gdb_state) : gdb_state :=
  let '(Build_gdb_state ts cb br al nc cc ci oi tl ip so eb tg rc ms) := s in
  Build_gdb_state ts v br al nc cc ci oi tl ip so eb tg rc ms.

Definition set_bfd_refs (v : list string) (s : gdb_state) : gdb_state :=
  let '(Build_gdb_state ts cb br al nc cc ci oi tl ip so eb tg rc ms) := s in
  Build_gdb_state ts cb v al nc cc ci oi tl ip so eb tg rc ms.

Definition set_allocated (v : list block) (s : gdb_state) : gdb_state :=
  let '(Build_gdb_state ts cb br al nc cc ci oi tl ip so eb tg rc ms) := s in
  Build_gdb_state ts cb br v nc cc ci oi tl ip so eb tg rc ms.

Definition set_new_cops (v : option core_target_ops_with_data) (s : gdb_state) : gdb_state :=
  let '(Build_gdb_state ts cb br al nc cc ci oi tl ip so eb tg rc ms) := s in
  Build_gdb_state ts cb br al v cc ci oi tl ip so eb tg rc ms.

Definition set_cleanup_chain (v : list cleanup) (s : gdb_state) : gdb_state :=
  let '(Build_gdb_state ts cb br al nc cc ci oi tl ip so eb tg rc ms) := s in
  Build_gdb_state ts cb br al nc v ci oi tl ip so eb tg rc ms.

Definition set_thread_list (v : list ptid_t) (s : gdb_state) : gdb_state :=
  let '(Build_gdb_state ts cb br al nc cc ci oi tl ip so eb tg rc ms) := s in
  Build_gdb_state ts cb br al nc cc ci oi v ip so eb tg rc ms.

Definition set_inferior_ptid (v : ptid_t) (s : gdb_state) : gdb_state :=
  let '(Build_gdb_state ts cb br al nc cc ci oi tl ip so eb tg rc ms) := s in
  Build_gdb_state ts cb br al nc cc ci oi tl v so eb tg rc ms.

Definition set_so_list (v : list string) (s : gdb_state) : gdb_state :=
  let '(Build_gdb_state ts cb br al nc cc ci oi tl ip so eb tg rc ms) := s in
  Build_gdb_state ts cb br al nc cc ci oi tl ip v eb tg rc ms.

Definition set_target_gdbarch (v : option gdbarch) (s : gdb_state) : gdb_state :=
  let '(Build_gdb_state ts cb br al nc cc ci oi tl ip so eb tg rc ms) := s in
  Build_gdb_state ts cb br al nc cc ci oi tl ip so eb v rc ms.

Definition set_regcache (v : list supply_call) (s : gdb_state) : gdb_state :=
  let '(Build_gdb_state ts cb br al nc cc ci oi tl ip so eb tg rc ms) := s in
  Build_gdb_state ts cb br al nc cc ci oi tl ip so eb tg v ms.

Definition set_messages (v : list message) (s : gdb_state) : gdb_state :=
  let '(Build_gdb_state ts cb br al nc cc ci oi tl ip so eb tg rc ms) := s in
  Build_gdb_state ts cb br al nc cc ci oi tl ip so eb tg rc v.

Definition set_inferiors (c : inferior) (o : list inferior) (s : gdb_state) : gdb_state :=
  let '(Build_gdb_state ts cb br al nc cc ci oi tl ip so eb tg rc ms) := s in
  Build_gdb_state ts cb br al nc cc c o tl ip so eb tg rc ms.

(* ================================================================== *)
(** ** The monad of code that may throw *)

(** [Throw] is a gdb exception; [Fault] is the program leaving defined
    behaviour (a null pointer dereferenced, a failed [gdb_assert]). *)
Inductive result (A : Type) : Type :=
| Ok (a : A)
| Throw (e : message)
| Fault.
Arguments Ok {A} a.
Arguments Throw {A} e.
Arguments Fault {A}.

Definition M (A : Type) : Type := gdb_state -> result A * gdb_state.

Definition ret {A} (a : A) : M A := fun s => (Ok a, s).

Definition bind {A B} (c : M A) (k : A -> M B) : M B :=
  fun s => match c s with
           | (Ok a, s') => k a s'
           | (Throw e, s') => (Throw e, s')
           | (Fault, s') => (Fault, s')
           end.

Notation "x <- c ;; k" := (bind c (fun x => k))
  (at level 61, c at next level, right associativity).
Notation "c ;;; k" := (bind c (fun _ => k))
  (at level 61, right associativity).

(** A statement that only changes the state. *)
Definition exec (f : gdb_state -> gdb_state) : M unit := fun s => (Ok tt, f s).

Definition gets {A} (f : gdb_state -> A) : M A := fun s => (Ok (f s), s).

(** [warning] and [printf_filtered]: the text goes out, control goes on. *)
Definition warning (m : message) : M unit :=
  exec (fun s => set_messages (messages s ++ [m]) s).

(** [error]: the text goes out and the exception is thrown. *)
Definition error {A} (m : message) : M A :=
  fun s => (Throw m, set_messages (messages s ++ [m]) s).

(* ================================================================== *)
(** ** sniff_core_bfd *)

Definition gdbarch_has_regset_iterator (core_gdbarch : option gdbarch) : bool :=
  match core_gdbarch with
  | Some g => gdbarch_iterate_over_regset_sections_p g
  | None => false
  end.

(** The loop over [core_file_fns]: [yummy] and [matches] after it. *)
Fixpoint sniff_loop (cfs : list core_fns) (abfd : bfd)
         (yummy : option core_fns) (matches : Z) : option core_fns * Z :=
  match cfs with
  | [] => (yummy, matches)
  | cf :: next =>
      if core_sniffer cf (core_flavour cf) abfd
      then sniff_loop next abfd (Some cf) (wrap_int (matches + 1))
      else sniff_loop next abfd yummy matches
  end.

Definition sniff_core_bfd (core_file_fns : list core_fns) (abfd : bfd)
           (core_gdbarch : option gdbarch) : M (option core_fns) :=
  if gdbarch_has_regset_iterator core_gdbarch then ret None
  else
    let '(yummy, matches) := sniff_loop core_file_fns abfd None 0 in
    (if 1 <? matches
     then warning (warn_ambiguous_core_format (bfd_get_filename abfd) matches)
     else if matches =? 0
          then error (err_no_core_file_handler (bfd_get_filename abfd))
          else ret tt) ;;;
    ret yummy.

(* ================================================================== *)
(** ** The C library, as far as section names need it *)

Definition isspace (c : ascii) : bool :=
  let n := nat_of_ascii c in
  (n =? 32)%nat || ((9 <=? n)%nat && (n <=? 13)%nat).

Definition isdigit (c : ascii) : bool :=
  let n := nat_of_ascii c in (48 <=? n)%nat && (n <=? 57)%nat.

Definition digit_value (c : ascii) : Z := Z.of_nat (nat_of_ascii c) - 48.

Fixpoint skip_spaces (s : string) : string :=
  match s with
  | String c r => if isspace c then skip_spaces r else s
  | EmptyString => s
  end.

(** The longest run of decimal digits at the head of [s], accumulated
    onto [acc], and what follows it. *)
Fixpoint scan_digits (s : string) (acc : Z) : Z * string :=
  match s with
  | String c r => if isdigit c then scan_digits r (10 * acc + digit_value c)
                  else (acc, s)
  | EmptyString => (acc, s)
  end.

(** [strtol (s, &end, 10)] of glibc: blanks, an optional sign, digits;
    the value saturates at the bounds of [long].  [None] when no digit
    is found. *)
Definition strtol10 (s : string) : option (Z * string) :=
  let s1 := skip_spaces s in
  let '(neg, s2) :=
    match s1 with
    | String "-"%char r => (true, r)
    | String "+"%char r => (false, r)
    | _ => (false, s1)
    end in
  match s2 with
  | String c _ =>
      if isdigit c
      then let '(v, rest) := scan_digits s2 0 in
           Some (clamp_long (if neg then - v else v), rest)
      else None
  | EmptyString => None
  end.

(** [atoi (s)] is [(int) strtol (s, NULL, 10)]; 0 when there is no number. *)
Definition atoi (s : string) : Z :=
  match strtol10 s with
  | Some (v, _) => wrap_int v
  | None => 0
  end.

(** [s + n] for a C string known to hold at least [n] characters. *)
Fixpoint string_drop (n : nat) (s : string) : string :=
  match n, s with
  | O, _ => s
  | S n', String _ r => string_drop n' r
  | S _, EmptyString => EmptyString
  end.

Definition startswith (s pattern : string) : bool := String.prefix pattern s.

(** [printf ("%ld")]: the shortest decimal representation. *)
Fixpoint decimal_digits (fuel : nat) (n : Z) (acc : string) : string :=
  match fuel with
  | O => acc
  | S fuel' =>
      let acc' := String (ascii_of_nat (Z.to_nat (48 + n mod 10))) acc in
      if n <? 10 then acc' else decimal_digits fuel' (n / 10) acc'
  end.

Definition format_ld (n : Z) : string :=
  if n <? 0 then String "-"%char (decimal_digits 20 (- n) EmptyString)
  else decimal_digits 20 n EmptyString.

(* ================================================================== *)
(** ** Resources *)

Definition block_eqb (a b : block) : bool :=
  match a, b with
  | blk_filename, blk_filename => true
  | blk_cops, blk_cops => true
  | blk_sections, blk_sections => true
  | _, _ => false
  end.

(** Remove the most recent occurrence of [x]. *)
Fixpoint remove_one {A} (eqb : A -> A -> bool) (x : A) (l : list A) : list A :=
  match l with
  | [] => []
  | y :: r => if eqb x y then r else y :: remove_one eqb x r
  end.

(** [allocated] lists the live blocks, the most recent first. *)
Definition xmalloc (b : block) (s : gdb_state) : gdb_state :=
  set_allocated (b :: allocated s) s.

Definition xfree (b : block) (s : gdb_state) : gdb_state :=
  set_allocated (remove_one block_eqb b (allocated s)) s.

(** Modelled from the spec: the reference counts of containers are kept
    by gdb_bfd.c, which is not part of corelow.c ("the opened container
    (reference-counted with the parser)").  [bfd_refs] lists the
    references held, each under the file name of its container;
    [gdb_bfd_fopen] adds one for the container it returns. *)
Definition gdb_bfd_ref (abfd : bfd) (s : gdb_state) : gdb_state :=
  set_bfd_refs (bfd_get_filename abfd :: bfd_refs s) s.

(** Modelled from the spec: [gdb_bfd_unref] (gdb_bfd.c) gives one
    reference back. *)
Definition gdb_bfd_unref (filename : string) (s : gdb_state) : gdb_state :=
  set_bfd_refs (remove_one String.eqb filename (bfd_refs s)) s.

(* ================================================================== *)
(** ** The inferior and thread registries *)

(** The inferior registry (inferior.c) and the thread registry
    (thread.c) are collaborators of corelow.c; the definitions of this
    section give the part of their contract the core target relies on.
    An inferior record with pid 0 is a record without a process. *)

(** Modelled from the spec: [inferior_appeared] (inferior.c) on the
    current inferior; the record gets its process id ("Attributes
    visible here: process id; fake-pid flag"). *)
Definition inferior_appeared (pid : Z) (s : gdb_state) : gdb_state :=
  set_inferiors {| inf_pid := pid; fake_pid_p := fake_pid_p (current_inferior s) |}
                (other_inferiors s) s.

(** [inf->fake_pid_p = v] for the current inferior. *)
Definition set_fake_pid_p (v : bool) (s : gdb_state) : gdb_state :=
  set_inferiors {| inf_pid := inf_pid (current_inferior s); fake_pid_p := v |}
                (other_inferiors s) s.

Definition no_process : inferior := {| inf_pid := 0; fake_pid_p := false |}.

Fixpoint exit_first (pid : Z) (l : list inferior) : list inferior :=
  match l with
  | [] => []
  | i :: r => if inf_pid i =? pid then no_process :: r else i :: exit_first pid r
  end.

(** Modelled from the spec: [find_inferior_pid] (inferior.c), the first
    inferior record with this process id. *)
Definition find_inferior_pid (pid : Z) (s : gdb_state) : option inferior :=
  find (fun i => inf_pid i =? pid) (current_inferior s :: other_inferiors s).

(** Modelled from the spec: [exit_inferior_silent] (inferior.c)
    ("silently exits the inferior").  The inferior loses its process,
    its flag and its threads; unknown pids are left alone. *)
Definition exit_inferior_silent (pid : Z) (s : gdb_state) : gdb_state :=
  match find_inferior_pid pid s with
  | None => s
  | Some _ =>
      let s1 := set_thread_list
                  (filter (fun t => negb (ptid_get_pid t =? pid)) (thread_list s)) s in
      if inf_pid (current_inferior s) =? pid
      then set_inferiors no_process (other_inferiors s) s1
      else set_inferiors (current_inferior s) (exit_first pid (other_inferiors s)) s1
  end.

(** Modelled from the spec: [add_thread] and [add_thread_silent]
    (thread.c) create a thread record; a thread announced twice replaces
    its older record. *)
Definition add_thread (ptid : ptid_t) (s : gdb_state) : gdb_state :=
  set_thread_list
    (filter (fun t => negb (ptid_equal t ptid)) (thread_list s) ++ [ptid]) s.

(** Modelled from the spec: [init_thread_list] (thread.c) ("Reset the
    thread list"). *)
Definition init_thread_list (s : gdb_state) : gdb_state := set_thread_list [] s.

(** Modelled from the spec: [first_thread_of_process (-1)] (thread.c),
    the oldest thread of any process ("pick the first thread"). *)
Definition first_thread_of_process (s : gdb_state) : option ptid_t :=
  match thread_list s with
  | [] => None
  | t :: _ => Some t
  end.

(** Modelled from the spec: [switch_to_thread] (thread.c) makes the
    thread the current one. *)
Definition switch_to_thread (ptid : ptid_t) (s : gdb_state) : gdb_state :=
  set_inferior_ptid ptid s.

(** Modelled from the spec: [clear_solib] (solib.c) ("clears
    shared-object state"). *)
Definition clear_solib (s : gdb_state) : gdb_state := set_so_list [] s.

(* ================================================================== *)
(** ** core_xclose *)

(** Discard all vestiges of any previous core file.  [cops] is the
    target being closed. *)
Definition core_xclose (cops : core_target_ops_with_data) (s : gdb_state) : gdb_state :=
  let s1 :=
    match core_bfd s with
    | Some b =>
        let pid := ptid_get_pid (inferior_ptid s) in
        let s := set_inferior_ptid null_ptid s in
        let s := if negb (pid =? 0) then exit_inferior_silent pid s else s in
        let s := clear_solib s in
        let s := gdb_bfd_unref (bfd_get_filename b) s in
        set_core_bfd None s
    | None => s
    end in
  let s2 := match core_data cops with
            | Some _ => xfree blk_sections s1
            | None => s1                       (* xfree (NULL) *)
            end in
  xfree blk_cops s2.

(** The cleanup registered by [core_open]: its argument is the target
    under construction, which [new_cops] holds until it is pushed. *)
Definition core_close_cleanup (s : gdb_state) : gdb_state :=
  match new_cops s with
  | Some cops => set_new_cops None (core_xclose cops s)
  | None => s
  end.

(* ================================================================== *)
(** ** The cleanup chain and the target stack *)

(** The cleanup chain (cleanups.c) is not part of corelow.c either; the
    spec describes it as "a stack of deferred releases": registered
    newest first, run newest first down to a mark, or discarded down to
    it. *)

(** The function a cleanup stands for, applied to its argument. *)
Definition run_cleanup (c : cleanup) (s : gdb_state) : gdb_state :=
  match c with
  | cleanup_xfree_filename => xfree blk_filename s
  | cleanup_bfd_unref filename => gdb_bfd_unref filename s
  | cleanup_core_close => core_close_cleanup s
  end.

(** Modelled from the spec: [make_cleanup] (cleanups.c) returns the
    chain as it was, here by its length. *)
Definition make_cleanup (c : cleanup) : M nat :=
  fun s => (Ok (List.length (cleanup_chain s)),
            set_cleanup_chain (c :: cleanup_chain s) s).

Fixpoint run_chain (chain : list cleanup) (old_chain : nat) (s : gdb_state)
  : gdb_state * list cleanup :=
  match chain with
  | [] => (s, [])
  | c :: rest =>
      if (old_chain <? List.length chain)%nat
      then run_chain rest old_chain (run_cleanup c s)
      else (s, chain)
  end.

(** Modelled from the spec: [do_cleanups] (cleanups.c) runs the
    cleanups registered since [old_chain], newest first. *)
Definition do_cleanups (old_chain : nat) (s : gdb_state) : gdb_state :=
  let '(s', chain) := run_chain (cleanup_chain s) old_chain s in
  set_cleanup_chain chain s'.

(** Modelled from the spec: [discard_cleanups] (cleanups.c) forgets
    them without running them. *)
Definition discard_cleanups (old_chain : nat) (s : gdb_state) : gdb_state :=
  set_cleanup_chain
    (skipn (List.length (cleanup_chain s) - old_chain) (cleanup_chain s)) s.

(** The first instance of this backend on the stack, and the stack
    without it. *)
Fixpoint unlink_core_target (st : list target_ops)
  : option core_target_ops_with_data * list target_ops :=
  match st with
  | [] => (None, [])
  | core_target cops :: rest => (Some cops, rest)
  | t :: rest => let '(found, rest') := unlink_core_target rest in (found, t :: rest')
  end.

(** Modelled from the spec: [unpush_target (&core_ops)] (target.c)
    ("Pop any previously attached instance of this backend
    (idempotent)"): the instance is unlinked and closed through
    [to_xclose]. *)
Definition unpush_target_core_ops (s : gdb_state) : gdb_state :=
  match unlink_core_target (target_stack s) with
  | (Some cops, st) => core_xclose cops (set_target_stack st s)
  | (None, _) => s
  end.

(** Modelled from the spec: [push_target] (target.c) ("Push this backend
    onto the target stack").  After [target_preopen] nothing above the
    file stratum is left, so the new target goes on top; from then on
    the stack owns it. *)
Definition push_target (cops : core_target_ops_with_data) (s : gdb_state) : gdb_state :=
  set_new_cops None (set_target_stack (core_target cops :: target_stack s) s).

(** [get_core_target_ops]: the target at the process stratum, if it is
    an instance of this backend. *)
Definition get_core_target_ops (s : gdb_state) : option core_target_ops_with_data :=
  match find (fun t => to_stratum t =? process_stratum) (target_stack s) with
  | Some (core_target cops) => Some cops
  | _ => None
  end.

(* ================================================================== *)
(** ** add_to_thread_list *)

(** Called for every section of the container; [reg_sect] is the
    section named [.reg], if there is one.  The pid is read from the
    global [core_bfd], which [core_open] has set by then. *)
Definition add_to_thread_list (asect : asection) (reg_sect : option asection)
           (s : gdb_state) : gdb_state :=
  if negb (startswith (sec_name asect) ".reg/") then s
  else
    match core_bfd s with
    | None => s
    | Some cbfd =>
        let core_tid := atoi (string_drop 5 (sec_name asect)) in
        let pid := bfd_core_file_pid cbfd in
        let fake_pid := pid =? 0 in
        let pid := if fake_pid then CORELOW_PID else pid in
        let lwpid := core_tid in
        let s :=
          if inf_pid (current_inferior s) =? 0
          then set_fake_pid_p fake_pid (inferior_appeared pid s)
          else s in
        let ptid := ptid_build pid lwpid 0 in
        let s := add_thread ptid s in
        match reg_sect with
        | Some r => if filepos asect =? filepos r
                    then set_inferior_ptid ptid s      (* make it current *)
                    else s
        | None => s
        end
    end.

Definition bfd_map_over_sections {A} (abfd : bfd) (f : asection -> A -> A) (a : A) : A :=
  fold_left (fun acc asect => f asect acc) (bfd_sections abfd) a.

(* ================================================================== *)
(** ** The register reader *)

Definition fault {A} : M A := fun s => (Fault, s).

(** regset.h: accept a larger regset section size in a core file. *)
Definition REGSET_VARIABLE_SIZE : Z := 1.

(** [NAME] for a single-threaded core, [NAME/LWP] otherwise. *)
Definition thread_section_name (name : string) (s : gdb_state) : string :=
  if negb (ptid_get_lwp (inferior_ptid s) =? 0)
  then (name ++ "/" ++ format_ld (ptid_get_lwp (inferior_ptid s)))%string
  else name.

Definition supply (c : supply_call) : M unit :=
  exec (fun s => set_regcache (regcache s ++ [c]) s).

(** [regset] is [None] for a null pointer.  [size] is a [bfd_size_type]
    and [min_size] an [int], so the comparisons convert [min_size] to
    64 bits unsigned.  The static buffer holding the section name is
    kept out of [allocated]. *)
Definition get_core_register_section (regset : option regset) (name : string)
           (min_size which : Z) (human_name : string) (required : bool) : M unit :=
  cops <- gets get_core_target_ops ;;
  section_name <- gets (thread_section_name name) ;;
  cbfd <- gets core_bfd ;;
  match cbfd with
  | None => fault
  | Some cbfd =>
      match bfd_get_section_by_name cbfd section_name with
      | None =>
          if required then warning (warn_couldnt_find_registers human_name)
          else ret tt
      | Some section =>
          let size := wrap_u64 (bfd_section_size section) in
          if size <? wrap_u64 min_size
          then warning (warn_section_too_small section_name)
          else
            (if negb (size =? wrap_u64 min_size)
             then match regset with
                  | None => fault                       (* regset->flags *)
                  | Some rs =>
                      if Z.land (regset_flags rs) REGSET_VARIABLE_SIZE =? 0
                      then warning (warn_unexpected_size section_name)
                      else ret tt
                  end
             else ret tt) ;;;
            match bfd_get_section_contents section 0 size with
            | None => warning (warn_couldnt_read_registers human_name name)
            | Some contents =>
                match regset with
                | Some rs => supply (supply_regset rs (-1) contents size)
                | None =>
                    match cops with
                    | Some {| core_vec := Some cf |} =>
                        if core_read_registers_p cf
                        then supply (core_read_registers cf contents size which
                                                         (sec_vma section))
                        else fault
                    | _ => fault                        (* gdb_assert *)
                    end
                end
            end
      end
  end.

(** Callback for one register note section the architecture reports.
    A missing human name reaches the messages as printf shows a null
    string. *)
Definition get_core_registers_cb (sect : core_regset_section) : M unit :=
  let sect_name := crs_sect_name sect in
  let required := String.eqb sect_name ".reg" in
  let human_name :=
    match crs_human_name sect with
    | Some h => h
    | None => if String.eqb sect_name ".reg" then "general-purpose"
              else if String.eqb sect_name ".reg2" then "floating-point"
              else "(null)"
    end in
  get_core_register_section (crs_regset sect) sect_name (crs_size sect) (-1)
                            human_name required.

Fixpoint for_each {A} (f : A -> M unit) (l : list A) : M unit :=
  match l with
  | [] => ret tt
  | x :: r => f x ;;; for_each f r
  end.

Definition get_core_registers : M unit :=
  cops <- gets get_core_target_ops ;;
  match cops with
  | None => fault
  | Some cops =>
      if negb (gdbarch_has_regset_iterator (core_gdbarch cops))
         && match core_vec cops with
            | None => true
            | Some cf => negb (core_read_registers_p cf)
            end
      then warning msg_cant_fetch_registers
      else
        match core_gdbarch cops with
        | None => fault                                 (* gdb_assert (gdbarch != NULL) *)
        | Some g =>
            (if gdbarch_iterate_over_regset_sections_p g
             then for_each get_core_registers_cb (gdbarch_iterate_over_regset_sections g)
             else
               get_core_register_section None ".reg" 0 0 "general-purpose" true ;;;
               get_core_register_section None ".reg2" 0 2 "floating-point" false) ;;;
            (* Mark all registers not found in the core as unavailable. *)
            supply supply_unavailable
        end
  end.

(* ================================================================== *)
(** ** core_open *)

(** What the world outside corelow.c answers during one [core_open]. *)
Record open_request : Type := {
  arg : option string;
  from_tty : bool;
  tilde_expand : string -> string;
  current_directory : string;
  gdb_open_cloexec_ok : bool;               (* scratch_chan >= 0 *)
  gdb_bfd_fopen : option bfd;
  build_section_table_status : Z;
  post_create_inferior_throws : bool
}.

Definition IS_ABSOLUTE_PATH (f : string) : bool := String.prefix "/" f.

Definition TARGET_NEW (s : gdb_state) : gdb_state :=
  set_new_cops (Some {| core_vec := None; core_gdbarch := None; core_data := None |})
               (xmalloc blk_cops s).

Definition update_new_cops (f : core_target_ops_with_data -> core_target_ops_with_data)
           (s : gdb_state) : gdb_state :=
  match new_cops s with
  | Some cops => set_new_cops (Some (f cops)) s
  | None => s
  end.

Definition SEC_ALLOC : Z := 1.

(** Modelled from the spec: [build_section_table] is part of exec.c.  It
    allocates the table, enters every allocated section of the container
    with its address range, and returns non-zero on failure. *)
Definition section_table_of (abfd : bfd) : list target_section :=
  map (fun a => {| ts_addr := sec_vma a; ts_endaddr := sec_vma a + sec_size a;
                   the_bfd_section := a |})
      (filter (fun a => negb (Z.land (sec_flags a) SEC_ALLOC =? 0)) (bfd_sections abfd)).

Definition build_section_table (abfd : bfd) (status : Z) : M Z :=
  exec (fun s =>
          update_new_cops (fun c => {| core_vec := core_vec c; core_gdbarch := core_gdbarch c;
                                       core_data := Some (section_table_of abfd) |})
                          (xmalloc blk_sections s)) ;;;
  ret status.

(** Build up thread list from BFD sections, and possibly set the
    current thread to the .reg/NN section matching the .reg section;
    without a current thread after that, take the first thread, or make
    one up. *)
Definition core_open_threads (temp_bfd : bfd) : M unit :=
  exec (bfd_map_over_sections temp_bfd
          (fun asect => add_to_thread_list asect
                          (bfd_get_section_by_name temp_bfd ".reg"))) ;;;
  iptid <- gets inferior_ptid ;;
  if ptid_equal iptid null_ptid
  then
    thread <- gets first_thread_of_process ;;
    match thread with
    | None =>
        exec (inferior_appeared CORELOW_PID) ;;;
        exec (set_inferior_ptid (pid_to_ptid CORELOW_PID)) ;;;
        exec (add_thread (pid_to_ptid CORELOW_PID))
    | Some t => exec (switch_to_thread t)
    end
  else ret tt.

(** From [post_create_inferior] to the end of [core_open].  The calls
    under TRY/CATCH ([target_update_thread_list], [thread_command])
    and the frame printing do not reach the state kept here. *)
Definition core_open_report (rq : open_request) (temp_bfd : bfd) : M unit :=
  (if post_create_inferior_throws rq then error err_post_create_inferior
   else ret tt) ;;;
  match bfd_core_file_failing_command temp_bfd with
  | Some p => warning (msg_core_was_generated_by p)
  | None => ret tt
  end ;;;
  (let siggy := bfd_core_file_failing_signal temp_bfd in
   if 0 <? siggy then warning (msg_program_terminated_with_signal siggy)
   else ret tt) ;;;
  (* Fetch all registers from core file. *)
  get_core_registers.

(** From the allocation of the new target to [push_target]. *)
Definition core_open_install (core_file_fns : list core_fns) (rq : open_request)
           (temp_bfd : bfd) : M nat :=
  exec unpush_target_core_ops ;;;
  exec (set_core_bfd (Some temp_bfd)) ;;;
  exec TARGET_NEW ;;;
  old_chain <- make_cleanup cleanup_core_close ;;
  let core_gdbarch_ := gdbarch_from_bfd temp_bfd in
  exec (update_new_cops
          (fun c => {| core_vec := core_vec c; core_gdbarch := core_gdbarch_;
                       core_data := core_data c |})) ;;;
  (* Find a suitable core file handler to munch on core_bfd *)
  core_vec_ <- sniff_core_bfd core_file_fns temp_bfd core_gdbarch_ ;;
  exec (update_new_cops
          (fun c => {| core_vec := core_vec_; core_gdbarch := core_gdbarch c;
                       core_data := core_data c |})) ;;;
  (* validate_files () only warns. *)
  (* Find the data section *)
  status <- build_section_table temp_bfd (build_section_table_status rq) ;;
  (if negb (status =? 0)
   then error (err_cant_find_sections (bfd_get_filename temp_bfd))
   else ret tt) ;;;
  (* If we have no exec file, try to set the architecture from the core file. *)
  exec (fun s => match exec_bfd s with
                 | None => set_target_gdbarch (gdbarch_from_bfd temp_bfd) s
                 | Some _ => s
                 end) ;;;
  ret old_chain.

(** From [push_target] on: the target is on the stack and the cleanup
    that would close it is discarded. *)
Definition core_open_pushed (rq : open_request) (temp_bfd : bfd)
           (cops : core_target_ops_with_data) (old_chain : nat) : M unit :=
  exec (push_target cops) ;;;
  exec (discard_cleanups old_chain) ;;;
  (* Do this before acknowledging the inferior, so if post_create_inferior
     throws we aren't left with threads from the previous inferior. *)
  exec init_thread_list ;;;
  exec (set_inferior_ptid null_ptid) ;;;
  (* registers_changed (): the register and frame caches of a previous
     session are dropped. *)
  exec (set_regcache []) ;;;
  core_open_threads temp_bfd ;;;
  core_open_report rq temp_bfd.

(** The body of [core_open] after [target_preopen], which is the target
    stack's own: the embedding starts from the state it leaves. *)
Definition core_open_body (core_file_fns : list core_fns) (rq : open_request) : M unit :=
  match arg rq with
  | None =>
      cbfd <- gets core_bfd ;;
      error (err_no_core_file_specified
               (match cbfd with Some _ => true | None => false end))
  | Some arg =>
      let filename := tilde_expand rq arg in
      exec (xmalloc blk_filename) ;;;
      let filename :=
        if negb (IS_ABSOLUTE_PATH filename)
        then (current_directory rq ++ "/" ++ filename)%string
        else filename in
      old_chain <- make_cleanup cleanup_xfree_filename ;;
      (if gdb_open_cloexec_ok rq then ret tt else error (err_perror filename)) ;;;
      temp_bfd <- match gdb_bfd_fopen rq with
                  | None => error (err_perror filename)
                  | Some b => exec (gdb_bfd_ref b) ;;; ret b
                  end ;;
      (if negb (bfd_check_format_core temp_bfd)
          && negb (gdb_check_format core_file_fns temp_bfd)
       then
         make_cleanup (cleanup_bfd_unref (bfd_get_filename temp_bfd)) ;;;
         error (err_not_a_core_dump filename)
       else ret tt) ;;;
      (* Looks semi-reasonable.  Toss the old core file and work on the new. *)
      exec (do_cleanups old_chain) ;;;
      old_chain <- core_open_install core_file_fns rq temp_bfd ;;
      cops <- gets new_cops ;;
      match cops with
      | None => fault
      | Some cops => core_open_pushed rq temp_bfd cops old_chain
      end
  end.

(** An exception leaving [core_open] runs the cleanups registered since
    its entry; the older ones are the caller's. *)
Definition core_open (core_file_fns : list core_fns) (rq : open_request) : M unit :=
  fun s =>
    match core_open_body core_file_fns rq s with
    | (Throw e, s') => (Throw e, do_cleanups (List.length (cleanup_chain s)) s')
    | r => r
    end.

(* ================================================================== *)
(** ** The partial-transfer router *)

Inductive target_object : Type :=
| TARGET_OBJECT_MEMORY
| TARGET_OBJECT_AUXV
| TARGET_OBJECT_WCOOKIE
| TARGET_OBJECT_LIBRARIES
| TARGET_OBJECT_LIBRARIES_AIX
| TARGET_OBJECT_SPU
| TARGET_OBJECT_SIGNAL_INFO
| TARGET_OBJECT_other (kind : Z).

Inductive target_xfer_status : Type :=
| TARGET_XFER_OK
| TARGET_XFER_EOF
| TARGET_XFER_E_IO.

(** What a call leaves behind: the status, [*xfered_len] when it was
    assigned, and the read buffer. *)
Record xfer_result : Type := {
  xfer_status : target_xfer_status;
  xfered_len : option Z;
  xfer_readbuf : option (list Z)
}.

Definition xfer_done (st : target_xfer_status) (readbuf : option (list Z)) : xfer_result :=
  {| xfer_status := st; xfered_len := None; xfer_readbuf := readbuf |}.

Definition xfer_ok (n : Z) (readbuf : list Z) : xfer_result :=
  {| xfer_status := TARGET_XFER_OK; xfered_len := Some n; xfer_readbuf := Some readbuf |}.

(** Copy [data] into [buf] from index [at_]; [None] when it does not fit. *)
Definition store_bytes (buf : list Z) (at_ : Z) (data : list Z) : option (list Z) :=
  if (0 <=? at_) && (at_ + Z.of_nat (List.length data) <=? Z.of_nat (List.length buf))
  then Some (firstn (Z.to_nat at_) buf ++ data
             ++ skipn (Z.to_nat at_ + List.length data) buf)
  else None.

(** Modelled from the spec: the memory service ([section_table_xfer_memory_partial],
    exec.c).  A read is served from the first section of the table that
    holds the start address, clipped to that section; writes are
    rejected; an address no section holds yields end of file. *)
Fixpoint section_table_xfer_memory_partial (readbuf writebuf : option (list Z))
         (offset len : Z) (sections : list target_section) : xfer_result :=
  match writebuf with
  | Some _ => xfer_done TARGET_XFER_E_IO readbuf
  | None =>
      match sections with
      | [] => xfer_done TARGET_XFER_EOF readbuf
      | p :: rest =>
          if (ts_addr p <=? offset) && (offset <? ts_endaddr p)
          then
            let n := Z.min len (ts_endaddr p - offset) in
            match bfd_get_section_contents (the_bfd_section p) (offset - ts_addr p) n,
                  readbuf with
            | Some data, Some buf =>
                match store_bytes buf 0 data with
                | Some buf' => if n =? 0 then xfer_done TARGET_XFER_EOF readbuf
                               else xfer_ok n buf'
                | None => xfer_done TARGET_XFER_E_IO readbuf
                end
            | _, _ => xfer_done TARGET_XFER_E_IO readbuf
            end
          else section_table_xfer_memory_partial readbuf writebuf offset len rest
      end
  end.

(** The block the source writes three times, for [.auxv], [.wcookie]
    and [SPU/<annex>]: the named section clipped to the request. *)
Definition xfer_section (cbfd : bfd) (name : string) (complaint : message)
           (readbuf : list Z) (offset len : Z) : M xfer_result :=
  match bfd_get_section_by_name cbfd name with
  | None => ret (xfer_done TARGET_XFER_E_IO (Some readbuf))
  | Some section =>
      let size := wrap_u64 (bfd_section_size section) in
      if size <=? offset then ret (xfer_done TARGET_XFER_EOF (Some readbuf))
      else
        let size := size - offset in
        let size := if len <? size then len else size in
        if size =? 0 then ret (xfer_done TARGET_XFER_EOF (Some readbuf))
        else
          match bfd_get_section_contents section offset size with
          | None => warning complaint ;;; ret (xfer_done TARGET_XFER_E_IO (Some readbuf))
          | Some data =>
              match store_bytes readbuf 0 data with
              | Some buf => ret (xfer_ok size buf)
              | None => fault
              end
          end
  end.

(** *** The list of SPU ids *)

Record spuid_list : Type := {
  buf : list Z;
  sl_offset : Z;        (* ULONGEST *)
  sl_len : Z;           (* LONGEST *)
  pos : Z;              (* ULONGEST *)
  written : Z           (* ULONGEST *)
}.

Definition expect_prefix (lit s : string) : option string :=
  if String.prefix lit s then Some (string_drop (String.length lit) s) else None.

(** [sscanf (name, "SPU/%d/regs%n", &fd, &pos)]: [Some fd] when the
    input reaches [%n], that is when [pos] comes back non-zero. *)
Definition sscanf_spu_regs (name : string) : option Z :=
  match expect_prefix "SPU/" name with
  | None => None
  | Some r1 =>
      match strtol10 r1 with
      | None => None
      | Some (v, r2) =>
          match expect_prefix "/regs" r2 with
          | None => None
          | Some _ => Some (wrap_int v)
          end
      end
  end.

(** [store_unsigned_integer (addr, 4, byte_order, val)]: the four low
    bytes of [val]. *)
Definition store_unsigned_integer_4 (big_endian : bool) (val : Z) : list Z :=
  let b0 := val mod 256 in
  let b1 := (val / 256) mod 256 in
  let b2 := (val / 65536) mod 256 in
  let b3 := (val / 16777216) mod 256 in
  if big_endian then [b3; b2; b1; b0] else [b0; b1; b2; b3].

(** [None] is a store outside the caller's buffer. *)
Definition add_to_spuid_list (abfd : bfd) (asect : asection) (list : spuid_list)
  : option spuid_list :=
  match sscanf_spu_regs (sec_name asect) with
  | None => Some list
  | Some fd =>
      let next := wrap_u64 (pos list + 4) in
      if (sl_offset list <=? pos list)
         && (next <=? wrap_u64 (sl_offset list + sl_len list))
      then
        match store_bytes (buf list) (pos list - sl_offset list)
                          (store_unsigned_integer_4 (bfd_big_endian abfd) fd) with
        | Some b =>
            Some {| buf := b; sl_offset := sl_offset list; sl_len := sl_len list;
                    pos := next; written := wrap_u64 (written list + 4) |}
        | None => None
        end
      else
        Some {| buf := buf list; sl_offset := sl_offset list; sl_len := sl_len list;
                pos := next; written := written list |}
  end.

Fixpoint map_spuid_list (abfd : bfd) (sections : list asection) (list : spuid_list)
  : option spuid_list :=
  match sections with
  | [] => Some list
  | asect :: rest =>
      match add_to_spuid_list abfd asect list with
      | Some list' => map_spuid_list abfd rest list'
      | None => None
      end
  end.

(** *** Signal information *)

Definition siginfo_section_name (s : gdb_state) : string :=
  thread_section_name ".note.linuxcore.siginfo" s.

(** Returns -1 on failure, otherwise the number of bytes read, as a
    [LONGEST]; the second component is the read buffer afterwards. *)
Definition get_core_siginfo (abfd : bfd) (readbuf : list Z) (offset len : Z)
  : M (Z * list Z) :=
  section_name <- gets siginfo_section_name ;;
  match bfd_get_section_by_name abfd section_name with
  | None => ret (-1, readbuf)
  | Some section =>
      match bfd_get_section_contents section offset len with
      | None => ret (-1, readbuf)
      | Some data =>
          match store_bytes readbuf 0 data with
          | Some b => ret (wrap_s64 len, b)
          | None => fault
          end
      end
  end.

(** *** core_xfer_partial *)

Definition beneath_xfer : Type :=
  target_object -> option string -> option (list Z) -> option (list Z) -> Z -> Z
  -> xfer_result.

Definition with_core_bfd {A} (k : bfd -> M A) : M A :=
  cbfd <- gets core_bfd ;;
  match cbfd with
  | Some b => k b
  | None => fault
  end.

(** The [TARGET_OBJECT_SPU] case, which the two library cases fall
    through to. *)
Definition core_xfer_spu (annex : option string) (readbuf writebuf : option (list Z))
           (offset len : Z) : M xfer_result :=
  match readbuf, annex with
  | Some rb, Some annex =>
      let sectionstr := ("SPU/" ++ annex)%string in
      if (100 <=? String.length sectionstr)%nat then fault        (* xsnprintf *)
      else with_core_bfd (fun cbfd =>
             xfer_section cbfd sectionstr warn_couldnt_read_spu rb offset len)
  | Some rb, None =>
      (* NULL annex requests list of all present spuids. *)
      with_core_bfd (fun cbfd =>
        let list := {| buf := rb; sl_offset := offset; sl_len := wrap_s64 len;
                       pos := 0; written := 0 |} in
        match map_spuid_list cbfd (bfd_sections cbfd) list with
        | None => fault
        | Some list =>
            if written list =? 0
            then ret (xfer_done TARGET_XFER_EOF (Some (buf list)))
            else ret (xfer_ok (written list) (buf list))
        end)
  | None, _ => ret (xfer_done TARGET_XFER_E_IO readbuf)
  end.

(** What the two library cases do with the extractor of the
    architecture, which hands out the bytes it puts into the buffer. *)
Definition core_xfer_extractor (extract : Z -> Z -> list Z)
           (readbuf writebuf : option (list Z)) (offset len : Z) : M xfer_result :=
  match writebuf with
  | Some _ => ret (xfer_done TARGET_XFER_E_IO readbuf)
  | None =>
      let data := extract offset len in
      let n := Z.of_nat (List.length data) in
      let status := if n =? 0 then TARGET_XFER_EOF else TARGET_XFER_OK in
      match readbuf with
      | None =>
          ret {| xfer_status := status; xfered_len := Some n; xfer_readbuf := None |}
      | Some rb =>
          match store_bytes rb 0 data with
          | None => fault
          | Some b =>
              ret {| xfer_status := status; xfered_len := Some n;
                     xfer_readbuf := Some b |}
          end
      end
  end.

Definition core_xfer_libraries_aix (cops : core_target_ops_with_data)
           (annex : option string) (readbuf writebuf : option (list Z))
           (offset len : Z) : M xfer_result :=
  match core_gdbarch cops with
  | Some {| gdbarch_core_xfer_shared_libraries_aix := Some extract |} =>
      core_xfer_extractor extract readbuf writebuf offset len
  | _ => (* FALL THROUGH *) core_xfer_spu annex readbuf writebuf offset len
  end.

Definition core_xfer_libraries (cops : core_target_ops_with_data)
           (annex : option string) (readbuf writebuf : option (list Z))
           (offset len : Z) : M xfer_result :=
  match core_gdbarch cops with
  | Some {| gdbarch_core_xfer_shared_libraries := Some extract |} =>
      core_xfer_extractor extract readbuf writebuf offset len
  | _ => (* FALL THROUGH *) core_xfer_libraries_aix cops annex readbuf writebuf offset len
  end.

Definition core_xfer_partial (beneath : beneath_xfer) (object : target_object)
           (annex : option string) (readbuf writebuf : option (list Z))
           (offset len : Z) : M xfer_result :=
  cops <- gets get_core_target_ops ;;
  match object with
  | TARGET_OBJECT_MEMORY =>
      match cops with
      | Some {| core_data := Some sections |} =>
          ret (section_table_xfer_memory_partial readbuf writebuf offset len sections)
      | Some {| core_data := None |} =>
          ret (section_table_xfer_memory_partial readbuf writebuf offset len [])
      | None => fault
      end
  | TARGET_OBJECT_AUXV =>
      match readbuf with
      | Some rb => with_core_bfd (fun cbfd =>
                     xfer_section cbfd ".auxv" warn_couldnt_read_auxv rb offset len)
      | None => ret (xfer_done TARGET_XFER_E_IO readbuf)
      end
  | TARGET_OBJECT_WCOOKIE =>
      match readbuf with
      | Some rb => with_core_bfd (fun cbfd =>
                     xfer_section cbfd ".wcookie" warn_couldnt_read_wcookie rb offset len)
      | None => ret (xfer_done TARGET_XFER_E_IO readbuf)
      end
  | TARGET_OBJECT_LIBRARIES =>
      match cops with
      | Some cops => core_xfer_libraries cops annex readbuf writebuf offset len
      | None => fault
      end
  | TARGET_OBJECT_LIBRARIES_AIX =>
      match cops with
      | Some cops => core_xfer_libraries_aix cops annex readbuf writebuf offset len
      | None => fault
      end
  | TARGET_OBJECT_SPU => core_xfer_spu annex readbuf writebuf offset len
  | TARGET_OBJECT_SIGNAL_INFO =>
      match readbuf with
      | Some rb =>
          with_core_bfd (fun cbfd =>
            r <- get_core_siginfo cbfd rb offset len ;;
            let '(l, b) := r in
            if 0 <? l
            then ret (xfer_ok len b)
            else ret (xfer_done TARGET_XFER_E_IO (Some b)))
      | None => ret (xfer_done TARGET_XFER_E_IO readbuf)
      end
  | TARGET_OBJECT_other _ =>
      ret (beneath object annex readbuf writebuf offset len)
  end.

(* ================================================================== *)
(** ** Notions used by the statements *)

(** The handlers whose sniffer accepts the container, in the order the
    registry is walked. *)
Definition accepting (core_file_fns : list core_fns) (abfd : bfd) : list core_fns :=
  filter (fun cf => core_sniffer cf (core_flavour cf) abfd) core_file_fns.

(** A section that announces a thread. *)
Definition is_thread_section (a : asection) : bool := startswith (sec_name a) ".reg/".

(** The process id the threads of a core are given. *)
Definition core_pid (abfd : bfd) : Z :=
  if bfd_core_file_pid abfd =? 0 then CORELOW_PID else bfd_core_file_pid abfd.

(** The thread a [.reg/...] section stands for. *)
Definition thread_of_section (abfd : bfd) (a : asection) : ptid_t :=
  ptid_build (core_pid abfd) (atoi (string_drop 5 (sec_name a))) 0.

Definition inferiors (s : gdb_state) : list inferior :=
  current_inferior s :: other_inferiors s.

(** The inferior records that stand for a process. *)
Definition live_inferiors (s : gdb_state) : list inferior :=
  filter (fun i => negb (inf_pid i =? 0)) (inferiors s).

(** [s'] differs from [s] in the current inferior, the thread list and
    the current thread at most. *)
Definition touches_threads_only (s s' : gdb_state) : Prop :=
  exists c t p,
    s' = set_inferior_ptid p (set_thread_list t (set_inferiors c (other_inferiors s) s)).

(** The errors [core_open] throws before [push_target]. *)
Definition failed_before_push (e : message) : bool :=
  match e with
  | err_no_core_file_specified _ | err_perror _ | err_not_a_core_dump _
  | err_no_core_file_handler _ | err_cant_find_sections _ => true
  | _ => false
  end.

Definition is_core_target (t : target_ops) : bool :=
  match t with
  | core_target _ => true
  | other_target _ _ => false
  end.

Definition has_core_target (st : list target_ops) : bool := existsb is_core_target st.

Definition block_eq_dec (a b : block) : {a = b} + {a <> b}.
Proof. decide equality. Defined.

(** [s'] holds nothing that [s] does not hold: no target, no reference
    to a container, no memory, no process, no thread, no cleanup. *)
Definition nothing_new (s s' : gdb_state) : Prop :=
  (forall t, In t (target_stack s') -> In t (target_stack s))
  /\ (forall f, (count_occ string_dec (bfd_refs s') f
                 <= count_occ string_dec (bfd_refs s) f)%nat)
  /\ (forall k, (count_occ block_eq_dec (allocated s') k
                 <= count_occ block_eq_dec (allocated s) k)%nat)
  /\ (forall i, In i (live_inferiors s') -> In i (live_inferiors s))
  /\ (forall t, In t (thread_list s') -> In t (thread_list s))
  /\ cleanup_chain s' = cleanup_chain s.

(** The state while the new target [cops] is under construction on top
    of [u], with [ms] said in the meantime. *)
Definition installing (temp_bfd : bfd) (cops : core_target_ops_with_data)
           (ms : list message) (u : gdb_state) : gdb_state :=
  set_messages (messages u ++ ms)
    (set_new_cops (Some cops)
       (set_cleanup_chain (cleanup_core_close :: cleanup_chain u)
          (set_allocated
             (match core_data cops with
              | Some _ => [blk_sections]
              | None => []
              end ++ blk_cops :: allocated u)
             (set_core_bfd (Some temp_bfd) u)))).

(** What is left of [u] once the target under construction is closed
    again: the current thread and its process are gone, the shared
    objects cleared, one reference to the container given back. *)
Definition abandoned (temp_bfd : bfd) (u : gdb_state) : gdb_state :=
  let pid := ptid_get_pid (inferior_ptid u) in
  let u1 := set_inferior_ptid null_ptid u in
  let u2 := if negb (pid =? 0) then exit_inferior_silent pid u1 else u1 in
  set_new_cops None
    (set_core_bfd None (gdb_bfd_unref (bfd_get_filename temp_bfd) (clear_solib u2))).

(** Without an exec file the architecture of the core is adopted. *)
Definition adopt_core_gdbarch (temp_bfd : bfd) (s : gdb_state) : gdb_state :=
  match exec_bfd s with
  | None => set_target_gdbarch (gdbarch_from_bfd temp_bfd) s
  | Some _ => s
  end.

(** The state the thread list is built from, right after the push. *)
Definition pushed (cops : core_target_ops_with_data) (old_chain : nat)
           (x : gdb_state) : gdb_state :=
  set_regcache []
    (set_inferior_ptid null_ptid
       (init_thread_list (discard_cleanups old_chain (push_target cops x)))).

(* ================================================================== *)
(** ** Example containers *)

Definition note_section (name : string) (pos size : Z) : asection :=
  {| sec_name := name; sec_vma := 0; sec_size := size; filepos := pos;
     sec_flags := 0; sec_contents := Some (repeat 0 (Z.to_nat size)) |}.

Definition gp_regset : regset := {| regset_name := "gp"; regset_flags := 0 |}.

(** An architecture with a register-set iterator reporting [.reg]. *)
Definition regset_arch : gdbarch :=
  {| gdbarch_name := "regset-arch";
     gdbarch_iterate_over_regset_sections_p := true;
     gdbarch_iterate_over_regset_sections :=
       [ {| crs_sect_name := ".reg"; crs_size := 4; crs_regset := Some gp_regset;
            crs_human_name := None |} ];
     gdbarch_core_xfer_shared_libraries := None;
     gdbarch_core_xfer_shared_libraries_aix := None;
     gdbarch_num_regs := 4 |}.

(** An architecture without one: the legacy handlers are consulted. *)
Definition legacy_arch : gdbarch :=
  {| gdbarch_name := "legacy-arch";
     gdbarch_iterate_over_regset_sections_p := false;
     gdbarch_iterate_over_regset_sections := [];
     gdbarch_core_xfer_shared_libraries := None;
     gdbarch_core_xfer_shared_libraries_aix := None;
     gdbarch_num_regs := 4 |}.

Definition example_core (arch : gdbarch) (big_endian : bool) (pid : Z)
           (sections : list asection) : bfd :=
  {| bfd_get_filename := "/tmp/core"; bfd_get_flavour := 5;
     bfd_sections := sections; bfd_big_endian := big_endian;
     bfd_check_format_core := true; bfd_core_file_pid := pid;
     bfd_core_file_failing_command := Some "a.out";
     bfd_core_file_failing_signal := 11; gdbarch_from_bfd := Some arch |}.

(** A handler that sniffs by flavour, as [default_core_sniffer] does. *)
Definition flavour_handler (name : string) (flavour : Z) : core_fns :=
  {| core_fns_name := name; core_flavour := flavour;
     core_sniffer := default_core_sniffer; check_format := default_check_format;
     core_read_registers_p := true |}.

(** The debugger with an exec target only and one inferior without a
    process. *)
Definition initial_state : gdb_state :=
  {| target_stack := [other_target "exec" file_stratum]; core_bfd := None; bfd_refs := [];
     allocated := []; new_cops := None; cleanup_chain := [];
     current_inferior := no_process; other_inferiors := [];
     thread_list := []; inferior_ptid := null_ptid; so_list := [];
     exec_bfd := None; target_gdbarch := None; regcache := []; messages := [] |}.

Definition open_request_for (b : bfd) : open_request :=
  {| arg := Some "/tmp/core"; from_tty := true; tilde_expand := fun f => f;
     current_directory := "/tmp"; gdb_open_cloexec_ok := true;
     gdb_bfd_fopen := Some b; build_section_table_status := 0;
     post_create_inferior_throws := false |}.

(** A single-threaded core whose container reports no process id. *)
Definition pidless_core : bfd :=
  example_core regset_arch false 0 [note_section ".reg" 100 4].

(** A core with a [.reg/] section whose tail is not a number. *)
Definition odd_thread_core : bfd :=
  example_core regset_arch false 4321 [note_section ".reg/abc" 80 4].

(** The state in which [core_open] walks the sections of [b]. *)
Definition walking (b : bfd) : gdb_state := set_core_bfd (Some b) initial_state.

(** A core read through a legacy handler: no register-set iterator. *)
Definition legacy_core : bfd :=
  example_core legacy_arch false 4321 [note_section ".reg" 100 4].

(** A session on [b] as [core_open] leaves it up to the thread list,
    with [cf] as the chosen handler: what the register reader and the
    router find when they are called. *)
Definition session_on (b : bfd) (cf : option core_fns) : gdb_state :=
  {| target_stack :=
       [core_target {| core_vec := cf; core_gdbarch := gdbarch_from_bfd b;
                       core_data := Some (section_table_of b) |};
        other_target "exec" file_stratum];
     core_bfd := Some b; bfd_refs := [bfd_get_filename b];
     allocated := [blk_sections; blk_cops]; new_cops := None; cleanup_chain := [];
     current_inferior := {| inf_pid := core_pid b; fake_pid_p := bfd_core_file_pid b =? 0 |};
     other_inferiors := [];
     thread_list := [pid_to_ptid (core_pid b)];
     inferior_ptid := pid_to_ptid (core_pid b); so_list := [];
     exec_bfd := None; target_gdbarch := gdbarch_from_bfd b; regcache := [];
     messages := [] |}.

(** *** The list of SPU ids, seen as a list *)

(** The ids of the sections named [SPU/<id>/regs...], in the order of
    the sections. *)
Definition spu_ids_of (sections : list asection) : list Z :=
  flat_map (fun a => match sscanf_spu_regs (sec_name a) with
                     | Some fd => [fd]
                     | None => []
                     end) sections.

Definition spu_ids (abfd : bfd) : list Z := spu_ids_of (bfd_sections abfd).

(** What [add_to_spuid_list] does once it has read an id. *)
Definition emit_spuid (big_endian : bool) (fd : Z) (list : spuid_list)
  : option spuid_list :=
  let next := wrap_u64 (pos list + 4) in
  if (sl_offset list <=? pos list)
     && (next <=? wrap_u64 (sl_offset list + sl_len list))
  then
    match store_bytes (buf list) (pos list - sl_offset list)
                      (store_unsigned_integer_4 big_endian fd) with
    | Some b =>
        Some {| buf := b; sl_offset := sl_offset list; sl_len := sl_len list;
                pos := next; written := wrap_u64 (written list + 4) |}
    | None => None
    end
  else
    Some {| buf := buf list; sl_offset := sl_offset list; sl_len := sl_len list;
            pos := next; written := written list |}.

Fixpoint emit_spuids (big_endian : bool) (ids : list Z) (list : spuid_list)
  : option spuid_list :=
  match ids with
  | [] => Some list
  | fd :: rest =>
      match emit_spuid big_endian fd list with
      | Some list' => emit_spuids big_endian rest list'
      | None => None
      end
  end.

(** The window [offset, offset + len) in terms of slots of four bytes:
    the first slot that starts in it, the bytes before that slot, the
    number of whole slots that fit. *)
Definition spu_first_slot (offset : Z) : Z := (offset + 3) / 4.
Definition spu_gap (offset : Z) : Z := 4 * spu_first_slot offset - offset.
Definition spu_room (offset len : Z) : Z := (len - spu_gap offset) / 4.

(** The ids a request gets. *)
Definition spu_chunk (ids : list Z) (offset len : Z) : list Z :=
  firstn (Z.to_nat (spu_room offset len)) (skipn (Z.to_nat (spu_first_slot offset)) ids).

(** Their bytes. *)
Definition spu_image (big_endian : bool) (ids : list Z) : list Z :=
  List.concat (map (store_unsigned_integer_4 big_endian) ids).

Definition spu_section (id : string) : asection :=
  note_section ("SPU/" ++ id ++ "/regs")%string 0 256.

(** SPU contexts 7 and 3, in this order in the container. *)
Definition spu_core : bfd :=
  example_core regset_arch true 4321
               [spu_section "7"; note_section "SPU/7/mem" 0 16; spu_section "3"].

(** Two threads; [.reg] lies where [.reg/18] lies. *)
Definition two_thread_core : bfd :=
  example_core regset_arch false 0
               [note_section ".reg/17" 80 4; note_section ".reg/18" 100 4;
                note_section ".reg" 100 4].

(** A core with the signal information of its only thread. *)
Definition siginfo_core : bfd :=
  example_core regset_arch false 4321
    [ {| sec_name := ".note.linuxcore.siginfo"; sec_vma := 0; sec_size := 8;
         filepos := 200; sec_flags := 0;
         sec_contents := Some [11; 12; 13; 14; 15; 16; 17; 18] |} ].

(** [quiet c]: whatever [c] does, it never throws, and it leaves every
    part of the state alone except the register cache and the messages. *)
Definition quiet {A} (c : M A) : Prop :=
  forall s,
    (forall e, fst (c s) <> Throw e)
    /\ exists rc ms, snd (c s) = set_regcache rc (set_messages ms s).

(** The same request with [build_section_table] failing. *)
Definition open_request_without_sections (b : bfd) : open_request :=
  {| arg := Some "/tmp/core"; from_tty := true; tilde_expand := fun f => f;
     current_directory := "/tmp"; gdb_open_cloexec_ok := true;
     gdb_bfd_fopen := Some b; build_section_table_status := 1;
     post_create_inferior_throws := false |}.

(* ================================================================== *)
(** ** The rest of the target vector *)

(** What [core_detach] says: the error it throws, or the line it
    prints. *)
Inductive detach_message : Type :=
| err_too_many_arguments
| msg_no_core_file_now.

(** [core_detach] is reached through the target vector, so [ops] is the
    instance of this backend on the stack, which [unpush_target] unlinks
    and closes.  The result is the error thrown, or the lines printed.
    The frame cache is not part of the state kept here. *)
Definition core_detach (args : option string) (from_tty : bool) (s : gdb_state)
  : (detach_message + list detach_message) * gdb_state :=
  match args with
  | Some _ => (inl err_too_many_arguments, s)
  | None =>
      let s := unpush_target_core_ops s in
      (inr (if from_tty then [msg_no_core_file_now] else []), s)
  end.

Definition core_has_memory (s : gdb_state) : bool :=
  match core_bfd s with Some _ => true | None => false end.

Definition core_has_stack (s : gdb_state) : bool :=
  match core_bfd s with Some _ => true | None => false end.

Definition core_has_registers (s : gdb_state) : bool :=
  match core_bfd s with Some _ => true | None => false end.

(** Modelled from the spec: [normal_pid_to_str] (target.c) ("format as
    process <pid>"). *)
Definition normal_pid_to_str (ptid : ptid_t) : string :=
  ("process " ++ format_ld (ptid_get_pid ptid))%string.

(** [gdbarch_core_pid_to_str] is the formatter of each architecture,
    [None] where [gdbarch_core_pid_to_str_p] is false.  The LWP is a
    [long] and goes through an [int]. *)
Definition core_pid_to_str (gdbarch_core_pid_to_str : gdbarch -> option (ptid_t -> string))
           (ptid : ptid_t) : M string :=
  cops <- gets get_core_target_ops ;;
  match cops with
  | None => fault
  | Some cops =>
      match match core_gdbarch cops with
            | Some g => gdbarch_core_pid_to_str g
            | None => None
            end with
      | Some to_str => ret (to_str ptid)
      | None =>
          (* Try the LWPID field first. *)
          let pid := wrap_int (ptid_get_lwp ptid) in
          if negb (pid =? 0) then ret (normal_pid_to_str (pid_to_ptid pid))
          else
            (* Otherwise use the PID field, but only if it isn't a fake PID. *)
            inf <- gets (find_inferior_pid (ptid_get_pid ptid)) ;;
            match inf with
            | Some i => if negb (fake_pid_p i) then ret (normal_pid_to_str ptid)
                        else ret "<main task>"%string
            | None => ret "<main task>"%string
            end
      end
  end.

(* ================================================================== *)
(** ** Further notions used by the statements *)

(** The registry after the handlers of [l] have registered, in this
    order. *)
Definition registered (l : list core_fns) : list core_fns :=
  fold_left (fun core_file_fns cf => deprecated_add_core_fns cf core_file_fns) l [].

(** The handler accepts the container. *)
Definition sniffs (abfd : bfd) (cf : core_fns) : bool :=
  core_sniffer cf (core_flavour cf) abfd.

(** The file name [core_open] works with: expanded, and made absolute. *)
Definition core_filename (rq : open_request) (arg : string) : string :=
  let filename := tilde_expand rq arg in
  if negb (IS_ABSOLUTE_PATH filename)
  then (current_directory rq ++ "/" ++ filename)%string
  else filename.

(** The state [target_preopen] leaves, which is the state the embedding
    of [core_open] starts from: no target above the file stratum is on
    the stack, so that no core is open; no inferior has a process; no
    thread is current; no shared object is listed. *)
Definition preopened (s : gdb_state) : Prop :=
  (forall t, In t (target_stack s) -> to_stratum t <= file_stratum)
  /\ core_bfd s = None
  /\ live_inferiors s = []
  /\ inferior_ptid s = null_ptid
  /\ so_list s = [].

(** The state after [m] has been said. *)
Definition said (m : message) (s : gdb_state) : gdb_state :=
  set_messages (messages s ++ [m]) s.

(** The current thread is null or one of the listed threads. *)
Definition current_thread_listed (s : gdb_state) : Prop :=
  inferior_ptid s = null_ptid \/ In (inferior_ptid s) (thread_list s).

(** How [core_pid_to_str] labels a thread when the architecture has no
    formatter of its own; [fake] is the flag of the thread's inferior,
    set also when there is no such inferior. *)
Definition thread_label (fake : bool) (t : ptid_t) : string :=
  if negb (ptid_get_lwp t =? 0) then normal_pid_to_str (pid_to_ptid (ptid_get_lwp t))
  else if fake then "<main task>"%string
       else normal_pid_to_str t.

(** The registers handed to the register cache are a whole section of
    the container, as it is read from the file. *)
Definition whole_section (abfd : bfd) (c : supply_call) : Prop :=
  match c with
  | supply_regset _ _ contents size
  | core_read_registers _ contents size _ _ =>
      exists section,
        In section (bfd_sections abfd)
        /\ size = wrap_u64 (bfd_section_size section)
        /\ bfd_get_section_contents section 0 size = Some contents
  | supply_unavailable => True
  end.

(** What the register reader has to say. *)
Definition register_message (m : message) : Prop :=
  match m with
  | warn_couldnt_find_registers _ | warn_section_too_small _
  | warn_unexpected_size _ | warn_couldnt_read_registers _ _
  | msg_cant_fetch_registers => True
  | _ => False
  end.

(** [only_adds abfd c]: with [abfd] open, [c] never throws, and all it
    does to the state is to add whole sections of [abfd] to the register
    cache and messages of the register reader to the messages. *)
Definition only_adds {A} (abfd : bfd) (c : M A) : Prop :=
  forall s,
    core_bfd s = Some abfd ->
    (forall e, fst (c s) <> Throw e)
    /\ exists rc ms,
        Forall (whole_section abfd) rc
        /\ Forall register_message ms
        /\ snd (c s)
           = set_regcache (regcache s ++ rc) (set_messages (messages s ++ ms) s).

(** [adds_ok abfd c]: with [abfd] open, [c] runs to its end, and all it
    does to the state is to add whole sections of [abfd] to the register
    cache and messages of the register reader to the messages. *)
Definition adds_ok {A} (abfd : bfd) (c : M A) : Prop :=
  forall s,
    core_bfd s = Some abfd ->
    exists a rc ms,
      Forall (whole_section abfd) rc
      /\ Forall register_message ms
      /\ c s = (Ok a, set_regcache (regcache s ++ rc)
                                   (set_messages (messages s ++ ms) s)).

(** The warning for a listed register section a thread lacks: only
    [.reg] has one, under the human name the architecture gives or else
    as general-purpose registers. *)
Definition missing_register_warning (sect : core_regset_section) : list message :=
  if String.eqb (crs_sect_name sect) ".reg"
  then [warn_couldnt_find_registers
          (match crs_human_name sect with
           | Some h => h
           | None => "general-purpose"%string
           end)]
  else [].

(** The warnings for a list of them, in its order. *)
Definition missing_register_warnings (l : list core_regset_section) : list message :=
  flat_map missing_register_warning l.

(** The lines [core_open] prints about the core: the command that
    produced it, if the container knows it, and the signal, if there was
    one. *)
Definition core_banner (abfd : bfd) : list message :=
  match bfd_core_file_failing_command abfd with
  | Some p => [msg_core_was_generated_by p]
  | None => []
  end
  ++ (if 0 <? bfd_core_file_failing_signal abfd
      then [msg_program_terminated_with_signal (bfd_core_file_failing_signal abfd)]
      else []).

(** The section a read of [object] is served from, for the objects that
    are one section of the container. *)
Definition xfer_section_name (object : target_object) (annex : option string)
  : option string :=
  match object, annex with
  | TARGET_OBJECT_AUXV, _ => Some ".auxv"%string
  | TARGET_OBJECT_WCOOKIE, _ => Some ".wcookie"%string
  | TARGET_OBJECT_SPU, Some annex => Some ("SPU/" ++ annex)%string
  | _, _ => None
  end.

(** The warning when that section cannot be read. *)
Definition xfer_complaint (object : target_object) : message :=
  match object with
  | TARGET_OBJECT_AUXV => warn_couldnt_read_auxv
  | TARGET_OBJECT_WCOOKIE => warn_couldnt_read_wcookie
  | _ => warn_couldnt_read_spu
  end.

(** The objects [core_xfer_partial] answers from the container or the
    architecture, memory apart. *)
Definition answered_from_core (object : target_object) : bool :=
  match object with
  | TARGET_OBJECT_AUXV | TARGET_OBJECT_WCOOKIE | TARGET_OBJECT_LIBRARIES
  | TARGET_OBJECT_LIBRARIES_AIX | TARGET_OBJECT_SPU | TARGET_OBJECT_SIGNAL_INFO => true
  | TARGET_OBJECT_MEMORY | TARGET_OBJECT_other _ => false
  end.

(** [rest] does not go on with a digit. *)
Definition no_digit_ahead (rest : string) : bool :=
  match rest with
  | String c _ => negb (isdigit c)
  | EmptyString => true
  end.

(* ================================================================== *)
(** ** Further example data *)

(** A file the parser does not take for a core. *)
Definition text_file : bfd :=
  {| bfd_get_filename := "/tmp/notes.txt"; bfd_get_flavour := 0;
     bfd_sections := []; bfd_big_endian := false;
     bfd_check_format_core := false; bfd_core_file_pid := 0;
     bfd_core_file_failing_command := None;
     bfd_core_file_failing_signal := 0; gdbarch_from_bfd := None |}.

(** A request that names the file relative to the current directory. *)
Definition open_request_relative (name : string) (b : bfd) : open_request :=
  {| arg := Some name; from_tty := true; tilde_expand := fun f => f;
     current_directory := "/home/user"; gdb_open_cloexec_ok := true;
     gdb_bfd_fopen := Some b; build_section_table_status := 0;
     post_create_inferior_throws := false |}.

(** A request for a file that cannot be opened. *)
Definition open_request_unreadable (name : string) : open_request :=
  {| arg := Some name; from_tty := true; tilde_expand := fun f => f;
     current_directory := "/home/user"; gdb_open_cloexec_ok := false;
     gdb_bfd_fopen := None; build_section_table_status := 0;
     post_create_inferior_throws := false |}.

(** A single-threaded core whose container reports a process id. *)
Definition single_thread_core : bfd :=
  example_core regset_arch false 4321 [note_section ".reg" 100 4].


(** An architecture descriptor without a formatter for thread ids. *)
Definition no_core_pid_to_str (g : gdbarch) : option (ptid_t -> string) := None.

(** A target beneath that knows no object. *)
Definition no_beneath : beneath_xfer :=
  fun _ _ readbuf _ _ _ => xfer_done TARGET_XFER_E_IO readbuf.

(** A core with an auxiliary vector of six bytes. *)
Definition auxv_core : bfd :=
  example_core regset_arch false 4321
    [ {| sec_name := ".auxv"; sec_vma := 0; sec_size := 6;
         filepos := 300; sec_flags := 0;
         sec_contents := Some [21; 22; 23; 24; 25; 26] |} ].

(** The debugger after a live process is gone: no core, no process, but
    registers of that process still in the register cache. *)
Definition stale_registers : gdb_state :=
  set_regcache [supply_regset gp_regset (-1) [1; 2; 3; 4] 4] initial_state.

(* ================================================================== *)
(* Theorems *)

(* ------------------------------------------------------------------ *)
(** ** Machine integers *)

Lemma wrap_int_small (z : Z) : - 2 ^ 31 <= z < 2 ^ 31 -> wrap_int z = z.
Proof.
  intros H. unfold wrap_int.
  rewrite Z.mod_small; lia.
Qed.

Lemma wrap_u64_small (z : Z) : 0 <= z < 2 ^ 64 -> wrap_u64 z = z.
Proof. intros H. unfold wrap_u64. apply Z.mod_small; exact H. Qed.

Lemma wrap_s64_small (z : Z) : - 2 ^ 63 <= z < 2 ^ 63 -> wrap_s64 z = z.
Proof.
  intros H. unfold wrap_s64.
  rewrite Z.mod_small; lia.
Qed.

(* ------------------------------------------------------------------ *)
(** ** The format registry *)

Lemma last_default_irrelevant {A} (l : list A) (d d' : A) :
  l <> [] -> last l d = last l d'.
Proof.
  induction l as [| x l IH]; intros Hne; [congruence |].
  destruct l as [| y l]; [reflexivity |].
  change (last (y :: l) d = last (y :: l) d').
  apply IH. discriminate.
Qed.

Lemma accepting_length_le (cfs : list core_fns) (abfd : bfd) :
  (List.length (accepting cfs abfd) <= List.length cfs)%nat.
Proof.
  induction cfs as [| cf cfs IH]; simpl; [lia |].
  destruct (core_sniffer cf (core_flavour cf) abfd); simpl; lia.
Qed.

(** The loop leaves in [yummy] the last accepting handler it met and in
    [matches] how many it met. *)
Lemma sniff_loop_spec (abfd : bfd) (cfs : list core_fns) :
  forall (yummy : option core_fns) (matches : Z),
    0 <= matches ->
    matches + Z.of_nat (List.length cfs) < 2 ^ 31 ->
    sniff_loop cfs abfd yummy matches
    = (last (map Some (accepting cfs abfd)) yummy,
       matches + Z.of_nat (List.length (accepting cfs abfd))).
Proof.
  induction cfs as [| cf cfs IH]; intros yummy matches Hpos Hsmall.
  - simpl. f_equal. lia.
  - cbn [sniff_loop accepting filter].
    cbn [List.length] in Hsmall.
    destruct (core_sniffer cf (core_flavour cf) abfd) eqn:Hsniff.
    + rewrite wrap_int_small by lia.
      fold (accepting cfs abfd).
      rewrite IH by lia.
      cbn [map List.length]. f_equal; [| lia].
      destruct (accepting cfs abfd) as [| c l]; [reflexivity |].
      change (last (map Some (c :: l)) (Some cf) = last (map Some (c :: l)) yummy).
      apply last_default_irrelevant. discriminate.
    + fold (accepting cfs abfd). apply IH; lia.
Qed.

Lemma last_map_Some {A} (l : list A) (d : A) (o : option A) :
  l <> [] -> last (map Some l) o = Some (last l d).
Proof.
  induction l as [| x l IH]; intros Hne; [congruence |].
  destruct l as [| y l]; [reflexivity |].
  change (last (map Some (y :: l)) o = Some (last (y :: l) d)).
  apply IH. discriminate.
Qed.

(** C2 — [sniff_core_bfd] returns no handler when the architecture has a
    register-set iterator.  Otherwise, over the registered handlers: with
    no accepting sniffer it throws the no-handler error; with more than
    one it warns, naming the container and the number of matches; and it
    returns the last accepting handler in the order of the walk. *)
Theorem sniff_core_bfd_spec (core_file_fns : list core_fns) (abfd : bfd)
        (arch : option gdbarch) (s : gdb_state)
        (Hsmall : Z.of_nat (List.length core_file_fns) < 2 ^ 31) :
  let acc := accepting core_file_fns abfd in
  (gdbarch_has_regset_iterator arch = true ->
   sniff_core_bfd core_file_fns abfd arch s = (Ok None, s))
  /\ (gdbarch_has_regset_iterator arch = false ->
      acc = [] ->
      sniff_core_bfd core_file_fns abfd arch s
      = (Throw (err_no_core_file_handler (bfd_get_filename abfd)),
         set_messages
           (messages s ++ [err_no_core_file_handler (bfd_get_filename abfd)]) s))
  /\ (gdbarch_has_regset_iterator arch = false ->
      forall cf, acc = [cf] ->
      sniff_core_bfd core_file_fns abfd arch s = (Ok (Some cf), s))
  /\ (gdbarch_has_regset_iterator arch = false ->
      forall cf, (1 < List.length acc)%nat ->
      sniff_core_bfd core_file_fns abfd arch s
      = (Ok (Some (last acc cf)),
         set_messages
           (messages s
            ++ [warn_ambiguous_core_format (bfd_get_filename abfd)
                                           (Z.of_nat (List.length acc))]) s)).
Proof.
  intros acc.
  pose proof (accepting_length_le core_file_fns abfd) as Hle.
  assert (Hloop : sniff_loop core_file_fns abfd None 0
                  = (last (map Some acc) None, Z.of_nat (List.length acc))).
  { rewrite sniff_loop_spec by lia. reflexivity. }
  repeat split.
  - intros Hit. unfold sniff_core_bfd. rewrite Hit. reflexivity.
  - intros Hit Hacc. unfold sniff_core_bfd. rewrite Hit, Hloop, Hacc.
    reflexivity.
  - intros Hit cf Hacc. unfold sniff_core_bfd. rewrite Hit, Hloop, Hacc.
    reflexivity.
  - intros Hit cf Hmany. unfold sniff_core_bfd. rewrite Hit, Hloop.
    rewrite (last_map_Some acc cf) by (destruct acc; simpl in *; [lia | discriminate]).
    destruct (1 <? Z.of_nat (List.length acc)) eqn:Hcmp.
    + reflexivity.
    + apply Z.ltb_ge in Hcmp. lia.
Qed.

(* ------------------------------------------------------------------ *)
(** ** Code that only talks: register cache and messages *)

Lemma quiet_ret {A} (a : A) : quiet (ret a).
Proof.
  intros s. split; [discriminate |].
  exists (regcache s), (messages s). destruct s; reflexivity.
Qed.

Lemma quiet_fault {A} : quiet (@fault A).
Proof.
  intros s. split; [discriminate |].
  exists (regcache s), (messages s). destruct s; reflexivity.
Qed.

Lemma quiet_gets {A} (f : gdb_state -> A) : quiet (gets f).
Proof.
  intros s. split; [discriminate |].
  exists (regcache s), (messages s). destruct s; reflexivity.
Qed.

Lemma quiet_warning (m : message) : quiet (warning m).
Proof.
  intros s. split; [discriminate |].
  exists (regcache s), (messages s ++ [m]). destruct s; reflexivity.
Qed.

Lemma quiet_supply (c : supply_call) : quiet (supply c).
Proof.
  intros s. split; [discriminate |].
  exists (regcache s ++ [c]), (messages s). destruct s; reflexivity.
Qed.

Lemma quiet_bind {A B} (c : M A) (k : A -> M B) :
  quiet c -> (forall a, quiet (k a)) -> quiet (bind c k).
Proof.
  intros Hc Hk s. unfold bind.
  destruct (Hc s) as [Hnt (rc & ms & Hs)].
  destruct (c s) as [[a | e | ] s1] eqn:Hcs; simpl in *.
  - destruct (Hk a s1) as [Hnt' (rc' & ms' & Hs')].
    split; [exact Hnt' |].
    exists rc', ms'. rewrite Hs', Hs. destruct s; reflexivity.
  - exfalso. exact (Hnt e eq_refl).
  - split; [discriminate |]. exists rc, ms. exact Hs.
Qed.

Ltac quiet_step :=
  first
    [ apply quiet_ret | apply quiet_fault | apply quiet_gets
    | apply quiet_warning | apply quiet_supply
    | apply quiet_bind; [| intros ?]
    | progress cbv zeta
    | match goal with
      | |- quiet (match ?x with _ => _ end) => destruct x
      | |- quiet (if ?b then _ else _) => destruct b
      end ].

Lemma quiet_get_core_register_section (regset : option regset) (name : string)
      (min_size which : Z) (human_name : string) (required : bool) :
  quiet (get_core_register_section regset name min_size which human_name required).
Proof. unfold get_core_register_section. repeat quiet_step. Qed.

Lemma quiet_for_each {A} (f : A -> M unit) (l : list A) :
  (forall a, quiet (f a)) -> quiet (for_each f l).
Proof.
  intros Hf. induction l as [| x l IH]; simpl.
  - apply quiet_ret.
  - apply quiet_bind; [apply Hf | intros _; exact IH].
Qed.

Lemma quiet_get_core_registers : quiet get_core_registers.
Proof.
  unfold get_core_registers.
  repeat first
    [ apply quiet_get_core_register_section
    | apply quiet_for_each; intros ?; unfold get_core_registers_cb
    | quiet_step ].
Qed.

(** After [post_create_inferior], [core_open] either rethrows its
    exception at once or goes on quietly. *)
Lemma core_open_report_cases (rq : open_request) (temp_bfd : bfd) (s : gdb_state) :
  (post_create_inferior_throws rq = true
   /\ core_open_report rq temp_bfd s
      = (Throw err_post_create_inferior,
         set_messages (messages s ++ [err_post_create_inferior]) s))
  \/ (post_create_inferior_throws rq = false
      /\ (forall e, fst (core_open_report rq temp_bfd s) <> Throw e)
      /\ exists rc ms,
          snd (core_open_report rq temp_bfd s) = set_regcache rc (set_messages ms s)).
Proof.
  unfold core_open_report.
  destruct (post_create_inferior_throws rq) eqn:Hthrows.
  - left. split; reflexivity.
  - right. split; [reflexivity |].
    assert (Hq : quiet
                   (ret tt ;;;
                    match bfd_core_file_failing_command temp_bfd with
                    | Some p => warning (msg_core_was_generated_by p)
                    | None => ret tt
                    end ;;;
                    (let siggy := bfd_core_file_failing_signal temp_bfd in
                     if 0 <? siggy
                     then warning (msg_program_terminated_with_signal siggy)
                     else ret tt) ;;;
                    get_core_registers)).
    { repeat first [ apply quiet_get_core_registers | quiet_step ]. }
    exact (Hq s).
Qed.

(* ------------------------------------------------------------------ *)
(** ** Building the thread list *)

Lemma touches_threads_only_refl (s : gdb_state) : touches_threads_only s s.
Proof.
  exists (current_inferior s), (thread_list s), (inferior_ptid s).
  destruct s; reflexivity.
Qed.

Lemma touches_threads_only_trans (s1 s2 s3 : gdb_state) :
  touches_threads_only s1 s2 -> touches_threads_only s2 s3 ->
  touches_threads_only s1 s3.
Proof.
  intros (c & t & p & H12) (c' & t' & p' & H23). subst s2. subst s3.
  exists c', t', p'. destruct s1; reflexivity.
Qed.

(** What one call does for a section that announces a thread. *)
Lemma add_to_thread_list_thread (a : asection) (reg_sect : option asection)
      (s : gdb_state) (cbfd : bfd) :
  core_bfd s = Some cbfd ->
  is_thread_section a = true ->
  add_to_thread_list a reg_sect s
  = let s1 := if inf_pid (current_inferior s) =? 0
              then set_inferiors {| inf_pid := core_pid cbfd;
                                    fake_pid_p := bfd_core_file_pid cbfd =? 0 |}
                                 (other_inferiors s) s
              else s in
    let s2 := add_thread (thread_of_section cbfd a) s1 in
    if match reg_sect with
       | Some r => filepos a =? filepos r
       | None => false
       end
    then set_inferior_ptid (thread_of_section cbfd a) s2
    else s2.
Proof.
  intros Hbfd Hthr. unfold add_to_thread_list.
  unfold is_thread_section in Hthr. rewrite Hthr, Hbfd. cbn [negb].
  unfold thread_of_section, core_pid.
  destruct s; cbn in *.
  destruct (inf_pid current_inferior0 =? 0);
    destruct reg_sect as [r |]; cbn;
    try destruct (filepos a =? filepos r); reflexivity.
Qed.

Lemma add_to_thread_list_other (a : asection) (reg_sect : option asection)
      (s : gdb_state) :
  is_thread_section a = false -> add_to_thread_list a reg_sect s = s.
Proof.
  intros Hthr. unfold add_to_thread_list.
  unfold is_thread_section in Hthr. rewrite Hthr. reflexivity.
Qed.

Lemma add_to_thread_list_frame (a : asection) (reg_sect : option asection)
      (s : gdb_state) :
  touches_threads_only s (add_to_thread_list a reg_sect s)
  /\ core_bfd (add_to_thread_list a reg_sect s) = core_bfd s.
Proof.
  destruct (is_thread_section a) eqn:Hthr.
  - destruct (core_bfd s) as [cbfd |] eqn:Hbfd.
    + rewrite (add_to_thread_list_thread a reg_sect s cbfd Hbfd Hthr).
      cbv zeta. destruct s; cbn in *.
      destruct (match reg_sect with Some r => filepos a =? filepos r | None => false end);
        destruct (inf_pid current_inferior0 =? 0);
        (split;
         [ eexists _, _, _;
           unfold add_thread, set_inferior_ptid, set_thread_list, set_inferiors; cbn;
           reflexivity
         | cbn; exact Hbfd ]).
    + unfold add_to_thread_list. unfold is_thread_section in Hthr.
      rewrite Hthr, Hbfd. cbn. split; [apply touches_threads_only_refl | exact Hbfd].
  - rewrite add_to_thread_list_other by exact Hthr.
    split; [apply touches_threads_only_refl | reflexivity].
Qed.

Lemma thread_walk_frame (reg_sect : option asection) (l : list asection) :
  forall s,
    touches_threads_only s
      (fold_left (fun acc asect => add_to_thread_list asect reg_sect acc) l s)
    /\ core_bfd (fold_left (fun acc asect => add_to_thread_list asect reg_sect acc) l s)
       = core_bfd s.
Proof.
  induction l as [| a l IH]; intros s; cbn [fold_left].
  - split; [apply touches_threads_only_refl | reflexivity].
  - destruct (add_to_thread_list_frame a reg_sect s) as [Ht Hb].
    destruct (IH (add_to_thread_list a reg_sect s)) as [Ht' Hb'].
    split.
    + eapply touches_threads_only_trans; eassumption.
    + rewrite Hb'. exact Hb.
Qed.

Lemma ptid_equal_eq (a b : ptid_t) : ptid_equal a b = true <-> a = b.
Proof.
  unfold ptid_equal. destruct a as [p l t], b as [p' l' t']; cbn.
  rewrite !andb_true_iff, !Z.eqb_eq. split.
  - intros [[-> ->] ->]. reflexivity.
  - intros H. injection H as -> -> ->. auto.
Qed.

Lemma core_pid_nonzero (abfd : bfd) : core_pid abfd <> 0.
Proof.
  unfold core_pid, CORELOW_PID.
  destruct (bfd_core_file_pid abfd =? 0) eqn:H; [lia |].
  apply Z.eqb_neq in H. exact H.
Qed.

Lemma thread_of_section_not_null (abfd : bfd) (a : asection) :
  ptid_equal (thread_of_section abfd a) null_ptid = false.
Proof.
  apply not_true_iff_false. rewrite ptid_equal_eq.
  unfold thread_of_section, null_ptid, ptid_build. intros H.
  injection H as Hpid _. exact (core_pid_nonzero abfd Hpid).
Qed.

Lemma thread_replaced_In (x : ptid_t) (l : list ptid_t) :
  In x (filter (fun t => negb (ptid_equal t x)) l ++ [x]).
Proof. apply in_or_app. right. left. reflexivity. Qed.

Lemma thread_replaced_keeps (x t : ptid_t) (l : list ptid_t) :
  In t l -> In t (filter (fun t0 => negb (ptid_equal t0 x)) l ++ [x]).
Proof.
  intros Hin. apply in_or_app.
  destruct (ptid_equal t x) eqn:Heq.
  - right. left. symmetry. apply ptid_equal_eq. exact Heq.
  - left. apply filter_In. split; [exact Hin |]. rewrite Heq. reflexivity.
Qed.

Lemma add_thread_In (ptid : ptid_t) (s : gdb_state) :
  In ptid (thread_list (add_thread ptid s)).
Proof. unfold add_thread. destruct s; cbn. apply thread_replaced_In. Qed.

Lemma add_thread_keeps (ptid t : ptid_t) (s : gdb_state) :
  In t (thread_list s) -> In t (thread_list (add_thread ptid s)).
Proof.
  intros Hin. unfold add_thread. destruct s; cbn in *.
  apply thread_replaced_keeps. exact Hin.
Qed.

Section ThreadWalk.

Variable cbfd : bfd.
Variable reg_sect : option asection.

Local Abbreviation walk :=
  (fold_left (fun acc asect => add_to_thread_list asect reg_sect acc)).

Lemma add_to_thread_list_keeps (a : asection) (t : ptid_t) (s : gdb_state) :
  core_bfd s = Some cbfd ->
  In t (thread_list s) -> In t (thread_list (add_to_thread_list a reg_sect s)).
Proof.
  intros Hbfd Hin.
  destruct (is_thread_section a) eqn:Hthr.
  - rewrite (add_to_thread_list_thread a reg_sect s cbfd Hbfd Hthr). cbv zeta.
    destruct s; cbn in *.
    destruct (match reg_sect with Some r => filepos a =? filepos r | None => false end);
      destruct (inf_pid current_inferior0 =? 0); cbn;
      apply thread_replaced_keeps; exact Hin.
  - rewrite add_to_thread_list_other by exact Hthr. exact Hin.
Qed.

Lemma add_to_thread_list_creates (a : asection) (s : gdb_state) :
  core_bfd s = Some cbfd ->
  is_thread_section a = true ->
  In (thread_of_section cbfd a) (thread_list (add_to_thread_list a reg_sect s)).
Proof.
  intros Hbfd Hthr.
  rewrite (add_to_thread_list_thread a reg_sect s cbfd Hbfd Hthr). cbv zeta.
  destruct s; cbn in *.
  destruct (match reg_sect with Some r => filepos a =? filepos r | None => false end);
    destruct (inf_pid current_inferior0 =? 0); cbn;
    apply thread_replaced_In.
Qed.

Lemma thread_walk_keeps (l : list asection) (t : ptid_t) :
  forall s, core_bfd s = Some cbfd ->
            In t (thread_list s) -> In t (thread_list (walk l s)).
Proof.
  induction l as [| a l IH]; intros s Hbfd Hin; [exact Hin |].
  cbn [fold_left]. apply IH.
  - rewrite (proj2 (add_to_thread_list_frame a reg_sect s)). exact Hbfd.
  - apply add_to_thread_list_keeps; assumption.
Qed.

(** Every section that announces a thread has its thread in the list
    after the walk. *)
Lemma thread_walk_creates (l : list asection) (a : asection) :
  forall s, core_bfd s = Some cbfd ->
            In a l -> is_thread_section a = true ->
            In (thread_of_section cbfd a) (thread_list (walk l s)).
Proof.
  induction l as [| x l IH]; intros s Hbfd Hin Hthr; [contradiction |].
  cbn [fold_left].
  assert (Hbfd' : core_bfd (add_to_thread_list x reg_sect s) = Some cbfd).
  { rewrite (proj2 (add_to_thread_list_frame x reg_sect s)). exact Hbfd. }
  destruct Hin as [-> | Hin].
  - apply thread_walk_keeps; [exact Hbfd' |].
    apply add_to_thread_list_creates; assumption.
  - apply IH; assumption.
Qed.

(** Without a section that announces a thread the walk changes nothing. *)
Lemma thread_walk_no_thread (l : list asection) (s : gdb_state) :
  existsb is_thread_section l = false -> walk l s = s.
Proof.
  revert s. induction l as [| a l IH]; intros s Hnone; [reflexivity |].
  cbn [existsb] in Hnone. apply orb_false_iff in Hnone. destruct Hnone as [Ha Hl].
  cbn [fold_left]. rewrite add_to_thread_list_other by exact Ha.
  apply IH. exact Hl.
Qed.

(** The current inferior after the walk: the first section that
    announces a thread gives it the process of the core. *)
Lemma thread_walk_inferior (l : list asection) :
  forall s, core_bfd s = Some cbfd ->
            current_inferior (walk l s)
            = if existsb is_thread_section l && (inf_pid (current_inferior s) =? 0)
              then {| inf_pid := core_pid cbfd;
                      fake_pid_p := bfd_core_file_pid cbfd =? 0 |}
              else current_inferior s.
Proof.
  induction l as [| a l IH]; intros s Hbfd; [reflexivity |].
  cbn [fold_left existsb].
  assert (Hbfd' : core_bfd (add_to_thread_list a reg_sect s) = Some cbfd).
  { rewrite (proj2 (add_to_thread_list_frame a reg_sect s)). exact Hbfd. }
  rewrite (IH _ Hbfd').
  destruct (is_thread_section a) eqn:Hthr.
  - rewrite (add_to_thread_list_thread a reg_sect s cbfd Hbfd Hthr). cbv zeta.
    pose proof (core_pid_nonzero cbfd) as Hnz. apply Z.eqb_neq in Hnz.
    destruct (match reg_sect with Some r => filepos a =? filepos r | None => false end);
      destruct (inf_pid (current_inferior s) =? 0) eqn:Hpid;
      destruct s; cbn in *; rewrite ?Hpid, ?Hnz, ?andb_false_r; reflexivity.
  - rewrite add_to_thread_list_other by exact Hthr. reflexivity.
Qed.

End ThreadWalk.

(* ------------------------------------------------------------------ *)
(** ** Cleanups *)

Lemma bind_exec {B} (f : gdb_state -> gdb_state) (k : unit -> M B) (s : gdb_state) :
  bind (exec f) k s = k tt (f s).
Proof. reflexivity. Qed.

Lemma run_chain_old (old : list cleanup) (s : gdb_state) :
  run_chain old (List.length old) s = (s, old).
Proof.
  destruct old as [| c old]; [reflexivity |].
  cbn [run_chain]. rewrite Nat.ltb_irrefl. reflexivity.
Qed.

Lemma run_chain_one (c : cleanup) (old : list cleanup) (s : gdb_state) :
  run_chain (c :: old) (List.length old) s = (run_cleanup c s, old).
Proof.
  cbn [run_chain List.length].
  replace (List.length old <? S (List.length old))%nat with true
    by (symmetry; apply Nat.ltb_lt; lia).
  apply run_chain_old.
Qed.

Lemma run_chain_two (c1 c2 : cleanup) (old : list cleanup) (s : gdb_state) :
  run_chain (c1 :: c2 :: old) (List.length old) s
  = (run_cleanup c2 (run_cleanup c1 s), old).
Proof.
  cbn [run_chain List.length].
  replace (List.length old <? S (S (List.length old)))%nat with true
    by (symmetry; apply Nat.ltb_lt; lia).
  apply run_chain_one.
Qed.

Lemma sniff_core_bfd_cases (core_file_fns : list core_fns) (abfd : bfd)
      (arch : option gdbarch) (s : gdb_state) :
  (exists v ms,
      sniff_core_bfd core_file_fns abfd arch s
      = (Ok v, set_messages (messages s ++ ms) s))
  \/ sniff_core_bfd core_file_fns abfd arch s
     = (Throw (err_no_core_file_handler (bfd_get_filename abfd)),
        set_messages
          (messages s ++ [err_no_core_file_handler (bfd_get_filename abfd)]) s).
Proof.
  unfold sniff_core_bfd.
  destruct (gdbarch_has_regset_iterator arch).
  - left. exists None, []. rewrite app_nil_r. destruct s; reflexivity.
  - destruct (sniff_loop core_file_fns abfd None 0) as [yummy matches].
    destruct (1 <? matches) eqn:Hmany.
    + left. eexists yummy, [_]. reflexivity.
    + destruct (matches =? 0) eqn:Hzero.
      * right. reflexivity.
      * left. exists yummy, []. rewrite app_nil_r.
        destruct s; reflexivity.
Qed.

(* ------------------------------------------------------------------ *)
(** ** From the new target to [push_target] *)

(** [core_open_install] either gets as far as a complete target, or
    throws with the target still under construction. *)
Lemma core_open_install_cases (core_file_fns : list core_fns) (rq : open_request)
      (temp_bfd : bfd) (s : gdb_state) :
  let u := unpush_target_core_ops s in
  (exists cops ms,
      core_open_install core_file_fns rq temp_bfd s
      = (Ok (List.length (cleanup_chain u)),
         adopt_core_gdbarch temp_bfd (installing temp_bfd cops ms u))
      /\ core_gdbarch cops = gdbarch_from_bfd temp_bfd
      /\ core_data cops <> None)
  \/ (exists e cops ms,
         core_open_install core_file_fns rq temp_bfd s
         = (Throw e, installing temp_bfd cops ms u)
         /\ failed_before_push e = true).
Proof.
  cbv zeta.
  destruct (core_open_install core_file_fns rq temp_bfd s) as [r s1] eqn:Hr.
  unfold core_open_install in Hr. rewrite bind_exec in Hr.
  revert Hr. generalize (unpush_target_core_ops s). intros u Hr.
  destruct u.
  rewrite !bind_exec in Hr.
  unfold bind at 1 in Hr. unfold make_cleanup at 1 in Hr. cbv beta iota in Hr.
  rewrite !bind_exec in Hr.
  unfold bind at 1 in Hr.
  match type of Hr with
  | context [sniff_core_bfd ?f ?b ?g ?S] =>
      destruct (sniff_core_bfd_cases f b g S) as [(v & ms & Hs) | Hs];
        rewrite Hs in Hr; clear Hs
  end.
  - rewrite !bind_exec in Hr. unfold build_section_table in Hr.
    unfold bind, exec, ret in Hr. cbn in Hr.
    destruct (build_section_table_status rq =? 0); cbn in Hr;
      injection Hr as <- <-.
    + left.
      exists {| core_vec := v; core_gdbarch := gdbarch_from_bfd temp_bfd;
                core_data := Some (section_table_of temp_bfd) |}, ms.
      split; [| split; [reflexivity | discriminate]].
      unfold adopt_core_gdbarch. cbn. reflexivity.
    + right.
      exists (err_cant_find_sections (bfd_get_filename temp_bfd)).
      exists {| core_vec := v; core_gdbarch := gdbarch_from_bfd temp_bfd;
                core_data := Some (section_table_of temp_bfd) |}.
      exists (ms ++ [err_cant_find_sections (bfd_get_filename temp_bfd)]).
      split; [| reflexivity].
      cbn. rewrite app_assoc. reflexivity.
  - cbn in Hr. injection Hr as <- <-.
    right.
    exists (err_no_core_file_handler (bfd_get_filename temp_bfd)).
    exists {| core_vec := None; core_gdbarch := gdbarch_from_bfd temp_bfd;
              core_data := None |}.
    exists [err_no_core_file_handler (bfd_get_filename temp_bfd)].
    split; reflexivity.
Qed.

(* ------------------------------------------------------------------ *)
(** ** Giving resources back *)

Lemma count_occ_remove_one {A} (dec : forall a b : A, {a = b} + {a <> b})
      (eqb : A -> A -> bool) (Heqb : forall a b, eqb a b = true <-> a = b)
      (x y : A) (l : list A) :
  count_occ dec (remove_one eqb x l) y
  = if dec x y then Nat.pred (count_occ dec l y) else count_occ dec l y.
Proof.
  induction l as [| z l IH]; cbn [remove_one count_occ].
  - destruct (dec x y); reflexivity.
  - destruct (eqb x z) eqn:Hxz.
    + apply Heqb in Hxz. subst z.
      destruct (dec x y) as [-> | Hne]; [reflexivity | reflexivity].
    + assert (Hne : x <> z).
      { intros ->. assert (eqb z z = true) by (apply Heqb; reflexivity). congruence. }
      cbn [count_occ]. rewrite IH.
      destruct (dec z y) as [-> | Hzy]; destruct (dec x y) as [-> | Hxy];
        try reflexivity; congruence.
Qed.

Lemma count_occ_remove_one_le {A} (dec : forall a b : A, {a = b} + {a <> b})
      (eqb : A -> A -> bool) (Heqb : forall a b, eqb a b = true <-> a = b)
      (x y : A) (l : list A) :
  (count_occ dec (remove_one eqb x l) y <= count_occ dec l y)%nat.
Proof.
  rewrite (count_occ_remove_one dec eqb Heqb).
  destruct (dec x y); lia.
Qed.

Lemma block_eqb_eq (a b : block) : block_eqb a b = true <-> a = b.
Proof. destruct a, b; cbn; split; intros H; try reflexivity; discriminate. Qed.

Lemma exit_first_live (pid : Z) (i : inferior) (l : list inferior) :
  In i (exit_first pid l) -> inf_pid i <> 0 -> In i l.
Proof.
  induction l as [| j l IH]; cbn [exit_first]; [tauto |].
  destruct (inf_pid j =? pid).
  - intros [<- | Hin] Hlive; [cbn in Hlive; congruence | right; exact Hin].
  - intros [<- | Hin] Hlive; [left; reflexivity | right; apply IH; assumption].
Qed.

Lemma live_inferiors_In (i : inferior) (s : gdb_state) :
  In i (live_inferiors s) <-> In i (inferiors s) /\ inf_pid i <> 0.
Proof.
  unfold live_inferiors. rewrite filter_In, negb_true_iff, Z.eqb_neq. tauto.
Qed.

Lemma nothing_new_refl (s : gdb_state) : nothing_new s s.
Proof. unfold nothing_new. repeat split; auto. Qed.

Lemma nothing_new_trans (s1 s2 s3 : gdb_state) :
  nothing_new s1 s2 -> nothing_new s2 s3 -> nothing_new s1 s3.
Proof.
  intros (Ht & Hr & Ha & Hi & Hth & Hc) (Ht' & Hr' & Ha' & Hi' & Hth' & Hc').
  unfold nothing_new. repeat split; auto.
  - intros f. specialize (Hr f). specialize (Hr' f). lia.
  - intros k. specialize (Ha k). specialize (Ha' k). lia.
  - congruence.
Qed.

(** Exiting an inferior creates nothing. *)
Lemma exit_inferior_silent_nothing_new (pid : Z) (s : gdb_state) :
  nothing_new s (exit_inferior_silent pid s).
Proof.
  unfold exit_inferior_silent.
  destruct (find_inferior_pid pid s) as [found |]; [| apply nothing_new_refl].
  destruct s; cbn.
  destruct (inf_pid current_inferior0 =? pid); cbn;
    unfold nothing_new; cbn -[live_inferiors]; (repeat split; auto).
  - intros j Hj. apply live_inferiors_In in Hj. cbn in Hj.
    apply live_inferiors_In. cbn.
    destruct Hj as [[<- | Hin] Hlive]; [cbn in Hlive; congruence | auto].
  - intros t Ht. apply filter_In in Ht. tauto.
  - intros j Hj. apply live_inferiors_In in Hj. cbn in Hj.
    apply live_inferiors_In. cbn.
    destruct Hj as [[<- | Hin] Hlive]; [auto |].
    split; [right; eapply exit_first_live; eassumption | exact Hlive].
  - intros t Ht. apply filter_In in Ht. tauto.
Qed.

(** Closing a core target creates nothing either. *)
Lemma core_xclose_nothing_new (cops : core_target_ops_with_data) (s : gdb_state) :
  nothing_new s (core_xclose cops s).
Proof.
  unfold core_xclose.
  assert (Hfree : forall k x, nothing_new x (xfree k x)).
  { intros k x. destruct x; unfold nothing_new; cbn. repeat split; auto.
    intros k'. apply count_occ_remove_one_le. exact block_eqb_eq. }
  assert (Hbfd : nothing_new s
            match core_bfd s with
            | Some b =>
                let pid := ptid_get_pid (inferior_ptid s) in
                let s0 := set_inferior_ptid null_ptid s in
                let s1 := if negb (pid =? 0) then exit_inferior_silent pid s0 else s0 in
                let s2 := clear_solib s1 in
                let s3 := gdb_bfd_unref (bfd_get_filename b) s2 in
                set_core_bfd None s3
            | None => s
            end).
  { destruct (core_bfd s) as [b |]; [| apply nothing_new_refl]. cbv zeta.
    apply nothing_new_trans with (s2 := set_inferior_ptid null_ptid s).
    { destruct s; unfold nothing_new; cbn; repeat split; auto. }
    generalize (set_inferior_ptid null_ptid s). intros x.
    apply nothing_new_trans
      with (s2 := if negb (ptid_get_pid (inferior_ptid s) =? 0)
                  then exit_inferior_silent (ptid_get_pid (inferior_ptid s)) x else x).
    { destruct (negb (ptid_get_pid (inferior_ptid s) =? 0));
        [apply exit_inferior_silent_nothing_new | apply nothing_new_refl]. }
    generalize (if negb (ptid_get_pid (inferior_ptid s) =? 0)
                then exit_inferior_silent (ptid_get_pid (inferior_ptid s)) x else x).
    intros y. destruct y; unfold nothing_new; cbn. repeat split; auto.
    intros f. apply count_occ_remove_one_le. exact String.eqb_eq. }
  eapply nothing_new_trans; [exact Hbfd |].
  eapply nothing_new_trans; [| apply Hfree].
  destruct (core_data cops); [apply Hfree | apply nothing_new_refl].
Qed.

Lemma unlink_core_target_In (st : list target_ops) (t : target_ops) :
  In t (snd (unlink_core_target st)) -> In t st.
Proof.
  induction st as [| x st IH]; cbn [unlink_core_target]; [tauto |].
  destruct x as [cops | name]; cbn.
  - intros Hin. right. exact Hin.
  - destruct (unlink_core_target st) as [found rest]. cbn in *.
    intros [<- | Hin]; [left; reflexivity | right; apply IH; exact Hin].
Qed.

Lemma unpush_target_core_ops_nothing_new (s : gdb_state) :
  nothing_new s (unpush_target_core_ops s).
Proof.
  unfold unpush_target_core_ops.
  destruct (unlink_core_target (target_stack s)) as [[cops |] st] eqn:Hun;
    [| apply nothing_new_refl].
  eapply nothing_new_trans; [| apply core_xclose_nothing_new].
  pose proof (unlink_core_target_In (target_stack s)) as Hin. rewrite Hun in Hin.
  destruct s; unfold nothing_new; cbn in *. repeat split; auto.
Qed.

Lemma unlink_core_target_none (st : list target_ops) :
  has_core_target st = false -> unlink_core_target st = (None, st).
Proof.
  induction st as [| x st IH]; cbn; [reflexivity |].
  destruct x as [cops | name]; cbn; [discriminate |].
  intros H. rewrite (IH H). reflexivity.
Qed.

Lemma unpush_target_core_ops_none (s : gdb_state) :
  has_core_target (target_stack s) = false -> unpush_target_core_ops s = s.
Proof.
  intros H. unfold unpush_target_core_ops.
  rewrite (unlink_core_target_none _ H). reflexivity.
Qed.

Lemma do_cleanups_none (x : gdb_state) (old : list cleanup) :
  cleanup_chain x = old -> do_cleanups (List.length old) x = x.
Proof.
  intros H. unfold do_cleanups. rewrite H, run_chain_old. subst old.
  destruct x; reflexivity.
Qed.

Lemma do_cleanups_one (x : gdb_state) (c : cleanup) (old : list cleanup) :
  cleanup_chain x = c :: old ->
  do_cleanups (List.length old) x = set_cleanup_chain old (run_cleanup c x).
Proof.
  intros H. unfold do_cleanups. rewrite H, run_chain_one. reflexivity.
Qed.

Lemma do_cleanups_two (x : gdb_state) (c1 c2 : cleanup) (old : list cleanup) :
  cleanup_chain x = c1 :: c2 :: old ->
  do_cleanups (List.length old) x
  = set_cleanup_chain old (run_cleanup c2 (run_cleanup c1 x)).
Proof.
  intros H. unfold do_cleanups. rewrite H, run_chain_two. reflexivity.
Qed.

(** Closing the target under construction gives back what
    [core_open_install] took; what remains is [abandoned]. *)
Lemma do_cleanups_installing (temp_bfd : bfd) (cops : core_target_ops_with_data)
      (ms : list message) (u : gdb_state) :
  do_cleanups (List.length (cleanup_chain u)) (installing temp_bfd cops ms u)
  = set_messages (messages u ++ ms) (abandoned temp_bfd u).
Proof.
  rewrite (do_cleanups_one _ cleanup_core_close (cleanup_chain u))
    by (destruct u; reflexivity).
  destruct u. unfold installing, abandoned. cbn.
  unfold core_close_cleanup, core_xclose. cbn.
  destruct (ptid_get_pid inferior_ptid0 =? 0); cbn.
  - destruct (core_data cops); cbn; reflexivity.
  - unfold exit_inferior_silent, find_inferior_pid. cbn.
    destruct (inf_pid current_inferior0 =? ptid_get_pid inferior_ptid0); cbn.
    + destruct (core_data cops); cbn; reflexivity.
    + destruct (find _ other_inferiors0); cbn;
        destruct (core_data cops); cbn; reflexivity.
Qed.

Lemma abandoned_gives_back (temp_bfd : bfd) (s u : gdb_state) :
  nothing_new (gdb_bfd_ref temp_bfd s) u -> nothing_new s (abandoned temp_bfd u).
Proof.
  intros Hu. unfold abandoned. cbv zeta.
  set (pid := ptid_get_pid (inferior_ptid u)).
  assert (Hy : nothing_new (gdb_bfd_ref temp_bfd s)
                 (clear_solib (if negb (pid =? 0)
                               then exit_inferior_silent pid (set_inferior_ptid null_ptid u)
                               else set_inferior_ptid null_ptid u))).
  { eapply nothing_new_trans; [exact Hu |].
    apply nothing_new_trans with (s2 := set_inferior_ptid null_ptid u).
    { destruct u; unfold nothing_new; cbn; repeat split; auto. }
    generalize (set_inferior_ptid null_ptid u). intros x.
    apply nothing_new_trans
      with (s2 := if negb (pid =? 0) then exit_inferior_silent pid x else x).
    { destruct (negb (pid =? 0));
        [apply exit_inferior_silent_nothing_new | apply nothing_new_refl]. }
    generalize (if negb (pid =? 0) then exit_inferior_silent pid x else x).
    intros y. destruct y; unfold nothing_new; cbn; repeat split; auto. }
  revert Hy.
  generalize (clear_solib (if negb (pid =? 0)
                           then exit_inferior_silent pid (set_inferior_ptid null_ptid u)
                           else set_inferior_ptid null_ptid u)).
  intros y (Ht & Hr & Ha & Hi & Hth & Hc).
  destruct s, y; unfold nothing_new in *; cbn -[live_inferiors] in *.
  repeat split; auto.
  intros f. specialize (Hr f).
  rewrite (count_occ_remove_one string_dec String.eqb String.eqb_eq).
  destruct (string_dec (bfd_get_filename temp_bfd) f); lia.
Qed.

(* ------------------------------------------------------------------ *)
(** ** core_open, stage by stage *)

Lemma bind_ret {A B} (a : A) (k : A -> M B) (s : gdb_state) :
  bind (ret a) k s = k a s.
Proof. reflexivity. Qed.

Lemma core_open_threads_ok (temp_bfd : bfd) (x : gdb_state) :
  core_open_threads temp_bfd x = (Ok tt, snd (core_open_threads temp_bfd x)).
Proof.
  unfold core_open_threads. rewrite bind_exec.
  generalize (bfd_map_over_sections temp_bfd
                (fun asect => add_to_thread_list asect
                                (bfd_get_section_by_name temp_bfd ".reg")) x).
  intros w. unfold bind, gets, exec, ret. cbn.
  destruct (ptid_equal (inferior_ptid w) null_ptid); [| reflexivity].
  destruct (first_thread_of_process w); reflexivity.
Qed.

Lemma bind_core_open_threads {B} (temp_bfd : bfd) (k : unit -> M B) (x : gdb_state) :
  bind (core_open_threads temp_bfd) k x = k tt (snd (core_open_threads temp_bfd x)).
Proof.
  unfold bind. pose proof (core_open_threads_ok temp_bfd x) as H.
  destruct (core_open_threads temp_bfd x) as [r w]. cbn in H.
  injection H as ->. reflexivity.
Qed.

Lemma core_open_pushed_cases (rq : open_request) (temp_bfd : bfd)
      (cops : core_target_ops_with_data) (old_chain : nat) (x : gdb_state) :
  let y := snd (core_open_threads temp_bfd (pushed cops old_chain x)) in
  core_open_pushed rq temp_bfd cops old_chain x
  = (Throw err_post_create_inferior,
     set_messages (messages y ++ [err_post_create_inferior]) y)
  \/ (forall e, fst (core_open_pushed rq temp_bfd cops old_chain x) <> Throw e)
     /\ exists rc ms,
         snd (core_open_pushed rq temp_bfd cops old_chain x)
         = set_regcache rc (set_messages ms y).
Proof.
  cbv zeta. unfold core_open_pushed. rewrite !bind_exec.
  fold (pushed cops old_chain x).
  rewrite bind_core_open_threads.
  destruct (core_open_report_cases rq temp_bfd
              (snd (core_open_threads temp_bfd (pushed cops old_chain x))))
    as [[_ H] | [_ H]].
  - left. exact H.
  - right. exact H.
Qed.

Lemma core_xclose_messages (cops : core_target_ops_with_data) (s : gdb_state) :
  messages (core_xclose cops s) = messages s.
Proof.
  destruct s. unfold core_xclose. cbn.
  destruct core_bfd0 as [b |]; cbn.
  - destruct (ptid_get_pid inferior_ptid0 =? 0); cbn.
    + destruct (core_data cops); reflexivity.
    + unfold exit_inferior_silent, find_inferior_pid. cbn.
      destruct (inf_pid current_inferior0 =? ptid_get_pid inferior_ptid0); cbn.
      * destruct (core_data cops); reflexivity.
      * destruct (find _ other_inferiors0); cbn; destruct (core_data cops); reflexivity.
  - destruct (core_data cops); reflexivity.
Qed.

Lemma unpush_target_core_ops_messages (s : gdb_state) :
  messages (unpush_target_core_ops s) = messages s.
Proof.
  unfold unpush_target_core_ops.
  destruct (unlink_core_target (target_stack s)) as [[cops |] st]; [| reflexivity].
  rewrite core_xclose_messages. destruct s; reflexivity.
Qed.

Lemma new_cops_installed (temp_bfd : bfd) (cops : core_target_ops_with_data)
      (ms : list message) (u : gdb_state) :
  new_cops (adopt_core_gdbarch temp_bfd (installing temp_bfd cops ms u)) = Some cops.
Proof.
  unfold adopt_core_gdbarch. destruct u; cbn. destruct exec_bfd0; reflexivity.
Qed.

(** Where a throw before the push leaves the state, once the cleanups
    have run: either where it was, or where closing the previous session
    and abandoning the new one leaves it. *)
Lemma core_open_body_failure (core_file_fns : list core_fns) (rq : open_request)
      (s s1 : gdb_state) (e : message) :
  core_open_body core_file_fns rq s = (Throw e, s1) ->
  failed_before_push e = true ->
  (exists ms, do_cleanups (List.length (cleanup_chain s)) s1
              = set_messages (messages s ++ ms) s)
  \/ (exists temp_bfd ms,
         do_cleanups (List.length (cleanup_chain s)) s1
         = set_messages (messages s ++ ms)
             (abandoned temp_bfd (unpush_target_core_ops (gdb_bfd_ref temp_bfd s)))).
Proof.
  intros Hbody Hpre.
  unfold core_open_body in Hbody.
  destruct (arg rq) as [a |].
  - rewrite bind_exec in Hbody.
    unfold bind at 1 in Hbody. unfold make_cleanup at 1 in Hbody.
    cbv beta iota zeta in Hbody.
    destruct (gdb_open_cloexec_ok rq).
    + destruct (gdb_bfd_fopen rq) as [b |].
      * destruct s.
        cbn -[do_cleanups core_open_install core_open_pushed] in Hbody.
        destruct (negb (bfd_check_format_core b)
                  && negb (gdb_check_format core_file_fns b)).
        -- left. cbn in Hbody. injection Hbody as <- <-.
           eexists [_].
           rewrite (do_cleanups_two _ (cleanup_bfd_unref (bfd_get_filename b))
                      cleanup_xfree_filename cleanup_chain0) by reflexivity.
           cbn. rewrite String.eqb_refl. reflexivity.
        -- rewrite bind_ret, bind_exec in Hbody.
           rewrite (do_cleanups_one _ cleanup_xfree_filename cleanup_chain0)
             in Hbody by reflexivity.
           cbn [run_cleanup xfree set_allocated set_cleanup_chain remove_one
                block_eqb allocated] in Hbody.
           unfold bind at 1 in Hbody.
           match type of Hbody with
           | context [core_open_install ?f ?r ?b ?S] =>
               pose proof (unpush_target_core_ops_nothing_new S) as Hu;
               pose proof (unpush_target_core_ops_messages S) as Hm;
               destruct (core_open_install_cases f r b S)
                 as [(cops & ms & Hi & Hg & Hd) | (e' & cops & ms & Hi & He')];
                 rewrite Hi in Hbody; clear Hi
           end.
           ++ exfalso.
              unfold bind, gets in Hbody. rewrite new_cops_installed in Hbody.
              match type of Hbody with
              | core_open_pushed ?r ?b ?c ?o ?x = _ =>
                  destruct (core_open_pushed_cases r b c o x) as [Hp | [Hp _]]
              end.
              ** rewrite Hp in Hbody. injection Hbody as <- _.
                 discriminate Hpre.
              ** rewrite Hbody in Hp. exact (Hp e eq_refl).
           ++ right. injection Hbody as <- <-.
              exists b, ms.
              destruct Hu as (_ & _ & _ & _ & _ & Hc). cbn in Hc, Hm.
              cbn [cleanup_chain messages gdb_bfd_ref set_bfd_refs bfd_refs].
              revert Hc Hm.
              generalize (unpush_target_core_ops
                            {| target_stack := target_stack0; core_bfd := core_bfd0;
                               bfd_refs := bfd_get_filename b :: bfd_refs0;
                               allocated := allocated0; new_cops := new_cops0;
                               cleanup_chain := cleanup_chain0;
                               current_inferior := current_inferior0;
                               other_inferiors := other_inferiors0;
                               thread_list := thread_list0;
                               inferior_ptid := inferior_ptid0; so_list := so_list0;
                               exec_bfd := exec_bfd0; target_gdbarch := target_gdbarch0;
                               regcache := regcache0; messages := messages0 |}).
              intros u <- <-.
              apply do_cleanups_installing.
      * left. destruct s. cbn in Hbody. injection Hbody as <- <-.
        eexists [_].
        rewrite (do_cleanups_one _ cleanup_xfree_filename cleanup_chain0) by reflexivity.
        cbn. reflexivity.
    + left. destruct s. cbn in Hbody. injection Hbody as <- <-.
      eexists [_].
      rewrite (do_cleanups_one _ cleanup_xfree_filename cleanup_chain0) by reflexivity.
      cbn. reflexivity.
  - left. destruct s. cbn in Hbody. injection Hbody as <- <-.
    eexists [_].
    rewrite (do_cleanups_none _ cleanup_chain0) by reflexivity.
    cbn. reflexivity.
Qed.

Lemma nothing_new_set_messages (ms : list message) (s x : gdb_state) :
  nothing_new s x -> nothing_new s (set_messages ms x).
Proof. destruct x; unfold nothing_new; cbn -[live_inferiors]. tauto. Qed.

Lemma abandoned_fields (temp_bfd : bfd) (u : gdb_state) :
  core_bfd (abandoned temp_bfd u) = None /\ new_cops (abandoned temp_bfd u) = None.
Proof.
  unfold abandoned. cbv zeta.
  generalize (clear_solib
                (if negb (ptid_get_pid (inferior_ptid u) =? 0)
                 then exit_inferior_silent (ptid_get_pid (inferior_ptid u))
                        (set_inferior_ptid null_ptid u)
                 else set_inferior_ptid null_ptid u)).
  intros y. destruct y; cbn. split; reflexivity.
Qed.

(** C1 — An open that fails before the backend is pushed leaves no
    session behind: whatever the state afterwards holds (targets on the
    stack, references to containers, allocated memory, section table
    included, live inferiors, threads, cleanups) the state before held
    already; the temporary container is not installed and no target is
    left under construction.  Started from a state without a core
    session, the failed open changes nothing but the messages. *)
Theorem core_open_failure_leaves_no_session
        (core_file_fns : list core_fns) (rq : open_request)
        (s s' : gdb_state) (e : message) :
  core_open core_file_fns rq s = (Throw e, s') ->
  failed_before_push e = true ->
  nothing_new s s'
  /\ (core_bfd s' = None \/ core_bfd s' = core_bfd s)
  /\ (new_cops s' = None \/ new_cops s' = new_cops s)
  /\ (has_core_target (target_stack s) = false ->
      core_bfd s = None -> new_cops s = None ->
      inferior_ptid s = null_ptid -> so_list s = [] ->
      s' = set_messages (messages s') s).
Proof.
  intros Hopen Hpre. unfold core_open in Hopen.
  destruct (core_open_body core_file_fns rq s) as [r s1] eqn:Hbody.
  destruct r as [[] | e0 |]; try discriminate.
  injection Hopen as -> <-.
  destruct (core_open_body_failure _ _ _ _ _ Hbody Hpre)
    as [(ms & ->) | (b & ms & ->)].
  - repeat split.
    1-6: destruct s; cbn -[live_inferiors]; auto.
    + right. destruct s; reflexivity.
    + right. destruct s; reflexivity.
    + intros _ _ _ _ _. destruct s; reflexivity.
  - pose proof (abandoned_fields b (unpush_target_core_ops (gdb_bfd_ref b s)))
      as [Hcb Hnc].
    split; [| split; [| split]].
    + apply nothing_new_set_messages. apply abandoned_gives_back.
      apply unpush_target_core_ops_nothing_new.
    + left. revert Hcb.
      generalize (abandoned b (unpush_target_core_ops (gdb_bfd_ref b s))).
      intros y Hy. destruct y; exact Hy.
    + left. revert Hnc.
      generalize (abandoned b (unpush_target_core_ops (gdb_bfd_ref b s))).
      intros y Hy. destruct y; exact Hy.
    + intros Hstack Hbfd Hnew Hptid Hso.
      rewrite unpush_target_core_ops_none by (destruct s; exact Hstack).
      destruct s; cbn in *. subst. cbn.
      rewrite String.eqb_refl. reflexivity.
Qed.

(* ------------------------------------------------------------------ *)
(** ** A successful open *)

(** The shape of the state after a successful [core_open]: the thread
    list built on the freshly pushed target, then register cache and
    messages. *)
Lemma core_open_success (core_file_fns : list core_fns) (rq : open_request)
      (s s' : gdb_state) :
  core_open core_file_fns rq s = (Ok tt, s') ->
  exists temp_bfd cops ms rc ms',
    gdb_bfd_fopen rq = Some temp_bfd
    /\ let u := unpush_target_core_ops (gdb_bfd_ref temp_bfd s) in
       s' = set_regcache rc
              (set_messages ms'
                 (snd (core_open_threads temp_bfd
                         (pushed cops (List.length (cleanup_chain u))
                            (adopt_core_gdbarch temp_bfd
                               (installing temp_bfd cops ms u)))))).
Proof.
  intros Hopen. unfold core_open in Hopen.
  destruct (core_open_body core_file_fns rq s) as [r s1] eqn:Hbody.
  destruct r as [[] | e0 |]; try discriminate.
  injection Hopen as <-.
  unfold core_open_body in Hbody.
  destruct (arg rq) as [a |].
  2: { destruct s; cbn in Hbody; discriminate. }
  rewrite bind_exec in Hbody.
  unfold bind at 1 in Hbody. unfold make_cleanup at 1 in Hbody.
  cbv beta iota zeta in Hbody.
  destruct (gdb_open_cloexec_ok rq).
  2: { destruct s; cbn in Hbody; discriminate. }
  destruct (gdb_bfd_fopen rq) as [b |].
  2: { destruct s; cbn in Hbody; discriminate. }
  exists b.
  destruct s.
  cbn -[do_cleanups core_open_install core_open_pushed] in Hbody.
  destruct (negb (bfd_check_format_core b) && negb (gdb_check_format core_file_fns b)).
  { cbn in Hbody. discriminate. }
  rewrite bind_ret, bind_exec in Hbody.
  rewrite (do_cleanups_one _ cleanup_xfree_filename cleanup_chain0) in Hbody by reflexivity.
  cbn [run_cleanup xfree set_allocated set_cleanup_chain remove_one
       block_eqb allocated] in Hbody.
  unfold bind at 1 in Hbody.
  cbn [gdb_bfd_ref set_bfd_refs bfd_refs].
  match type of Hbody with
  | context [core_open_install ?f ?r ?b ?S] =>
      destruct (core_open_install_cases f r b S)
        as [(cops & ms & Hi & Hg & Hd) | (e' & cops & ms & Hi & He')];
        rewrite Hi in Hbody; clear Hi
  end.
  2: { discriminate. }
  exists cops, ms.
  unfold bind, gets in Hbody. rewrite new_cops_installed in Hbody.
  match type of Hbody with
  | core_open_pushed ?r ?b ?c ?o ?x = _ =>
      destruct (core_open_pushed_cases r b c o x) as [Hp | [_ (rc & ms' & Hp)]]
  end.
  - rewrite Hp in Hbody. discriminate.
  - exists rc, ms'. split; [reflexivity |].
    rewrite Hbody in Hp. exact Hp.
Qed.

(** What the freshly pushed target starts the thread list from. *)
Lemma pushed_fields (temp_bfd : bfd) (cops : core_target_ops_with_data)
      (ms : list message) (n : nat) (u : gdb_state) :
  let x := pushed cops n (adopt_core_gdbarch temp_bfd (installing temp_bfd cops ms u)) in
  core_bfd x = Some temp_bfd
  /\ inferior_ptid x = null_ptid
  /\ thread_list x = []
  /\ current_inferior x = current_inferior u
  /\ other_inferiors x = other_inferiors u.
Proof.
  cbv zeta. unfold pushed, adopt_core_gdbarch, installing.
  destruct u; cbn. destruct exec_bfd0; cbn; repeat split; reflexivity.
Qed.

Section CurrentThread.

Variable cbfd : bfd.
Variable r : asection.

Local Abbreviation walk :=
  (fold_left (fun acc asect => add_to_thread_list asect (Some r) acc)).

Lemma thread_walk_unmatched (l : list asection) :
  forall s,
    core_bfd s = Some cbfd ->
    (forall a, In a l -> is_thread_section a = true -> filepos a <> filepos r) ->
    inferior_ptid (walk l s) = inferior_ptid s.
Proof.
  induction l as [| x l IH]; intros s Hbfd Hno; [reflexivity |].
  cbn [fold_left].
  rewrite IH.
  - destruct (is_thread_section x) eqn:Hthr.
    + rewrite (add_to_thread_list_thread x (Some r) s cbfd Hbfd Hthr). cbv zeta.
      assert (Hne : (filepos x =? filepos r) = false).
      { apply Z.eqb_neq. apply Hno; [left; reflexivity | exact Hthr]. }
      rewrite Hne. destruct s; cbn.
      destruct (inf_pid current_inferior0 =? 0); reflexivity.
    + rewrite add_to_thread_list_other by exact Hthr. reflexivity.
  - rewrite (proj2 (add_to_thread_list_frame x (Some r) s)). exact Hbfd.
  - intros a Hin. apply Hno. right. exact Hin.
Qed.

(** The last [.reg/...] section that lies where [.reg] lies gives the
    current thread. *)
Lemma thread_walk_current (l1 l2 : list asection) (a : asection) (s : gdb_state) :
  core_bfd s = Some cbfd ->
  is_thread_section a = true ->
  filepos a = filepos r ->
  (forall a', In a' l2 -> is_thread_section a' = true -> filepos a' <> filepos r) ->
  inferior_ptid (walk (l1 ++ a :: l2) s) = thread_of_section cbfd a.
Proof.
  intros Hbfd Hthr Hpos Hlast.
  rewrite fold_left_app. cbn [fold_left].
  assert (Hbfd1 : core_bfd (walk l1 s) = Some cbfd).
  { rewrite (proj2 (thread_walk_frame (Some r) l1 s)). exact Hbfd. }
  rewrite thread_walk_unmatched.
  - rewrite (add_to_thread_list_thread a (Some r) _ cbfd Hbfd1 Hthr). cbv zeta.
    rewrite Hpos, Z.eqb_refl.
    generalize (walk l1 s). intros w. destruct w; cbn.
    destruct (inf_pid current_inferior0 =? 0); reflexivity.
  - rewrite (proj2 (add_to_thread_list_frame a (Some r) (walk l1 s))). exact Hbfd1.
  - exact Hlast.
Qed.

End CurrentThread.

Lemma core_open_threads_state (temp_bfd : bfd) (x : gdb_state) :
  let w := bfd_map_over_sections temp_bfd
             (fun asect => add_to_thread_list asect
                             (bfd_get_section_by_name temp_bfd ".reg")) x in
  snd (core_open_threads temp_bfd x)
  = if ptid_equal (inferior_ptid w) null_ptid
    then match first_thread_of_process w with
         | None =>
             add_thread (pid_to_ptid CORELOW_PID)
               (set_inferior_ptid (pid_to_ptid CORELOW_PID)
                  (inferior_appeared CORELOW_PID w))
         | Some t => switch_to_thread t w
         end
    else w.
Proof.
  cbv zeta. unfold core_open_threads. rewrite bind_exec.
  generalize (bfd_map_over_sections temp_bfd
                (fun asect => add_to_thread_list asect
                                (bfd_get_section_by_name temp_bfd ".reg")) x).
  intros w. unfold bind, gets, exec, ret. cbn.
  destruct (ptid_equal (inferior_ptid w) null_ptid); [| reflexivity].
  destruct (first_thread_of_process w); reflexivity.
Qed.

Lemma output_fields (rc : list supply_call) (ms : list message) (y : gdb_state) :
  let s' := set_regcache rc (set_messages ms y) in
  inferior_ptid s' = inferior_ptid y
  /\ thread_list s' = thread_list y
  /\ current_inferior s' = current_inferior y
  /\ other_inferiors s' = other_inferiors y.
Proof. destruct y; cbn. repeat split; reflexivity. Qed.

(** C4 — After a successful open of a container that has a section
    named [.reg] and a [.reg/<lwp>] section at the file offset of [.reg],
    the thread created from that section is the current thread (of
    several such sections, the last one in section order). *)
Theorem core_open_current_thread
        (core_file_fns : list core_fns) (rq : open_request) (s s' : gdb_state)
        (temp_bfd : bfd) (reg : asection) (l1 l2 : list asection) (a : asection) :
  core_open core_file_fns rq s = (Ok tt, s') ->
  gdb_bfd_fopen rq = Some temp_bfd ->
  bfd_get_section_by_name temp_bfd ".reg" = Some reg ->
  bfd_sections temp_bfd = l1 ++ a :: l2 ->
  is_thread_section a = true ->
  filepos a = filepos reg ->
  (forall a', In a' l2 -> is_thread_section a' = true -> filepos a' <> filepos reg) ->
  inferior_ptid s' = thread_of_section temp_bfd a
  /\ In (thread_of_section temp_bfd a) (thread_list s').
Proof.
  intros Hopen Hfopen Hreg Hsections Hthr Hpos Hlast.
  destruct (core_open_success _ _ _ _ Hopen)
    as (b & cops & ms & rc & ms' & Hb & Hs').
  rewrite Hfopen in Hb. injection Hb as <-. cbv zeta in Hs'.
  match type of Hs' with
  | context [core_open_threads _ (pushed ?c ?n (adopt_core_gdbarch _ (installing _ _ ?m ?u)))] =>
      destruct (pushed_fields temp_bfd c m n u) as (Hbfd & Hptid & Hthreads & _);
      cbv zeta in Hbfd, Hptid, Hthreads;
      revert Hs' Hbfd Hptid Hthreads;
      generalize (pushed c n (adopt_core_gdbarch temp_bfd (installing temp_bfd c m u)))
  end.
  intros x Hs' Hbfd Hptid Hthreads.
  rewrite core_open_threads_state in Hs'. cbv zeta in Hs'.
  unfold bfd_map_over_sections in Hs'. rewrite Hreg, Hsections in Hs'.
  assert (Hcur : inferior_ptid
                   (fold_left (fun acc asect => add_to_thread_list asect (Some reg) acc)
                              (l1 ++ a :: l2) x)
                 = thread_of_section temp_bfd a).
  { apply thread_walk_current; assumption. }
  assert (Hin : In (thread_of_section temp_bfd a)
                   (thread_list
                      (fold_left (fun acc asect => add_to_thread_list asect (Some reg) acc)
                                 (l1 ++ a :: l2) x))).
  { apply thread_walk_creates; [exact Hbfd | | exact Hthr].
    apply in_or_app. right. left. reflexivity. }
  rewrite Hcur, thread_of_section_not_null in Hs'.
  destruct (output_fields rc ms'
              (fold_left (fun acc asect => add_to_thread_list asect (Some reg) acc)
                         (l1 ++ a :: l2) x)) as (Hp & Ht & _).
  cbv zeta in Hp, Ht. rewrite <- Hs' in Hp, Ht.
  rewrite Hp, Ht. split; assumption.
Qed.

(* ------------------------------------------------------------------ *)
(** ** Numbers in section names *)

Lemma decimal_digit_char (d : Z) :
  0 <= d < 10 ->
  isdigit (ascii_of_nat (Z.to_nat (48 + d))) = true
  /\ digit_value (ascii_of_nat (Z.to_nat (48 + d))) = d.
Proof.
  intros H.
  assert (Hd : d = 0 \/ d = 1 \/ d = 2 \/ d = 3 \/ d = 4 \/ d = 5 \/ d = 6
               \/ d = 7 \/ d = 8 \/ d = 9) by lia.
  repeat (destruct Hd as [-> | Hd]; [split; reflexivity |]).
  subst d. split; reflexivity.
Qed.

Lemma scan_digits_decimal (fuel : nat) :
  forall (n : Z) (acc : string),
    0 <= n < 10 ^ Z.of_nat fuel ->
    scan_digits (decimal_digits fuel n acc) 0 = scan_digits acc n.
Proof.
  induction fuel as [| fuel IH]; intros n acc Hn.
  - cbn in Hn. assert (n = 0) by lia. subst n. reflexivity.
  - rewrite Nat2Z.inj_succ, Z.pow_succ_r in Hn by lia.
    cbn [decimal_digits].
    assert (Hmod : 0 <= n mod 10 < 10) by (apply Z.mod_pos_bound; lia).
    destruct (decimal_digit_char (n mod 10) Hmod) as [Hdig Hval].
    destruct (n <? 10) eqn:Hsmall.
    + apply Z.ltb_lt in Hsmall.
      cbn [scan_digits]. rewrite Hdig, Hval.
      rewrite Z.mod_small by lia. reflexivity.
    + apply Z.ltb_ge in Hsmall.
      rewrite IH.
      * cbn [scan_digits]. rewrite Hdig, Hval.
        f_equal. rewrite (Z.div_mod n 10) at 3 by lia. reflexivity.
      * split; [apply Z.div_pos; lia |].
        apply Z.div_lt_upper_bound; lia.
Qed.

Lemma decimal_digits_head (fuel : nat) :
  forall (n : Z) (acc : string),
    fuel <> O \/ (exists c r, acc = String c r /\ isdigit c = true) ->
    exists c r, decimal_digits fuel n acc = String c r /\ isdigit c = true.
Proof.
  induction fuel as [| fuel IH]; intros n acc H.
  - destruct H as [H | H]; [congruence | exact H].
  - cbn [decimal_digits].
    assert (Hmod : 0 <= n mod 10 < 10) by (apply Z.mod_pos_bound; lia).
    destruct (decimal_digit_char (n mod 10) Hmod) as [Hdig _].
    destruct (n <? 10).
    + eexists _, _. split; [reflexivity | exact Hdig].
    + apply IH. right. eexists _, _. split; [reflexivity | exact Hdig].
Qed.

Lemma strtol10_digits (c : ascii) (r : string) :
  isdigit c = true ->
  strtol10 (String c r)
  = Some (clamp_long (fst (scan_digits (String c r) 0)),
          snd (scan_digits (String c r) 0)).
Proof.
  intros Hc. unfold strtol10.
  destruct c as [[] [] [] [] [] [] [] []]; try discriminate Hc;
    cbv -[scan_digits clamp_long Z.opp];
    match goal with
    | |- context [scan_digits ?s 0] => destruct (scan_digits s 0)
    end;
    reflexivity.
Qed.

Lemma strtol10_minus_digits (c : ascii) (r : string) :
  isdigit c = true ->
  strtol10 (String "-" (String c r))
  = Some (clamp_long (- fst (scan_digits (String c r) 0)),
          snd (scan_digits (String c r) 0)).
Proof.
  intros Hc. unfold strtol10.
  cbv -[scan_digits clamp_long Z.opp isdigit].
  rewrite Hc.
  destruct (scan_digits (String c r) 0). reflexivity.
Qed.

(** What [printf ("%ld")] writes, [atoi] reads back. *)
Lemma atoi_format_ld (n : Z) : - 2 ^ 31 <= n < 2 ^ 31 -> atoi (format_ld n) = n.
Proof.
  intros Hn.
  assert (Hpow : 10 ^ Z.of_nat 20 = 100000000000000000000) by reflexivity.
  unfold atoi, format_ld.
  destruct (n <? 0) eqn:Hneg.
  - apply Z.ltb_lt in Hneg.
    destruct (decimal_digits_head 20 (- n) EmptyString) as (c & r & Hstr & Hc);
      [left; discriminate |].
    rewrite Hstr, (strtol10_minus_digits c r Hc), <- Hstr.
    rewrite scan_digits_decimal by lia.
    cbn [scan_digits fst]. rewrite Z.opp_involutive.
    unfold clamp_long. rewrite wrap_int_small; lia.
  - apply Z.ltb_ge in Hneg.
    destruct (decimal_digits_head 20 n EmptyString) as (c & r & Hstr & Hc);
      [left; discriminate |].
    rewrite Hstr, (strtol10_digits c r Hc), <- Hstr.
    rewrite scan_digits_decimal by lia.
    cbn [scan_digits fst].
    unfold clamp_long. rewrite wrap_int_small; lia.
Qed.

(* ------------------------------------------------------------------ *)
(** ** Threads and the inferior of a core *)

(** C5 (amended) — For every section whose name begins with [.reg/] a
    thread is created whose LWP is [atoi] of the tail after the slash:
    the tail written by [printf ("%ld")] for a number gives that number,
    and a tail that does not begin with a number gives LWP 0, with its
    thread all the same. *)
Theorem reg_section_lwp (a : asection) (reg_sect : option asection)
        (s : gdb_state) (cbfd : bfd) :
  core_bfd s = Some cbfd ->
  is_thread_section a = true ->
  In (ptid_build (core_pid cbfd) (atoi (string_drop 5 (sec_name a))) 0)
     (thread_list (add_to_thread_list a reg_sect s))
  /\ (forall n, - 2 ^ 31 <= n < 2 ^ 31 ->
                sec_name a = (".reg/" ++ format_ld n)%string ->
                atoi (string_drop 5 (sec_name a)) = n)
  /\ (strtol10 (string_drop 5 (sec_name a)) = None ->
      atoi (string_drop 5 (sec_name a)) = 0).
Proof.
  intros Hbfd Hthr. split; [| split].
  - exact (add_to_thread_list_creates cbfd reg_sect a s Hbfd Hthr).
  - intros n Hn Hname. rewrite Hname. cbn [append string_drop].
    apply atoi_format_ld. exact Hn.
  - intros Hnone. unfold atoi. rewrite Hnone. reflexivity.
Qed.

Lemma reg_section_lwp_witness :
  core_bfd (walking odd_thread_core) = Some odd_thread_core
  /\ is_thread_section (note_section ".reg/abc" 80 4) = true
  /\ In (ptid_build 4321 0 0)
        (thread_list (add_to_thread_list (note_section ".reg/abc" 80 4) None
                                         (walking odd_thread_core))).
Proof.
  split; [reflexivity | split; [reflexivity |]].
  exact (proj1 (reg_section_lwp (note_section ".reg/abc" 80 4) None
                                (walking odd_thread_core) odd_thread_core
                                eq_refl eq_refl)).
Defined.

(** A [.reg/] section with a tail that is not a number does get its
    thread, with LWP 0. *)
Lemma reg_section_nonnumeric_tail :
  let a := note_section ".reg/abc" 80 4 in
  startswith (sec_name a) ".reg/" = true
  /\ strtol10 (string_drop 5 (sec_name a)) = None
  /\ thread_list (walking odd_thread_core) = []
  /\ thread_list (add_to_thread_list a None (walking odd_thread_core))
     = [ptid_build 4321 0 0]
  /\ thread_list (snd (core_open [] (open_request_for odd_thread_core) initial_state))
     = [ptid_build 4321 0 0].
Proof. vm_compute. repeat split; reflexivity. Qed.

(** The inferior of the core after a successful open from a state
    without a core session and without a process: with [.reg/] sections
    it carries the pid of the container, or [CORELOW_PID] flagged as
    fake; without them it carries [CORELOW_PID] and its flag is not
    touched. *)
Lemma core_open_inferior (core_file_fns : list core_fns) (rq : open_request)
      (s s' : gdb_state) (temp_bfd : bfd) :
  core_open core_file_fns rq s = (Ok tt, s') ->
  gdb_bfd_fopen rq = Some temp_bfd ->
  has_core_target (target_stack s) = false ->
  inf_pid (current_inferior s) = 0 ->
  other_inferiors s' = other_inferiors s
  /\ current_inferior s'
     = if existsb is_thread_section (bfd_sections temp_bfd)
       then {| inf_pid := core_pid temp_bfd;
               fake_pid_p := bfd_core_file_pid temp_bfd =? 0 |}
       else {| inf_pid := CORELOW_PID;
               fake_pid_p := fake_pid_p (current_inferior s) |}.
Proof.
  intros Hopen Hfopen Hstack Hpid.
  destruct (core_open_success _ _ _ _ Hopen)
    as (b & cops & ms & rc & ms' & Hb & Hs').
  rewrite Hfopen in Hb. injection Hb as <-. cbv zeta in Hs'.
  rewrite unpush_target_core_ops_none in Hs' by (destruct s; exact Hstack).
  match type of Hs' with
  | context [core_open_threads _ (pushed ?c ?n (adopt_core_gdbarch _ (installing _ _ ?m ?u)))] =>
      destruct (pushed_fields temp_bfd c m n u)
        as (Hbfd & Hptid & Hthreads & Hcur & Hoth);
      cbv zeta in Hbfd, Hptid, Hthreads, Hcur, Hoth;
      revert Hs' Hbfd Hptid Hthreads Hcur Hoth;
      generalize (pushed c n (adopt_core_gdbarch temp_bfd (installing temp_bfd c m u)))
  end.
  intros x Hs' Hbfd Hptid Hthreads Hcur Hoth.
  assert (Hcur' : current_inferior x = current_inferior s) by (destruct s; exact Hcur).
  assert (Hoth' : other_inferiors x = other_inferiors s) by (destruct s; exact Hoth).
  clear Hcur Hoth.
  rewrite core_open_threads_state in Hs'. cbv zeta in Hs'.
  unfold bfd_map_over_sections in Hs'.
  set (reg := bfd_get_section_by_name temp_bfd ".reg") in *.
  set (w := fold_left (fun acc asect => add_to_thread_list asect reg acc)
                      (bfd_sections temp_bfd) x) in *.
  destruct (thread_walk_frame reg (bfd_sections temp_bfd) x) as [(c & t & p & Hw) _].
  fold w in Hw.
  assert (Hwo : other_inferiors w = other_inferiors s).
  { rewrite Hw, <- Hoth'. destruct x; reflexivity. }
  assert (Hwc : current_inferior w
                = if existsb is_thread_section (bfd_sections temp_bfd)
                  then {| inf_pid := core_pid temp_bfd;
                          fake_pid_p := bfd_core_file_pid temp_bfd =? 0 |}
                  else current_inferior s).
  { unfold w. rewrite (thread_walk_inferior temp_bfd reg _ x Hbfd).
    rewrite Hcur', Hpid. cbn. rewrite andb_true_r. reflexivity. }
  destruct (output_fields rc ms'
              (if ptid_equal (inferior_ptid w) null_ptid
               then match first_thread_of_process w with
                    | Some t0 => switch_to_thread t0 w
                    | None =>
                        add_thread (pid_to_ptid CORELOW_PID)
                          (set_inferior_ptid (pid_to_ptid CORELOW_PID)
                             (inferior_appeared CORELOW_PID w))
                    end
               else w)) as (_ & _ & Hc & Ho).
  cbv zeta in Hc, Ho. rewrite <- Hs' in Hc, Ho. rewrite Hc, Ho. clear Hc Ho Hs'.
  destruct (existsb is_thread_section (bfd_sections temp_bfd)) eqn:Hex.
  - assert (Hne : first_thread_of_process w <> None).
    { apply existsb_exists in Hex. destruct Hex as (a & Hin & Hthr).
      assert (Hcreated : In (thread_of_section temp_bfd a) (thread_list w))
        by exact (thread_walk_creates temp_bfd reg (bfd_sections temp_bfd) a x
                    Hbfd Hin Hthr).
      unfold first_thread_of_process.
      destruct (thread_list w); [contradiction | discriminate]. }
    destruct (ptid_equal (inferior_ptid w) null_ptid).
    + destruct (first_thread_of_process w) as [t0 |]; [| congruence].
      rewrite <- Hwo, <- Hwc. destruct w; cbn. split; reflexivity.
    + rewrite <- Hwo, <- Hwc. split; reflexivity.
  - assert (Hwx : w = x) by (apply thread_walk_no_thread; exact Hex).
    rewrite Hwx in *. rewrite Hptid.
    unfold first_thread_of_process. rewrite Hthreads.
    rewrite <- Hoth', <- Hcur'. destruct x; cbn. split; reflexivity.
Qed.

(** C3 — A container without [.reg/] sections that reports process id
    zero opens successfully into one inferior with the synthetic pid
    [CORELOW_PID], but the fake-pid flag of that inferior is not set. *)
Theorem core_open_pidless_single_thread :
  bfd_core_file_pid pidless_core = 0
  /\ exists s',
      core_open [] (open_request_for pidless_core) initial_state = (Ok tt, s')
      /\ live_inferiors s' = [ {| inf_pid := CORELOW_PID; fake_pid_p := false |} ]
      /\ thread_list s' = [ptid_build CORELOW_PID 0 0].
Proof.
  split; [reflexivity |].
  eexists. split; [vm_compute; reflexivity |]. split; reflexivity.
Qed.

(* ------------------------------------------------------------------ *)
(** ** Reading a register section *)

(** A section smaller than the minimum: a warning, and nothing is
    supplied. *)
Lemma get_core_register_section_too_small
      (regset : option regset) (name : string) (min_size which : Z)
      (human_name : string) (required : bool)
      (s : gdb_state) (cbfd : bfd) (section : asection) :
  core_bfd s = Some cbfd ->
  bfd_get_section_by_name cbfd (thread_section_name name s) = Some section ->
  wrap_u64 (bfd_section_size section) < wrap_u64 min_size ->
  get_core_register_section regset name min_size which human_name required s
  = (Ok tt, set_messages
              (messages s ++ [warn_section_too_small (thread_section_name name s)]) s).
Proof.
  intros Hbfd Hsec Hsmall.
  unfold get_core_register_section, bind, gets. cbn.
  rewrite Hbfd, Hsec.
  apply Z.ltb_lt in Hsmall. rewrite Hsmall. reflexivity.
Qed.

(** A section of another size than the minimum, read for a register set
    that is not of variable size: a warning, and the read and the supply
    go ahead. *)
Lemma get_core_register_section_unexpected_size
      (rs : regset) (name : string) (min_size which : Z)
      (human_name : string) (required : bool)
      (s : gdb_state) (cbfd : bfd) (section : asection) :
  core_bfd s = Some cbfd ->
  bfd_get_section_by_name cbfd (thread_section_name name s) = Some section ->
  wrap_u64 min_size < wrap_u64 (bfd_section_size section) ->
  Z.land (regset_flags rs) REGSET_VARIABLE_SIZE = 0 ->
  let size := wrap_u64 (bfd_section_size section) in
  let warned :=
    set_messages (messages s ++ [warn_unexpected_size (thread_section_name name s)]) s in
  get_core_register_section (Some rs) name min_size which human_name required s
  = match bfd_get_section_contents section 0 size with
    | Some contents =>
        (Ok tt, set_regcache (regcache s ++ [supply_regset rs (-1) contents size]) warned)
    | None =>
        (Ok tt, set_messages
                  (messages warned ++ [warn_couldnt_read_registers human_name name])
                  warned)
    end.
Proof.
  intros Hbfd Hsec Hbig Hflag. cbv zeta.
  unfold get_core_register_section, bind, gets. cbn.
  rewrite Hbfd, Hsec.
  assert (Hlt : (wrap_u64 (bfd_section_size section) <? wrap_u64 min_size) = false)
    by (apply Z.ltb_ge; lia).
  assert (Hne : (wrap_u64 (bfd_section_size section) =? wrap_u64 min_size) = false)
    by (apply Z.eqb_neq; lia).
  rewrite Hlt, Hne, Hflag. cbn.
  destruct (bfd_get_section_contents section 0 (wrap_u64 (bfd_section_size section)));
    destruct s; reflexivity.
Qed.

(** C6 — Read without a register set, as the legacy path of
    [get_core_registers] reads, a section whose size is not the minimum
    makes the function look into the missing register set: it faults
    before any warning and before any supply. *)
Theorem get_core_register_section_null_regset
        (name : string) (min_size which : Z) (human_name : string) (required : bool)
        (s : gdb_state) (cbfd : bfd) (section : asection) :
  core_bfd s = Some cbfd ->
  bfd_get_section_by_name cbfd (thread_section_name name s) = Some section ->
  wrap_u64 min_size < wrap_u64 (bfd_section_size section) ->
  get_core_register_section None name min_size which human_name required s
  = (Fault, s).
Proof.
  intros Hbfd Hsec Hbig.
  unfold get_core_register_section, bind, gets. cbn.
  rewrite Hbfd, Hsec.
  assert (Hlt : (wrap_u64 (bfd_section_size section) <? wrap_u64 min_size) = false)
    by (apply Z.ltb_ge; lia).
  assert (Hne : (wrap_u64 (bfd_section_size section) =? wrap_u64 min_size) = false)
    by (apply Z.eqb_neq; lia).
  rewrite Hlt, Hne. reflexivity.
Qed.

Lemma get_core_register_section_null_regset_witness :
  core_bfd (session_on legacy_core (Some (flavour_handler "legacy" 5)))
  = Some legacy_core
  /\ get_core_register_section None ".reg" 0 0 "general-purpose" true
       (session_on legacy_core (Some (flavour_handler "legacy" 5)))
     = (Fault, session_on legacy_core (Some (flavour_handler "legacy" 5)))
  /\ fst (core_open [flavour_handler "legacy" 5] (open_request_for legacy_core)
                    initial_state) = Fault.
Proof.
  split; [reflexivity |]. split; [| reflexivity].
  apply (get_core_register_section_null_regset
           ".reg" 0 0 "general-purpose" true
           (session_on legacy_core (Some (flavour_handler "legacy" 5)))
           legacy_core (note_section ".reg" 100 4));
    reflexivity.
Defined.

(* ------------------------------------------------------------------ *)
(** ** The router: writes and signal information *)

(** C7 — A request that carries a write buffer (and, as the callers of
    [to_xfer_partial] pass it, no read buffer) is answered with an I/O
    error for every object kind the core target handles itself, memory
    included; for any other kind the answer is the one of the target
    beneath. *)
Theorem core_xfer_partial_write_rejected
        (beneath : beneath_xfer) (object : target_object) (annex : option string)
        (writebuf : list Z) (offset len : Z)
        (s : gdb_state) (cops : core_target_ops_with_data) :
  get_core_target_ops s = Some cops ->
  core_xfer_partial beneath object annex None (Some writebuf) offset len s
  = (Ok match object with
        | TARGET_OBJECT_other _ => beneath object annex None (Some writebuf) offset len
        | _ => xfer_done TARGET_XFER_E_IO None
        end, s).
Proof.
  intros Hcops.
  unfold core_xfer_partial, bind, gets. rewrite Hcops.
  destruct cops as [vec arch data].
  destruct object; cbn; try reflexivity.
  - destruct data as [sections |]; [destruct sections |]; reflexivity.
  - unfold core_xfer_libraries, core_xfer_libraries_aix, core_xfer_extractor,
      core_xfer_spu. cbn.
    destruct arch as [[nm itp its lib aix nregs] |]; [| reflexivity].
    destruct lib; [reflexivity |]. destruct aix; reflexivity.
  - unfold core_xfer_libraries_aix, core_xfer_extractor, core_xfer_spu. cbn.
    destruct arch as [[nm itp its lib aix nregs] |]; [| reflexivity].
    destruct aix; reflexivity.
Qed.

Lemma core_xfer_partial_write_rejected_witness :
  get_core_target_ops (session_on pidless_core None)
  = Some {| core_vec := None; core_gdbarch := Some regset_arch;
            core_data := Some (section_table_of pidless_core) |}
  /\ core_xfer_partial (fun _ _ _ _ _ _ => xfer_done TARGET_XFER_EOF None)
       TARGET_OBJECT_AUXV None None (Some [1; 2]) 0 2 (session_on pidless_core None)
     = (Ok (xfer_done TARGET_XFER_E_IO None), session_on pidless_core None).
Proof.
  split; [reflexivity |].
  exact (core_xfer_partial_write_rejected
           (fun _ _ _ _ _ _ => xfer_done TARGET_XFER_EOF None)
           TARGET_OBJECT_AUXV None [1; 2] 0 2 (session_on pidless_core None)
           _ eq_refl).
Defined.

Lemma store_bytes_prefix (buf data : list Z) :
  (List.length data <= List.length buf)%nat ->
  store_bytes buf 0 data = Some (data ++ skipn (List.length data) buf).
Proof.
  intros Hfit. unfold store_bytes. cbn [Z.leb Z.compare andb Z.to_nat Nat.add firstn app].
  replace (0 + Z.of_nat (List.length data) <=? Z.of_nat (List.length buf)) with true
    by (symmetry; apply Z.leb_le; lia).
  reflexivity.
Qed.

Lemma bfd_get_section_contents_exact (sec : asection) (offset count : Z) (data : list Z) :
  bfd_get_section_contents sec offset count = Some data ->
  exists c, sec_contents sec = Some c
            /\ 0 <= offset /\ 0 <= count
            /\ offset + count <= Z.of_nat (List.length c)
            /\ data = firstn (Z.to_nat count) (skipn (Z.to_nat offset) c)
            /\ List.length data = Z.to_nat count.
Proof.
  unfold bfd_get_section_contents.
  destruct (sec_contents sec) as [c |]; [| discriminate].
  destruct ((0 <=? offset) && (0 <=? count)
            && (offset + count <=? Z.of_nat (List.length c))) eqn:Hok; [| discriminate].
  apply andb_true_iff in Hok. destruct Hok as [Hok H3].
  apply andb_true_iff in Hok. destruct Hok as [H1 H2].
  apply Z.leb_le in H1, H2, H3.
  intros H. injection H as <-. exists c. repeat split; try assumption.
  rewrite length_firstn, length_skipn. lia.
Qed.

(** C9 — A read of signal information looks up
    [.note.linuxcore.siginfo], with [/<lwp>] appended when the current
    thread has an LWP, and asks the container for exactly [len] bytes at
    [offset].  An absent section and a failed read give an I/O error;
    a read that succeeds reports [len] bytes transferred, the bytes
    being those of the section from [offset] on. *)
Theorem core_xfer_partial_siginfo
        (beneath : beneath_xfer) (annex : option string)
        (readbuf : list Z) (writebuf : option (list Z)) (offset len : Z)
        (s : gdb_state) (cbfd : bfd) :
  core_bfd s = Some cbfd ->
  len <= Z.of_nat (List.length readbuf) ->
  siginfo_section_name s
  = (if ptid_get_lwp (inferior_ptid s) =? 0
     then ".note.linuxcore.siginfo"
     else (".note.linuxcore.siginfo/" ++ format_ld (ptid_get_lwp (inferior_ptid s)))%string)
  /\ core_xfer_partial beneath TARGET_OBJECT_SIGNAL_INFO annex (Some readbuf) writebuf
                       offset len s
     = (Ok match bfd_get_section_by_name cbfd (siginfo_section_name s) with
           | None => xfer_done TARGET_XFER_E_IO (Some readbuf)
           | Some section =>
               match bfd_get_section_contents section offset len with
               | None => xfer_done TARGET_XFER_E_IO (Some readbuf)
               | Some data =>
                   let filled := data ++ skipn (Z.to_nat len) readbuf in
                   if 0 <? wrap_s64 len
                   then xfer_ok len filled
                   else xfer_done TARGET_XFER_E_IO (Some filled)
               end
           end, s)
  /\ (forall section c,
         bfd_get_section_by_name cbfd (siginfo_section_name s) = Some section ->
         sec_contents section = Some c ->
         0 <= offset -> 0 < len < 2 ^ 63 ->
         offset + len <= Z.of_nat (List.length c) ->
         core_xfer_partial beneath TARGET_OBJECT_SIGNAL_INFO annex (Some readbuf) writebuf
                           offset len s
         = (Ok (xfer_ok len (firstn (Z.to_nat len) (skipn (Z.to_nat offset) c)
                             ++ skipn (Z.to_nat len) readbuf)), s)).
Proof.
  intros Hbfd Hroom.
  assert (Heq : core_xfer_partial beneath TARGET_OBJECT_SIGNAL_INFO annex (Some readbuf)
                  writebuf offset len s
                = (Ok match bfd_get_section_by_name cbfd (siginfo_section_name s) with
                      | None => xfer_done TARGET_XFER_E_IO (Some readbuf)
                      | Some section =>
                          match bfd_get_section_contents section offset len with
                          | None => xfer_done TARGET_XFER_E_IO (Some readbuf)
                          | Some data =>
                              let filled := data ++ skipn (Z.to_nat len) readbuf in
                              if 0 <? wrap_s64 len
                              then xfer_ok len filled
                              else xfer_done TARGET_XFER_E_IO (Some filled)
                          end
                      end, s)).
  { unfold core_xfer_partial, with_core_bfd, get_core_siginfo, bind, gets, ret. cbn.
    rewrite Hbfd.
    destruct (bfd_get_section_by_name cbfd (siginfo_section_name s)) as [section |];
      [| reflexivity].
    destruct (bfd_get_section_contents section offset len) as [data |] eqn:Hread;
      [| reflexivity].
    destruct (bfd_get_section_contents_exact _ _ _ _ Hread)
      as (c & _ & _ & Hlen & _ & _ & Hdata).
    rewrite store_bytes_prefix by lia.
    rewrite Hdata. cbn.
    destruct (0 <? wrap_s64 len); reflexivity. }
  split; [| split].
  - unfold siginfo_section_name, thread_section_name.
    destruct (ptid_get_lwp (inferior_ptid s) =? 0); reflexivity.
  - exact Heq.
  - intros section c Hsec Hc Hoff Hlen Hfit.
    rewrite Heq, Hsec.
    unfold bfd_get_section_contents. rewrite Hc.
    replace ((0 <=? offset) && (0 <=? len) && (offset + len <=? Z.of_nat (List.length c)))
      with true
      by (symmetry; rewrite !andb_true_iff, !Z.leb_le; lia).
    cbv zeta. rewrite wrap_s64_small by lia.
    replace (0 <? len) with true by (symmetry; apply Z.ltb_lt; lia).
    reflexivity.
Qed.

(* ------------------------------------------------------------------ *)
(** ** The list of SPU ids *)

Lemma add_to_spuid_list_emit (abfd : bfd) (asect : asection) (list : spuid_list) :
  add_to_spuid_list abfd asect list
  = match sscanf_spu_regs (sec_name asect) with
    | Some fd => emit_spuid (bfd_big_endian abfd) fd list
    | None => Some list
    end.
Proof. reflexivity. Qed.

Lemma map_spuid_list_emit (abfd : bfd) (sections : list asection) :
  forall list,
    map_spuid_list abfd sections list
    = emit_spuids (bfd_big_endian abfd) (spu_ids_of sections) list.
Proof.
  induction sections as [| a sections IH]; intros list; [reflexivity |].
  cbn [map_spuid_list spu_ids_of flat_map]. fold (spu_ids_of sections).
  rewrite add_to_spuid_list_emit.
  destruct (sscanf_spu_regs (sec_name a)) as [fd |]; cbn [app emit_spuids].
  - destruct (emit_spuid (bfd_big_endian abfd) fd list); [apply IH | reflexivity].
  - apply IH.
Qed.

Lemma spu_ids_of_length (sections : list asection) :
  (List.length (spu_ids_of sections) <= List.length sections)%nat.
Proof.
  induction sections as [| a sections IH]; [cbn; lia |].
  cbn [spu_ids_of flat_map]. fold (spu_ids_of sections).
  rewrite length_app.
  destruct (sscanf_spu_regs (sec_name a)); cbn [List.length]; lia.
Qed.

Lemma store_unsigned_integer_4_length (big_endian : bool) (val : Z) :
  List.length (store_unsigned_integer_4 big_endian val) = 4%nat.
Proof. unfold store_unsigned_integer_4. destruct big_endian; reflexivity. Qed.

Lemma spu_image_length (big_endian : bool) (ids : list Z) :
  List.length (spu_image big_endian ids) = (4 * List.length ids)%nat.
Proof.
  unfold spu_image. induction ids as [| fd ids IH]; [reflexivity |].
  cbn [map List.concat]. rewrite length_app, store_unsigned_integer_4_length, IH.
  cbn [List.length]. lia.
Qed.

Section SpuWindow.

Variable big_endian : bool.
Variables offset len : Z.
Hypothesis Hoffset : 0 <= offset.
Hypothesis Hlen : 0 <= len.
Hypothesis Hwindow : offset + len < 2 ^ 64.

Local Abbreviation at_slot b k w :=
  {| buf := b; sl_offset := offset; sl_len := len;
     pos := 4 * Z.of_nat k; written := w |}.

(** Ids whose slot does not lie in the window only move the position. *)
Lemma emit_spuids_skipped (ids : list Z) :
  forall (b : list Z) (k : nat) (w : Z),
    4 * Z.of_nat (k + List.length ids) < 2 ^ 64 ->
    (forall j, (k <= j < k + List.length ids)%nat ->
               4 * Z.of_nat j < offset \/ offset + len < 4 * Z.of_nat j + 4) ->
    emit_spuids big_endian ids (at_slot b k w)
    = Some (at_slot b (k + List.length ids) w).
Proof.
  induction ids as [| fd ids IH]; intros b k w Hbound Hout.
  - cbn [emit_spuids List.length]. rewrite Nat.add_0_r. reflexivity.
  - cbn [emit_spuids List.length] in *.
    unfold emit_spuid. cbn [pos sl_offset sl_len buf written].
    rewrite !wrap_u64_small by lia.
    assert (Hskip : (offset <=? 4 * Z.of_nat k)
                    && (4 * Z.of_nat k + 4 <=? offset + len) = false).
    { destruct (Hout k ltac:(lia)) as [H | H].
      - apply andb_false_iff. left. apply Z.leb_gt. exact H.
      - apply andb_false_iff. right. apply Z.leb_gt. exact H. }
    rewrite Hskip.
    replace (4 * Z.of_nat k + 4) with (4 * Z.of_nat (S k)) by lia.
    rewrite IH.
    + replace (S k + List.length ids)%nat with (k + S (List.length ids))%nat by lia.
      reflexivity.
    + lia.
    + intros j Hj. apply Hout. lia.
Qed.

(** Ids whose slots lie in the window are stored one after the other. *)
Lemma emit_spuids_stored (ids : list Z) :
  forall (b : list Z) (k : nat) (w : Z),
    0 <= w -> w + 4 * Z.of_nat (List.length ids) < 2 ^ 64 ->
    len <= Z.of_nat (List.length b) ->
    ids = [] \/ (offset <= 4 * Z.of_nat k
                 /\ 4 * Z.of_nat (k + List.length ids) <= offset + len) ->
    let i := Z.to_nat (4 * Z.of_nat k - offset) in
    emit_spuids big_endian ids (at_slot b k w)
    = Some (at_slot (firstn i b ++ spu_image big_endian ids
                     ++ skipn (i + 4 * List.length ids) b)
                    (k + List.length ids)
                    (w + 4 * Z.of_nat (List.length ids))).
Proof.
  induction ids as [| fd ids IH]; intros b k w Hw Hwbound Hroom Hin; cbv zeta.
  - cbn [emit_spuids List.length spu_image map List.concat app].
    rewrite Nat.mul_0_r, !Nat.add_0_r, firstn_skipn.
    replace (w + 4 * Z.of_nat 0) with w by lia. reflexivity.
  - destruct Hin as [Hnil | [Hfrom Hupto]]; [discriminate |].
    cbn [emit_spuids List.length] in *.
    unfold emit_spuid. cbn [pos sl_offset sl_len buf written].
    rewrite !wrap_u64_small by lia.
    assert (Hok : (offset <=? 4 * Z.of_nat k)
                  && (4 * Z.of_nat k + 4 <=? offset + len) = true).
    { apply andb_true_iff. split; apply Z.leb_le; lia. }
    rewrite Hok.
    set (i := Z.to_nat (4 * Z.of_nat k - offset)).
    assert (Hstore : store_bytes b (4 * Z.of_nat k - offset)
                                 (store_unsigned_integer_4 big_endian fd)
                     = Some (firstn i b ++ store_unsigned_integer_4 big_endian fd
                             ++ skipn (i + 4) b)).
    { unfold store_bytes. rewrite store_unsigned_integer_4_length.
      replace ((0 <=? 4 * Z.of_nat k - offset)
               && (4 * Z.of_nat k - offset + Z.of_nat 4 <=? Z.of_nat (List.length b)))
        with true
        by (symmetry; apply andb_true_iff; split; apply Z.leb_le; lia).
      reflexivity. }
    rewrite Hstore.
    replace (4 * Z.of_nat k + 4) with (4 * Z.of_nat (S k)) by lia.
    set (b1 := firstn i b ++ store_unsigned_integer_4 big_endian fd ++ skipn (i + 4) b).
    assert (Hb1 : List.length b1 = List.length b).
    { unfold b1. rewrite !length_app, length_firstn, length_skipn,
        store_unsigned_integer_4_length. unfold i. lia. }
    rewrite IH.
    + replace (S k + List.length ids)%nat with (k + S (List.length ids))%nat by lia.
      replace (w + 4 + 4 * Z.of_nat (List.length ids))
        with (w + 4 * Z.of_nat (S (List.length ids))) by lia.
      f_equal. f_equal.
      replace (Z.to_nat (4 * Z.of_nat (S k) - offset)) with (i + 4)%nat
        by (unfold i; lia).
      unfold spu_image. cbn [map List.concat]. fold (spu_image big_endian ids).
      assert (Hi : (i + 4 <= List.length b)%nat) by (unfold i; lia).
      assert (Hfirst : firstn (i + 4) b1
                       = firstn i b ++ store_unsigned_integer_4 big_endian fd).
      { unfold b1. rewrite app_assoc.
        rewrite firstn_app.
        rewrite length_app, length_firstn, store_unsigned_integer_4_length.
        replace (i + 4 - (Nat.min i (List.length b) + 4))%nat with 0%nat by lia.
        rewrite firstn_O, app_nil_r.
        apply firstn_all2.
        rewrite length_app, length_firstn, store_unsigned_integer_4_length. lia. }
      assert (Hrest : skipn (i + 4 + 4 * List.length ids) b1
                      = skipn (i + 4 * S (List.length ids)) b).
      { unfold b1. rewrite app_assoc.
        rewrite skipn_app.
        rewrite length_app, length_firstn, store_unsigned_integer_4_length.
        rewrite (skipn_all2 (firstn i b ++ store_unsigned_integer_4 big_endian fd))
          by (rewrite length_app, length_firstn, store_unsigned_integer_4_length; lia).
        cbn [app]. rewrite skipn_skipn. f_equal. lia. }
      rewrite Hfirst, Hrest. rewrite <- !app_assoc. reflexivity.
    + lia.
    + lia.
    + lia.
    + destruct ids as [| fd' ids']; [left; reflexivity |].
      right. cbn [List.length] in *. split; lia.
Qed.

End SpuWindow.

Lemma emit_spuids_app (big_endian : bool) (l1 l2 : list Z) :
  forall list,
    emit_spuids big_endian (l1 ++ l2) list
    = match emit_spuids big_endian l1 list with
      | Some list' => emit_spuids big_endian l2 list'
      | None => None
      end.
Proof.
  induction l1 as [| fd l1 IH]; intros list; [reflexivity |].
  cbn [app emit_spuids].
  destruct (emit_spuid big_endian fd list); [apply IH | reflexivity].
Qed.

Lemma spu_slot_arith (offset len : Z) :
  0 <= offset ->
  0 <= spu_first_slot offset
  /\ 0 <= spu_gap offset <= 3
  /\ 4 * spu_first_slot offset = offset + spu_gap offset
  /\ 4 * spu_room offset len <= len - spu_gap offset < 4 * spu_room offset len + 4.
Proof.
  intros Hoffset. unfold spu_room, spu_gap, spu_first_slot.
  pose proof (Z.div_mod (offset + 3) 4 ltac:(lia)) as Hd.
  pose proof (Z.mod_pos_bound (offset + 3) 4 ltac:(lia)) as Hm.
  pose proof (Z.div_mod (len - (4 * ((offset + 3) / 4) - offset)) 4 ltac:(lia)) as Hd'.
  pose proof (Z.mod_pos_bound (len - (4 * ((offset + 3) / 4) - offset)) 4 ltac:(lia)) as Hm'.
  lia.
Qed.

(** An id is among those a request gets exactly when its slot of four
    bytes lies in the window. *)
Lemma spu_slot_in_window (offset len : Z) (j : nat) :
  0 <= offset ->
  (offset <= 4 * Z.of_nat j /\ 4 * Z.of_nat j + 4 <= offset + len)
  <-> (Z.to_nat (spu_first_slot offset) <= j
       < Z.to_nat (spu_first_slot offset) + Z.to_nat (spu_room offset len))%nat.
Proof.
  intros Hoffset.
  destruct (spu_slot_arith offset len Hoffset) as (Hk & Hg & Hkg & Hr).
  split; intros H; lia.
Qed.

(** The walk over all ids for a window: the ids of whole slots are
    stored behind the gap, everything else in the buffer stays. *)
Lemma emit_spuids_window (big_endian : bool) (offset len : Z)
      (ids : list Z) (b : list Z) :
  0 <= offset -> 0 <= len -> offset + len < 2 ^ 64 ->
  len <= Z.of_nat (List.length b) ->
  4 * Z.of_nat (List.length ids) < 2 ^ 64 ->
  let chunk := spu_chunk ids offset len in
  let gap := Z.to_nat (spu_gap offset) in
  emit_spuids big_endian ids
    {| buf := b; sl_offset := offset; sl_len := len; pos := 0; written := 0 |}
  = Some {| buf := firstn gap b ++ spu_image big_endian chunk
                   ++ skipn (gap + 4 * List.length chunk) b;
            sl_offset := offset; sl_len := len;
            pos := 4 * Z.of_nat (List.length ids);
            written := 4 * Z.of_nat (List.length chunk) |}.
Proof.
  intros Hoffset Hlen Hwindow Hroom Hmany. cbv zeta.
  destruct (spu_slot_arith offset len Hoffset) as (Hk & Hg & Hkg & Hr).
  set (k0 := Z.to_nat (spu_first_slot offset)).
  set (m := Z.to_nat (spu_room offset len)).
  set (before := firstn k0 ids).
  set (chunk := spu_chunk ids offset len).
  set (after := skipn m (skipn k0 ids)).
  assert (Hsplit : ids = before ++ chunk ++ after).
  { unfold before, chunk, after, spu_chunk. fold k0 m.
    rewrite (firstn_skipn m (skipn k0 ids)). symmetry. apply firstn_skipn. }
  assert (Hlb : (List.length before <= k0)%nat)
    by (unfold before; rewrite length_firstn; lia).
  assert (Hlc : (List.length chunk <= m)%nat)
    by (unfold chunk, spu_chunk; fold k0 m; rewrite length_firstn; lia).
  assert (Hlall : List.length ids
                  = (List.length before + List.length chunk + List.length after)%nat).
  { rewrite Hsplit at 1. rewrite !length_app. lia. }
  assert (Hfull_before : chunk <> [] \/ after <> [] -> List.length before = k0).
  { intros Hne. unfold before. rewrite length_firstn.
    assert (List.length (skipn k0 ids) <> 0%nat).
    { destruct Hne as [Hne | Hne]; intros Hz; apply Hne;
        apply length_zero_iff_nil in Hz.
      - unfold chunk, spu_chunk. fold k0 m. rewrite Hz. apply firstn_nil.
      - unfold after. rewrite Hz. apply skipn_nil. }
    rewrite length_skipn in H. lia. }
  assert (Hfull_chunk : after <> [] -> List.length chunk = m).
  { intros Hne. unfold chunk, spu_chunk. fold k0 m. rewrite length_firstn.
    assert (List.length after <> 0%nat)
      by (intros Hz; apply Hne; apply length_zero_iff_nil; exact Hz).
    unfold after in H. rewrite length_skipn in H. lia. }
  assert (H1 : emit_spuids big_endian before
                 {| buf := b; sl_offset := offset; sl_len := len; pos := 0; written := 0 |}
               = Some {| buf := b; sl_offset := offset; sl_len := len;
                         pos := 4 * Z.of_nat (List.length before); written := 0 |}).
  { apply (emit_spuids_skipped big_endian offset len Hoffset Hlen Hwindow before b 0 0).
    - lia.
    - intros j Hj. left. unfold k0 in Hlb. lia. }
  set (i := Z.to_nat (4 * Z.of_nat (List.length before) - offset)).
  set (b2 := firstn i b ++ spu_image big_endian chunk ++ skipn (i + 4 * List.length chunk) b).
  assert (H2 : emit_spuids big_endian chunk
                 {| buf := b; sl_offset := offset; sl_len := len;
                    pos := 4 * Z.of_nat (List.length before); written := 0 |}
               = Some {| buf := b2; sl_offset := offset; sl_len := len;
                         pos := 4 * Z.of_nat (List.length before + List.length chunk);
                         written := 0 + 4 * Z.of_nat (List.length chunk) |}).
  { apply emit_spuids_stored; try assumption; try lia.
    destruct chunk as [| fd chunk'] eqn:Hchunk; [left; reflexivity |].
      right. rewrite <- Hchunk in *.
      assert (Hb : List.length before = k0)
        by (apply Hfull_before; left; rewrite Hchunk; discriminate).
      assert (0 < m)%nat by (rewrite Hchunk in Hlc; cbn in Hlc; lia).
      unfold k0, m in *. split; lia. }
  assert (H3 : emit_spuids big_endian after
                 {| buf := b2; sl_offset := offset; sl_len := len;
                    pos := 4 * Z.of_nat (List.length before + List.length chunk);
                    written := 0 + 4 * Z.of_nat (List.length chunk) |}
               = Some {| buf := b2; sl_offset := offset; sl_len := len;
                         pos := 4 * Z.of_nat (List.length before + List.length chunk
                                              + List.length after);
                         written := 0 + 4 * Z.of_nat (List.length chunk) |}).
  { apply (emit_spuids_skipped big_endian offset len Hoffset Hlen Hwindow after b2
             (List.length before + List.length chunk)
             (0 + 4 * Z.of_nat (List.length chunk))).
    - lia.
    - intros j Hj. right.
      assert (Hne : after <> []) by (destruct after; [cbn in Hj; lia | discriminate]).
      assert (Hb : List.length before = k0) by (apply Hfull_before; right; exact Hne).
      assert (Hc : List.length chunk = m) by (apply Hfull_chunk; exact Hne).
      unfold k0, m in *. lia. }
  rewrite Hsplit at 1.
  rewrite emit_spuids_app, H1, emit_spuids_app, H2, H3.
  f_equal.
  replace (List.length before + List.length chunk + List.length after)%nat
    with (List.length ids) by lia.
  replace (0 + 4 * Z.of_nat (List.length chunk)) with (4 * Z.of_nat (List.length chunk))
    by lia.
  f_equal. unfold b2, i.
  destruct chunk as [| fd chunk'] eqn:Hchunk.
  - cbn [spu_image map List.concat List.length app].
    rewrite !Nat.mul_0_r, !Nat.add_0_r, !firstn_skipn. reflexivity.
  - rewrite <- Hchunk in *.
    assert (Hb : List.length before = k0)
      by (apply Hfull_before; left; rewrite Hchunk; discriminate).
    replace (Z.to_nat (4 * Z.of_nat (List.length before) - offset))
      with (Z.to_nat (spu_gap offset)) by (unfold k0 in Hb; lia).
    reflexivity.
Qed.

(** C8 (amended) — A read of object Spu with a null annex lists the ids
    that [sscanf] reads from the section names beginning
    [SPU/<id>/regs], in the order of the sections in the container, not
    sorted.  The ids occupy consecutive slots of four bytes of a list;
    the ids whose whole slot lies in [offset, offset + len) are stored,
    each as four bytes in the byte order of the container, at the
    position of their slot less [offset] in the buffer, and the length
    reported is four times their number.  For an offset that is a
    multiple of four the buffer so starts with these ids one after the
    other; for any other offset the bytes of the buffer before the first
    whole slot are left as they were and the ids follow them, the length
    reported still counting the bytes of the ids only.  Without an id
    stored the result is end of file. *)
Theorem core_xfer_partial_spu_ids
        (beneath : beneath_xfer) (readbuf : list Z) (writebuf : option (list Z))
        (offset len : Z) (s : gdb_state) (cbfd : bfd) :
  core_bfd s = Some cbfd ->
  0 <= offset -> 0 <= len < 2 ^ 63 -> offset + len < 2 ^ 64 ->
  len <= Z.of_nat (List.length readbuf) ->
  4 * Z.of_nat (List.length (bfd_sections cbfd)) < 2 ^ 64 ->
  let chunk := spu_chunk (spu_ids cbfd) offset len in
  let gap := Z.to_nat (spu_gap offset) in
  core_xfer_partial beneath TARGET_OBJECT_SPU None (Some readbuf) writebuf offset len s
  = (Ok match chunk with
        | [] => xfer_done TARGET_XFER_EOF (Some readbuf)
        | _ :: _ =>
            xfer_ok (4 * Z.of_nat (List.length chunk))
                    (firstn gap readbuf ++ spu_image (bfd_big_endian cbfd) chunk
                     ++ skipn (gap + 4 * List.length chunk) readbuf)
        end, s).
Proof.
  intros Hbfd Hoffset Hlen Hwindow Hroom Hmany. cbv zeta.
  unfold core_xfer_partial, core_xfer_spu, with_core_bfd, bind, gets. cbn.
  rewrite Hbfd.
  rewrite map_spuid_list_emit, wrap_s64_small by lia.
  fold (spu_ids cbfd).
  pose proof (spu_ids_of_length (bfd_sections cbfd)) as Hids. fold (spu_ids cbfd) in Hids.
  rewrite emit_spuids_window by lia.
  cbn [written buf].
  destruct (spu_chunk (spu_ids cbfd) offset len) as [| fd chunk] eqn:Hchunk.
  - cbn [List.length spu_image map List.concat app Z.of_nat Z.mul Z.eqb].
    rewrite Nat.mul_0_r, Nat.add_0_r, firstn_skipn. reflexivity.
  - replace (4 * Z.of_nat (List.length (fd :: chunk)) =? 0) with false
      by (symmetry; apply Z.eqb_neq; cbn [List.length]; lia).
    reflexivity.
Qed.

(** Requests at multiples of four get the ids from that slot on. *)
Lemma spu_chunk_aligned (ids : list Z) (slot count : Z) :
  0 <= slot -> 0 <= count ->
  spu_gap (4 * slot) = 0
  /\ spu_chunk ids (4 * slot) (4 * count)
     = firstn (Z.to_nat count) (skipn (Z.to_nat slot) ids).
Proof.
  intros Hslot Hcount.
  assert (Hfirst : spu_first_slot (4 * slot) = slot).
  { unfold spu_first_slot. symmetry. apply (Z.div_unique (4 * slot + 3) 4 slot 3); lia. }
  assert (Hgap : spu_gap (4 * slot) = 0) by (unfold spu_gap; rewrite Hfirst; lia).
  split; [exact Hgap |].
  unfold spu_chunk, spu_room. rewrite Hgap, Hfirst, Z.sub_0_r.
  rewrite Z.mul_comm, Z.div_mul by lia. reflexivity.
Qed.

(** The ids come in the order of the sections, not in ascending order. *)
Lemma spu_ids_in_section_order :
  spu_ids spu_core = [7; 3]
  /\ core_xfer_partial (fun _ _ _ _ _ _ => xfer_done TARGET_XFER_EOF None)
       TARGET_OBJECT_SPU None (Some (repeat 0 8)) None 0 8 (session_on spu_core None)
     = (Ok (xfer_ok 8 [0; 0; 0; 7; 0; 0; 0; 3]), session_on spu_core None)
  /\ [0; 0; 0; 7; 0; 0; 0; 3] <> spu_image true [3; 7].
Proof.
  split; [reflexivity |]. split; [reflexivity |].
  cbv. discriminate.
Qed.

Lemma core_xfer_partial_spu_ids_witness :
  core_xfer_partial (fun _ _ _ _ _ _ => xfer_done TARGET_XFER_EOF None)
    TARGET_OBJECT_SPU None (Some (repeat 0 8)) None 4 4 (session_on spu_core None)
  = (Ok (xfer_ok 4 ([0; 0; 0; 3] ++ repeat 0 4)), session_on spu_core None).
Proof.
  exact (core_xfer_partial_spu_ids
           (fun _ _ _ _ _ _ => xfer_done TARGET_XFER_EOF None)
           (repeat 0 8) None 4 4 (session_on spu_core None) spu_core
           eq_refl ltac:(lia) ltac:(lia) ltac:(reflexivity) ltac:(cbn; lia)
           ltac:(reflexivity)).
Defined.

(** At an offset that is not a multiple of four the id does not start
    the buffer: of the ids 7 and 3, a read of seven bytes at offset 2
    stores 3 after two bytes of the buffer and reports four bytes. *)
Lemma spu_ids_at_odd_offset :
  core_xfer_partial (fun _ _ _ _ _ _ => xfer_done TARGET_XFER_EOF None)
    TARGET_OBJECT_SPU None (Some (repeat 9 7)) None 2 7 (session_on spu_core None)
  = (Ok (xfer_ok 4 [9; 9; 0; 0; 0; 3; 9]), session_on spu_core None).
Proof. reflexivity. Qed.

Lemma wrap_u64_mod_4 (z : Z) : wrap_u64 z mod 4 = z mod 4.
Proof.
  unfold wrap_u64. apply Z.mod_mod_divide.
  exists (2 ^ 62). reflexivity.
Qed.

(** Whatever the window, an id moves the position by four and adds four
    bytes to the count or none. *)
Lemma emit_spuids_counts (big_endian : bool) (ids : list Z) :
  forall list list' p,
    emit_spuids big_endian ids list = Some list' ->
    pos list = wrap_u64 p ->
    written list' mod 4 = written list mod 4
    /\ pos list' = wrap_u64 (p + 4 * Z.of_nat (List.length ids)).
Proof.
  induction ids as [| fd ids IH]; intros list list' p Hrun Hpos.
  - cbn in Hrun. injection Hrun as <-. cbn [List.length Z.of_nat].
    rewrite Z.mul_0_r, Z.add_0_r. split; [reflexivity | exact Hpos].
  - cbn [emit_spuids] in Hrun.
    destruct (emit_spuid big_endian fd list) as [list1 |] eqn:Hstep; [| discriminate].
    assert (Hone : written list1 mod 4 = written list mod 4
                   /\ pos list1 = wrap_u64 (p + 4)).
    { unfold emit_spuid in Hstep.
      assert (Hnext : wrap_u64 (pos list + 4) = wrap_u64 (p + 4)).
      { rewrite Hpos. unfold wrap_u64. apply Z.add_mod_idemp_l. lia. }
      destruct ((sl_offset list <=? pos list)
                && (wrap_u64 (pos list + 4) <=? wrap_u64 (sl_offset list + sl_len list))).
      - destruct (store_bytes (buf list) (pos list - sl_offset list)
                              (store_unsigned_integer_4 big_endian fd));
          [| discriminate].
        injection Hstep as <-. cbn [written pos]. split; [| exact Hnext].
        rewrite wrap_u64_mod_4.
        replace (written list + 4) with (written list + 1 * 4) by lia.
        apply Z.mod_add. lia.
      - injection Hstep as <-. cbn [written pos]. split; [reflexivity | exact Hnext]. }
    destruct Hone as [Hw1 Hp1].
    destruct (IH list1 list' (p + 4) Hrun Hp1) as [Hw Hp].
    split; [congruence |].
    rewrite Hp. f_equal. cbn [List.length]. lia.
Qed.

(** C10 — In the walk that lists the SPU ids every id is stored whole or
    not at all.  Whatever the request, the position has moved by four
    for every matching section and the count of bytes written is a
    multiple of four.  For a window that does not wrap, the buffer
    afterwards is the buffer before with the ids of the whole slots
    stored in one run, an id being among them exactly when its slot lies
    in the window. *)
Theorem spuid_list_all_or_nothing
        (abfd : bfd) (b : list Z) (offset len : Z) :
  let ids := spu_ids abfd in
  let chunk := spu_chunk ids offset len in
  let gap := Z.to_nat (spu_gap offset) in
  let start :=
    {| buf := b; sl_offset := offset; sl_len := wrap_s64 len; pos := 0; written := 0 |} in
  (forall list',
      map_spuid_list abfd (bfd_sections abfd) start = Some list' ->
      written list' mod 4 = 0
      /\ pos list' = wrap_u64 (4 * Z.of_nat (List.length ids)))
  /\ (0 <= offset -> 0 <= len < 2 ^ 63 -> offset + len < 2 ^ 64 ->
      len <= Z.of_nat (List.length b) ->
      4 * Z.of_nat (List.length (bfd_sections abfd)) < 2 ^ 64 ->
      map_spuid_list abfd (bfd_sections abfd) start
      = Some {| buf := firstn gap b ++ spu_image (bfd_big_endian abfd) chunk
                       ++ skipn (gap + 4 * List.length chunk) b;
                sl_offset := offset; sl_len := wrap_s64 len;
                pos := 4 * Z.of_nat (List.length ids);
                written := 4 * Z.of_nat (List.length chunk) |}
      /\ (forall j,
             (j < List.length ids)%nat ->
             (offset <= 4 * Z.of_nat j /\ 4 * Z.of_nat j + 4 <= offset + len)
             <-> exists t, (t < List.length chunk)%nat
                           /\ j = (Z.to_nat (spu_first_slot offset) + t)%nat
                           /\ nth_error chunk t = nth_error ids j)).
Proof.
  cbv zeta. split.
  - intros list' Hrun. rewrite map_spuid_list_emit in Hrun.
    destruct (emit_spuids_counts _ _ _ _ 0 Hrun eq_refl) as [Hw Hp].
    split; [exact Hw | exact Hp].
  - intros Hoffset Hlen Hwindow Hroom Hmany.
    pose proof (spu_ids_of_length (bfd_sections abfd)) as Hids.
    fold (spu_ids abfd) in Hids.
    split.
    + rewrite map_spuid_list_emit, wrap_s64_small by lia.
      fold (spu_ids abfd). apply emit_spuids_window; lia.
    + intros j Hj.
      rewrite (spu_slot_in_window offset len j Hoffset).
      unfold spu_chunk.
      set (k0 := Z.to_nat (spu_first_slot offset)).
      set (m := Z.to_nat (spu_room offset len)).
      assert (Hlc : List.length (firstn m (skipn k0 (spu_ids abfd)))
                    = Nat.min m (List.length (spu_ids abfd) - k0))
        by (rewrite length_firstn, length_skipn; reflexivity).
      split.
      * intros [Hfrom Hupto]. exists (j - k0)%nat.
        split; [rewrite Hlc; lia |]. split; [lia |].
        rewrite nth_error_firstn.
        replace (j - k0 <? m)%nat with true by (symmetry; apply Nat.ltb_lt; lia).
        rewrite nth_error_skipn. f_equal. lia.
      * intros (t & Ht & -> & _). rewrite Hlc in Ht. lia.
Qed.

Lemma spuid_list_all_or_nothing_witness :
  map_spuid_list spu_core (bfd_sections spu_core)
    {| buf := repeat 0 7; sl_offset := 2; sl_len := 7; pos := 0; written := 0 |}
  = Some {| buf := [0; 0; 0; 0; 0; 3; 0]; sl_offset := 2; sl_len := 7;
            pos := 8; written := 4 |}.
Proof.
  exact (proj1 (proj2 (spuid_list_all_or_nothing spu_core (repeat 0 7) 2 7)
                  ltac:(lia) ltac:(lia) ltac:(reflexivity) ltac:(cbn; lia)
                  ltac:(reflexivity))).
Defined.

(* ------------------------------------------------------------------ *)
(** ** The theorems at work *)

Lemma sniff_core_bfd_spec_witness :
  sniff_core_bfd [flavour_handler "b" 5; flavour_handler "a" 5] legacy_core
                 (Some legacy_arch) initial_state
  = (Ok (Some (flavour_handler "a" 5)),
     set_messages [warn_ambiguous_core_format "/tmp/core" 2] initial_state).
Proof.
  exact (proj2 (proj2 (proj2
           (sniff_core_bfd_spec [flavour_handler "b" 5; flavour_handler "a" 5]
                                legacy_core (Some legacy_arch) initial_state
                                ltac:(reflexivity))))
           eq_refl (flavour_handler "b" 5) ltac:(cbn; lia)).
Defined.

Lemma core_open_failure_leaves_no_session_witness :
  (core_open [] (open_request_for legacy_core) initial_state
   = (Throw (err_no_core_file_handler "/tmp/core"),
      set_messages [err_no_core_file_handler "/tmp/core"] initial_state))
  /\ (let s := session_on pidless_core None in
      let s' := snd (core_open [] (open_request_without_sections two_thread_core) s) in
      fst (core_open [] (open_request_without_sections two_thread_core) s)
      = Throw (err_cant_find_sections "/tmp/core")
      /\ nothing_new s s'
      /\ has_core_target (target_stack s') = false
      /\ allocated s' = [] /\ bfd_refs s' = [] /\ thread_list s' = []).
Proof.
  split.
  - pose proof (proj2 (proj2 (proj2
        (core_open_failure_leaves_no_session
           [] (open_request_for legacy_core) initial_state
           (set_messages [err_no_core_file_handler "/tmp/core"] initial_state)
           (err_no_core_file_handler "/tmp/core") eq_refl eq_refl)))
        eq_refl eq_refl eq_refl eq_refl eq_refl) as Hsame.
    reflexivity.
  - cbv zeta. split; [reflexivity |]. split; [| repeat split; reflexivity].
    exact (proj1 (core_open_failure_leaves_no_session
                    [] (open_request_without_sections two_thread_core)
                    (session_on pidless_core None)
                    (snd (core_open [] (open_request_without_sections two_thread_core)
                                    (session_on pidless_core None)))
                    (err_cant_find_sections "/tmp/core") eq_refl eq_refl)).
Defined.

Lemma core_open_current_thread_witness :
  inferior_ptid (snd (core_open [] (open_request_for two_thread_core) initial_state))
  = ptid_build CORELOW_PID 18 0
  /\ In (ptid_build CORELOW_PID 18 0)
        (thread_list (snd (core_open [] (open_request_for two_thread_core)
                                     initial_state))).
Proof.
  apply (core_open_current_thread
           [] (open_request_for two_thread_core) initial_state
           (snd (core_open [] (open_request_for two_thread_core) initial_state))
           two_thread_core (note_section ".reg" 100 4)
           [note_section ".reg/17" 80 4] [note_section ".reg" 100 4]
           (note_section ".reg/18" 100 4)).
  - reflexivity.
  - reflexivity.
  - reflexivity.
  - reflexivity.
  - reflexivity.
  - reflexivity.
  - intros a' [<- | []] Hthr. discriminate Hthr.
Defined.

Lemma core_xfer_partial_siginfo_witness :
  core_xfer_partial (fun _ _ _ _ _ _ => xfer_done TARGET_XFER_EOF None)
    TARGET_OBJECT_SIGNAL_INFO None (Some (repeat 0 4)) None 2 4
    (session_on siginfo_core None)
  = (Ok (xfer_ok 4 [13; 14; 15; 16]), session_on siginfo_core None).
Proof.
  apply (proj2 (proj2 (core_xfer_partial_siginfo
                         (fun _ _ _ _ _ _ => xfer_done TARGET_XFER_EOF None)
                         None (repeat 0 4) None 2 4 (session_on siginfo_core None)
                         siginfo_core eq_refl ltac:(cbn; lia)))
               {| sec_name := ".note.linuxcore.siginfo"; sec_vma := 0; sec_size := 8;
                  filepos := 200; sec_flags := 0;
                  sec_contents := Some [11; 12; 13; 14; 15; 16; 17; 18] |}
               [11; 12; 13; 14; 15; 16; 17; 18]).
  - reflexivity.
  - reflexivity.
  - lia.
  - lia.
  - cbn. lia.
Defined.

(* ================================================================== *)
(** * Further properties of the code

    Beyond the statements of the specification: the order of the
    registry, the failures of [core_open] at its start, the session a
    successful open leaves and how [core_detach] undoes it, the names of
    threads, the register reader and the remaining cases of the
    router. *)

(* ------------------------------------------------------------------ *)
(** ** Registration order *)

Lemma registered_rev (l : list core_fns) : registered l = rev l.
Proof.
  unfold registered, deprecated_add_core_fns.
  rewrite <- (app_nil_r (rev l)). generalize (@nil core_fns).
  induction l as [| cf l IH]; intros acc; [reflexivity |].
  cbn [fold_left rev]. rewrite IH, <- app_assoc. reflexivity.
Qed.

Lemma accepting_app (l1 l2 : list core_fns) (abfd : bfd) :
  accepting (l1 ++ l2) abfd = accepting l1 abfd ++ accepting l2 abfd.
Proof. unfold accepting. apply filter_app. Qed.

Lemma accepting_rev (l : list core_fns) (abfd : bfd) :
  accepting (rev l) abfd = rev (accepting l abfd).
Proof.
  induction l as [| cf l IH]; [reflexivity |].
  cbn [rev]. rewrite accepting_app, IH.
  unfold accepting at 2 3. cbn [filter].
  destruct (core_sniffer cf (core_flavour cf) abfd); cbn [rev].
  - reflexivity.
  - rewrite app_nil_r. reflexivity.
Qed.

Lemma find_sniffs_accepting (l : list core_fns) (abfd : bfd) :
  find (sniffs abfd) l = hd_error (accepting l abfd).
Proof.
  induction l as [| cf l IH]; [reflexivity |].
  unfold accepting, sniffs in *. cbn [find filter].
  destruct (core_sniffer cf (core_flavour cf) abfd); [reflexivity | exact IH].
Qed.

(** X1 — The handlers register by being put in front of the registry,
    and the walk of [sniff_core_bfd] keeps the last handler that
    accepts: so of several handlers that accept a container the one that
    registered first is chosen, and without one that accepts the
    no-handler error is thrown. *)
Theorem sniff_core_bfd_first_registered
        (l : list core_fns) (abfd : bfd) (arch : option gdbarch) (s : gdb_state) :
  Z.of_nat (List.length l) < 2 ^ 31 ->
  gdbarch_has_regset_iterator arch = false ->
  fst (sniff_core_bfd (registered l) abfd arch s)
  = match find (sniffs abfd) l with
    | Some cf => Ok (Some cf)
    | None => Throw (err_no_core_file_handler (bfd_get_filename abfd))
    end.
Proof.
  intros Hsmall Hit.
  unfold sniff_core_bfd. rewrite Hit.
  rewrite sniff_loop_spec
    by (rewrite ?registered_rev, ?length_rev; lia).
  rewrite registered_rev, accepting_rev, find_sniffs_accepting.
  rewrite length_rev, Z.add_0_l.
  destruct (accepting l abfd) as [| cf acc] eqn:Hacc.
  - reflexivity.
  - cbn [hd_error rev]. rewrite map_app. cbn [map]. rewrite last_last.
    cbn [List.length].
    destruct (1 <? Z.of_nat (S (List.length acc))) eqn:Hmany; [reflexivity |].
    destruct (Z.of_nat (S (List.length acc)) =? 0) eqn:Hzero; [| reflexivity].
    apply Z.eqb_eq in Hzero. lia.
Qed.

Lemma sniff_core_bfd_first_registered_witness :
  fst (sniff_core_bfd
         (registered [flavour_handler "first" 5; flavour_handler "other" 6;
                      flavour_handler "second" 5])
         legacy_core (Some legacy_arch) initial_state)
  = Ok (Some (flavour_handler "first" 5)).
Proof.
  apply (sniff_core_bfd_first_registered
           [flavour_handler "first" 5; flavour_handler "other" 6;
            flavour_handler "second" 5]
           legacy_core (Some legacy_arch) initial_state).
  - vm_compute. reflexivity.
  - reflexivity.
Defined.
(* ------------------------------------------------------------------ *)
(** ** Failures before the old session is touched *)

Lemma gdb_check_format_existsb (core_file_fns : list core_fns) (abfd : bfd) :
  gdb_check_format core_file_fns abfd
  = existsb (fun cf => check_format cf abfd) core_file_fns.
Proof.
  induction core_file_fns as [| cf next IH]; [reflexivity |].
  cbn [gdb_check_format existsb]. rewrite IH.
  destruct (check_format cf abfd); reflexivity.
Qed.

Lemma gdb_check_format_rejects (core_file_fns : list core_fns) (abfd : bfd) :
  (forall cf, In cf core_file_fns -> check_format cf abfd = false) ->
  gdb_check_format core_file_fns abfd = false.
Proof.
  intros Hall. rewrite gdb_check_format_existsb.
  apply not_true_iff_false. intros Hex.
  apply existsb_exists in Hex. destruct Hex as (cf & Hin & Hcf).
  rewrite (Hall cf Hin) in Hcf. discriminate.
Qed.

Lemma preopened_initial_state : preopened initial_state.
Proof.
  unfold preopened. repeat split.
  intros t [<- | []]. cbn. unfold file_stratum. lia.
Qed.

(** X2 — Started from a state as [target_preopen] leaves it, a file that
    the container parser does not take for a core and that no registered
    handler's [check_format] accepts is refused: [core_open] throws the
    not-a-core-dump error under the absolute file name, and the
    reference to the container and the file name buffer are given back,
    so that the state is the one [target_preopen] left with the error
    said.  Handlers that keep [default_check_format] never rescue a
    file. *)
Theorem core_open_not_a_core_dump
        (core_file_fns : list core_fns) (rq : open_request) (s : gdb_state)
        (a : string) (b : bfd) :
  preopened s ->
  arg rq = Some a ->
  gdb_open_cloexec_ok rq = true ->
  gdb_bfd_fopen rq = Some b ->
  bfd_check_format_core b = false ->
  (forall cf, In cf core_file_fns ->
              check_format cf b = false \/ check_format cf = default_check_format) ->
  core_open core_file_fns rq s
  = (Throw (err_not_a_core_dump (core_filename rq a)),
     said (err_not_a_core_dump (core_filename rq a)) s).
Proof.
  intros _ Harg Hopen Hfopen Hfmt Hall.
  assert (Hchk : gdb_check_format core_file_fns b = false).
  { apply gdb_check_format_rejects. intros cf Hin.
    destruct (Hall cf Hin) as [H | H]; [exact H | rewrite H; reflexivity]. }
  unfold core_open, core_open_body. rewrite Harg.
  rewrite bind_exec.
  unfold bind at 1. unfold make_cleanup at 1. cbv beta iota zeta.
  rewrite Hopen, Hfopen.
  destruct s.
  cbn -[do_cleanups core_open_install core_open_pushed].
  rewrite Hfmt, Hchk.
  cbn -[do_cleanups].
  rewrite (do_cleanups_two _ (cleanup_bfd_unref (bfd_get_filename b))
             cleanup_xfree_filename cleanup_chain0) by reflexivity.
  cbn. rewrite String.eqb_refl. reflexivity.
Qed.

Lemma core_open_not_a_core_dump_witness :
  core_open [flavour_handler "elf" 5] (open_request_relative "notes.txt" text_file)
            initial_state
  = (Throw (err_not_a_core_dump "/home/user/notes.txt"),
     said (err_not_a_core_dump "/home/user/notes.txt") initial_state).
Proof.
  apply (core_open_not_a_core_dump [flavour_handler "elf" 5]
           (open_request_relative "notes.txt" text_file)
           initial_state "notes.txt" text_file preopened_initial_state);
    try reflexivity.
  intros cf [<- | []]. right. reflexivity.
Defined.

(** X3 — Started from a state as [target_preopen] leaves it, [core_open]
    without an argument throws at once that no core file is specified,
    in the plain words: no core is open by then, so the hint at [detach]
    is not given.  With a file that cannot be opened it throws the
    system error under the absolute file name.  In both cases the state
    is the one [target_preopen] left with the error said. *)
Theorem core_open_no_file
        (core_file_fns : list core_fns) (rq : open_request) (s : gdb_state) :
  preopened s ->
  (arg rq = None ->
   core_open core_file_fns rq s
   = (Throw (err_no_core_file_specified false),
      said (err_no_core_file_specified false) s))
  /\ (forall a,
         arg rq = Some a ->
         gdb_open_cloexec_ok rq = false \/ gdb_bfd_fopen rq = None ->
         core_open core_file_fns rq s
         = (Throw (err_perror (core_filename rq a)),
            said (err_perror (core_filename rq a)) s)).
Proof.
  intros (_ & Hclosed & _). split.
  - intros Harg. unfold core_open, core_open_body. rewrite Harg.
    destruct s. cbn in Hclosed. subst. cbn -[do_cleanups].
    rewrite (do_cleanups_none _ cleanup_chain0) by reflexivity.
    reflexivity.
  - intros a Harg Hfail. unfold core_open, core_open_body. rewrite Harg.
    rewrite bind_exec.
    unfold bind at 1. unfold make_cleanup at 1. cbv beta iota zeta.
    destruct s.
    destruct (gdb_open_cloexec_ok rq) eqn:Hopen.
    + destruct Hfail as [Hfail | Hfail]; [discriminate |]. rewrite Hfail.
      cbn -[do_cleanups].
      rewrite (do_cleanups_one _ cleanup_xfree_filename cleanup_chain0) by reflexivity.
      reflexivity.
    + cbn -[do_cleanups].
      rewrite (do_cleanups_one _ cleanup_xfree_filename cleanup_chain0) by reflexivity.
      reflexivity.
Qed.

Lemma core_open_no_file_witness :
  core_open [] (open_request_unreadable "core.1") initial_state
  = (Throw (err_perror "/home/user/core.1"),
     said (err_perror "/home/user/core.1") initial_state).
Proof.
  apply (proj2 (core_open_no_file [] (open_request_unreadable "core.1")
                                  initial_state preopened_initial_state) "core.1").
  - reflexivity.
  - left. reflexivity.
Defined.
(* ------------------------------------------------------------------ *)
(** ** The session a successful open leaves *)

Lemma sniff_core_bfd_value (core_file_fns : list core_fns) (abfd : bfd)
      (arch : option gdbarch) (s1 s2 : gdb_state) :
  fst (sniff_core_bfd core_file_fns abfd arch s1)
  = fst (sniff_core_bfd core_file_fns abfd arch s2).
Proof.
  unfold sniff_core_bfd.
  destruct (gdbarch_has_regset_iterator arch); [reflexivity |].
  destruct (sniff_loop core_file_fns abfd None 0) as [yummy matches].
  destruct (1 <? matches); [reflexivity |].
  destruct (matches =? 0); reflexivity.
Qed.

(** What [sniff_core_bfd] says, when it returns: nothing, or that the
    format is ambiguous. *)
Lemma sniff_core_bfd_says (core_file_fns : list core_fns) (abfd : bfd)
      (arch : option gdbarch) (s s1 : gdb_state) (v : option core_fns) :
  sniff_core_bfd core_file_fns abfd arch s = (Ok v, s1) ->
  exists ms,
    s1 = set_messages (messages s ++ ms) s
    /\ (ms = []
        \/ exists n, ms = [warn_ambiguous_core_format (bfd_get_filename abfd) n]).
Proof.
  unfold sniff_core_bfd.
  destruct (gdbarch_has_regset_iterator arch).
  - intros H. injection H as _ <-. exists []. split; [| left; reflexivity].
    rewrite app_nil_r. destruct s; reflexivity.
  - destruct (sniff_loop core_file_fns abfd None 0) as [yummy matches].
    destruct (1 <? matches).
    + intros H. cbn in H. injection H as _ <-.
      eexists [_]. split; [reflexivity | right; eexists; reflexivity].
    + destruct (matches =? 0); intros H; cbn in H; [discriminate H |].
      injection H as _ <-. exists []. split; [| left; reflexivity].
      rewrite app_nil_r. destruct s; reflexivity.
Qed.

(** The target [core_open_install] completes: the architecture and the
    section table of the container, and the handler the sniffers
    choose. *)
Lemma core_open_install_ok (core_file_fns : list core_fns) (rq : open_request)
      (temp_bfd : bfd) (s x : gdb_state) (old_chain : nat) :
  core_open_install core_file_fns rq temp_bfd s = (Ok old_chain, x) ->
  let u := unpush_target_core_ops s in
  exists cops ms,
    x = adopt_core_gdbarch temp_bfd (installing temp_bfd cops ms u)
    /\ old_chain = List.length (cleanup_chain u)
    /\ core_gdbarch cops = gdbarch_from_bfd temp_bfd
    /\ core_data cops = Some (section_table_of temp_bfd)
    /\ fst (sniff_core_bfd core_file_fns temp_bfd (gdbarch_from_bfd temp_bfd) s)
       = Ok (core_vec cops)
    /\ (ms = []
        \/ exists n, ms = [warn_ambiguous_core_format (bfd_get_filename temp_bfd) n]).
Proof.
  cbv zeta. intros Hr.
  unfold core_open_install in Hr. rewrite bind_exec in Hr.
  revert Hr. generalize (unpush_target_core_ops s). intros u Hr.
  destruct u.
  rewrite !bind_exec in Hr.
  unfold bind at 1 in Hr. unfold make_cleanup at 1 in Hr. cbv beta iota in Hr.
  rewrite !bind_exec in Hr.
  unfold bind at 1 in Hr.
  match type of Hr with
  | context [sniff_core_bfd ?f ?b ?g ?S] =>
      pose proof (sniff_core_bfd_value f b g S s) as Hv;
      destruct (sniff_core_bfd_cases f b g S) as [(v & ms & Hs) | Hs];
        [ destruct (sniff_core_bfd_says f b g S _ v Hs) as (ms1 & Hs1 & Hsay);
          assert (Hms : ms = ms1)
            by (apply (app_inv_head (messages S));
                apply (f_equal messages) in Hs1; cbn in Hs1; exact Hs1);
          subst ms1; clear Hs1
        | ];
        rewrite Hs in Hr, Hv; clear Hs
  end.
  - rewrite !bind_exec in Hr. unfold build_section_table in Hr.
    unfold bind, exec, ret in Hr. cbn in Hr.
    destruct (build_section_table_status rq =? 0); cbn in Hr;
      [| discriminate].
    injection Hr as <- <-.
    exists {| core_vec := v; core_gdbarch := gdbarch_from_bfd temp_bfd;
              core_data := Some (section_table_of temp_bfd) |}, ms.
    split; [| split; [reflexivity | split; [reflexivity | split; [reflexivity | split]]]].
    + unfold adopt_core_gdbarch. cbn. reflexivity.
    + cbn in Hv. symmetry. exact Hv.
    + exact Hsay.
  - cbn in Hr. discriminate.
Qed.

(** How [core_open] gets past [push_target]: the container opened and
    accepted, the target completed, and then the thread list built on
    the freshly pushed target.  What follows either goes through, adding
    to the register cache and the messages, or is cut short by
    [post_create_inferior]. *)
Lemma core_open_past_push (core_file_fns : list core_fns) (rq : open_request)
      (s s' : gdb_state) (r : result unit) :
  core_open core_file_fns rq s = (r, s') ->
  r = Ok tt \/ r = Throw err_post_create_inferior ->
  exists temp_bfd cops ms,
    gdb_bfd_fopen rq = Some temp_bfd
    /\ core_gdbarch cops = gdbarch_from_bfd temp_bfd
    /\ core_data cops = Some (section_table_of temp_bfd)
    /\ fst (sniff_core_bfd core_file_fns temp_bfd (gdbarch_from_bfd temp_bfd) s)
       = Ok (core_vec cops)
    /\ (ms = []
        \/ exists n, ms = [warn_ambiguous_core_format (bfd_get_filename temp_bfd) n])
    /\ let u := unpush_target_core_ops (gdb_bfd_ref temp_bfd s) in
       let y := snd (core_open_threads temp_bfd
                       (pushed cops (List.length (cleanup_chain u))
                          (adopt_core_gdbarch temp_bfd
                             (installing temp_bfd cops ms u)))) in
       (r = Ok tt ->
        core_open_report rq temp_bfd y = (Ok tt, s')
        /\ exists rc ms', s' = set_regcache rc (set_messages ms' y))
       /\ (r = Throw err_post_create_inferior ->
           post_create_inferior_throws rq = true
           /\ s' = do_cleanups (List.length (cleanup_chain s))
                     (set_messages (messages y ++ [err_post_create_inferior]) y)).
Proof.
  intros Hopen Hr. unfold core_open in Hopen.
  destruct (core_open_body core_file_fns rq s) as [r1 s1] eqn:Hbody.
  assert (Hr1 : r1 = r /\ (r = Ok tt -> s' = s1)
                /\ (r = Throw err_post_create_inferior ->
                    s' = do_cleanups (List.length (cleanup_chain s)) s1)).
  { destruct r1 as [[] | e0 |]; injection Hopen as <- <-;
      (split; [reflexivity | split; intros H; try discriminate H; reflexivity]). }
  destruct Hr1 as (-> & Hok & Hthrow). clear Hopen.
  unfold core_open_body in Hbody.
  destruct (arg rq) as [a |].
  2: { destruct s; cbn in Hbody. injection Hbody as <- _.
       destruct Hr as [Hr | Hr]; discriminate Hr. }
  rewrite bind_exec in Hbody.
  unfold bind at 1 in Hbody. unfold make_cleanup at 1 in Hbody.
  cbv beta iota zeta in Hbody.
  destruct (gdb_open_cloexec_ok rq).
  2: { destruct s; cbn in Hbody. injection Hbody as <- _.
       destruct Hr as [Hr | Hr]; discriminate Hr. }
  destruct (gdb_bfd_fopen rq) as [b |].
  2: { destruct s; cbn in Hbody. injection Hbody as <- _.
       destruct Hr as [Hr | Hr]; discriminate Hr. }
  exists b.
  assert (Hsniff : forall v,
             fst (sniff_core_bfd core_file_fns b (gdbarch_from_bfd b)
                    (set_allocated (allocated s) (gdb_bfd_ref b s))) = v ->
             fst (sniff_core_bfd core_file_fns b (gdbarch_from_bfd b) s) = v).
  { intros v <-. apply sniff_core_bfd_value. }
  assert (Hchain : cleanup_chain (unpush_target_core_ops (gdb_bfd_ref b s))
                   = cleanup_chain s).
  { pose proof (unpush_target_core_ops_nothing_new (gdb_bfd_ref b s))
      as (_ & _ & _ & _ & _ & Hc).
    rewrite Hc. destruct s; reflexivity. }
  revert Hsniff Hchain Hok Hthrow.
  destruct s.
  cbn -[do_cleanups core_open_install core_open_pushed] in Hbody.
  destruct (negb (bfd_check_format_core b) && negb (gdb_check_format core_file_fns b)).
  { cbn in Hbody. injection Hbody as <- _.
    destruct Hr as [Hr | Hr]; discriminate Hr. }
  rewrite bind_ret, bind_exec in Hbody.
  rewrite (do_cleanups_one _ cleanup_xfree_filename cleanup_chain0) in Hbody by reflexivity.
  cbn [run_cleanup xfree set_allocated set_cleanup_chain remove_one
       block_eqb allocated] in Hbody.
  unfold bind at 1 in Hbody.
  cbn [gdb_bfd_ref set_bfd_refs bfd_refs set_allocated allocated].
  intros Hsniff Hchain Hok Hthrow.
  match type of Hbody with
  | context [core_open_install ?f ?q ?b ?S] =>
      destruct (core_open_install f q b S) as [ri xi] eqn:Hi
  end.
  destruct ri as [old | e' |].
  2: { injection Hbody as <- _.
       exfalso.
       match type of Hi with
       | core_open_install ?f ?q ?b ?S = _ =>
           destruct (core_open_install_cases f q b S)
             as [(cops & ms & Hi' & _) | (e'' & cops & ms & Hi' & He')];
             rewrite Hi' in Hi
       end.
       - discriminate.
       - injection Hi as <- _.
         destruct Hr as [Hr | Hr]; [discriminate Hr |].
         injection Hr as ->. discriminate He'. }
  2: { injection Hbody as <- _. destruct Hr as [Hr | Hr]; discriminate Hr. }
  destruct (core_open_install_ok _ _ _ _ _ _ Hi)
    as (cops & ms & -> & -> & Hg & Hd & Hv & Hsay).
  exists cops, ms.
  split; [reflexivity |]. split; [exact Hg |]. split; [exact Hd |].
  split; [apply Hsniff; exact Hv |]. split; [exact Hsay |].
  cbv zeta.
  unfold bind, gets in Hbody. rewrite new_cops_installed in Hbody.
  match type of Hbody with
  | core_open_pushed ?q ?b ?c ?o ?x = _ =>
      pose proof (core_open_report_cases q b
                    (snd (core_open_threads b (pushed c o x)))) as Hrep;
      unfold core_open_pushed in Hbody; rewrite !bind_exec in Hbody;
      fold (pushed c o x) in Hbody;
      rewrite bind_core_open_threads in Hbody
  end.
  rewrite Hbody in Hrep. cbn [fst snd] in Hrep.
  destruct Hrep as [[Hth Hrep] | (Hth & Hne & rc & ms' & Hrep)].
  - injection Hrep as -> ->. split.
    + intros H. discriminate H.
    + intros _. split; [exact Hth |]. apply Hthrow. reflexivity.
  - split.
    + intros ->. rewrite (Hok eq_refl). split; [exact Hbody |].
      exists rc, ms'. exact Hrep.
    + intros ->. exfalso. exact (Hne _ eq_refl).
Qed.
(* ------------------------------------------------------------------ *)
(** ** What the stages of a successful open leave alone *)

Lemma touches_threads_only_fields (s s' : gdb_state) :
  touches_threads_only s s' ->
  target_stack s' = target_stack s
  /\ core_bfd s' = core_bfd s
  /\ bfd_refs s' = bfd_refs s
  /\ allocated s' = allocated s
  /\ new_cops s' = new_cops s
  /\ cleanup_chain s' = cleanup_chain s
  /\ other_inferiors s' = other_inferiors s
  /\ so_list s' = so_list s
  /\ regcache s' = regcache s
  /\ messages s' = messages s.
Proof.
  intros (c & t & p & ->). destruct s; cbn. repeat split; reflexivity.
Qed.

Lemma output_frame (rc : list supply_call) (ms : list message) (y : gdb_state) :
  let s' := set_regcache rc (set_messages ms y) in
  target_stack s' = target_stack y
  /\ core_bfd s' = core_bfd y
  /\ bfd_refs s' = bfd_refs y
  /\ allocated s' = allocated y
  /\ new_cops s' = new_cops y
  /\ cleanup_chain s' = cleanup_chain y
  /\ so_list s' = so_list y.
Proof. destruct y; cbn. repeat split; reflexivity. Qed.

Lemma core_open_threads_frame (temp_bfd : bfd) (x : gdb_state) :
  touches_threads_only x (snd (core_open_threads temp_bfd x)).
Proof.
  rewrite core_open_threads_state. cbv zeta. unfold bfd_map_over_sections.
  destruct (thread_walk_frame (bfd_get_section_by_name temp_bfd ".reg")
              (bfd_sections temp_bfd) x) as [Hw _].
  revert Hw.
  generalize (fold_left
                (fun acc asect =>
                   add_to_thread_list asect (bfd_get_section_by_name temp_bfd ".reg") acc)
                (bfd_sections temp_bfd) x).
  intros w Hw.
  eapply touches_threads_only_trans; [exact Hw |].
  destruct (ptid_equal (inferior_ptid w) null_ptid);
    [| apply touches_threads_only_refl].
  destruct (first_thread_of_process w) as [t |].
  - exists (current_inferior w), (thread_list w), t. destruct w; reflexivity.
  - destruct w as [ts cb br al nc cc ci oi tl ip so eb tg rc ms].
    eexists _, _, _. cbn. reflexivity.
Qed.

(** The state the thread list is built from, field by field. *)
Lemma pushed_state (temp_bfd : bfd) (cops : core_target_ops_with_data)
      (ms : list message) (u : gdb_state) (sections : list target_section) :
  core_data cops = Some sections ->
  let x := pushed cops (List.length (cleanup_chain u))
             (adopt_core_gdbarch temp_bfd (installing temp_bfd cops ms u)) in
  target_stack x = core_target cops :: target_stack u
  /\ cleanup_chain x = cleanup_chain u
  /\ allocated x = blk_sections :: blk_cops :: allocated u
  /\ bfd_refs x = bfd_refs u
  /\ new_cops x = None
  /\ regcache x = []
  /\ so_list x = so_list u.
Proof.
  intros Hd. cbv zeta. unfold pushed, adopt_core_gdbarch, installing. rewrite Hd.
  destruct u as [ts cb br al nc cc ci oi tl ip so eb tg rc ms0].
  cbn [cleanup_chain].
  assert (Hskip : forall (c : cleanup) (l : list cleanup),
             skipn (List.length (c :: l) - List.length l) (c :: l) = l).
  { intros c l. cbn [List.length].
    replace (S (List.length l) - List.length l)%nat with 1%nat by lia.
    reflexivity. }
  destruct eb; cbn -[skipn Nat.sub List.length]; rewrite Hskip;
    repeat split; reflexivity.
Qed.

Lemma unpush_target_core_ops_chain (s : gdb_state) :
  cleanup_chain (unpush_target_core_ops s) = cleanup_chain s.
Proof.
  pose proof (unpush_target_core_ops_nothing_new s) as (_ & _ & _ & _ & _ & Hc).
  exact Hc.
Qed.

Lemma unlink_core_target_missing (st : list target_ops) :
  fst (unlink_core_target st) = None -> snd (unlink_core_target st) = st.
Proof.
  induction st as [| t st IH]; [reflexivity |].
  destruct t as [cops | name stratum]; cbn [unlink_core_target].
  - discriminate.
  - destruct (unlink_core_target st) as [found rest]. cbn in *.
    intros H. rewrite (IH H). reflexivity.
Qed.

Lemma core_xclose_stack (cops : core_target_ops_with_data) (s : gdb_state) :
  target_stack (core_xclose cops s) = target_stack s.
Proof.
  destruct s as [ts cb br al nc cc ci oi tl ip so eb tg rc ms].
  unfold core_xclose. cbn.
  destruct cb as [b |]; cbn.
  - destruct (ptid_get_pid ip =? 0); cbn.
    + destruct (core_data cops); reflexivity.
    + unfold exit_inferior_silent, find_inferior_pid. cbn.
      destruct (inf_pid ci =? ptid_get_pid ip); cbn.
      * destruct (core_data cops); reflexivity.
      * destruct (find _ oi); cbn; destruct (core_data cops); reflexivity.
  - destruct (core_data cops); reflexivity.
Qed.

(** Popping this backend leaves the stack without its first instance. *)
Lemma unpush_target_core_ops_stack (s : gdb_state) :
  target_stack (unpush_target_core_ops s) = snd (unlink_core_target (target_stack s)).
Proof.
  unfold unpush_target_core_ops.
  destruct (unlink_core_target (target_stack s)) as [[cops |] st] eqn:Hu.
  - rewrite core_xclose_stack. destruct s; reflexivity.
  - pose proof (unlink_core_target_missing (target_stack s)) as H.
    rewrite Hu in H. cbn in *. symmetry. apply H. reflexivity.
Qed.

Lemma gdb_bfd_ref_stack (b : bfd) (s : gdb_state) :
  target_stack (gdb_bfd_ref b s) = target_stack s
  /\ cleanup_chain (gdb_bfd_ref b s) = cleanup_chain s.
Proof. destruct s; split; reflexivity. Qed.


(* ------------------------------------------------------------------ *)
(** ** The thread list of a core *)

Lemma thread_replaced_only (x t : ptid_t) (l : list ptid_t) :
  In t (filter (fun t0 => negb (ptid_equal t0 x)) l ++ [x]) -> t = x \/ In t l.
Proof.
  intros Hin. apply in_app_or in Hin. destruct Hin as [Hin | [<- | []]].
  - right. apply filter_In in Hin. exact (proj1 Hin).
  - left. reflexivity.
Qed.

Section ThreadsOfSections.

Variable cbfd : bfd.
Variable reg_sect : option asection.

Local Abbreviation walk :=
  (fold_left (fun acc asect => add_to_thread_list asect reg_sect acc)).

Lemma add_to_thread_list_only (a : asection) (t : ptid_t) (s : gdb_state) :
  core_bfd s = Some cbfd ->
  In t (thread_list (add_to_thread_list a reg_sect s)) ->
  In t (thread_list s)
  \/ (is_thread_section a = true /\ t = thread_of_section cbfd a).
Proof.
  intros Hbfd Hin.
  destruct (is_thread_section a) eqn:Hthr.
  - rewrite (add_to_thread_list_thread a reg_sect s cbfd Hbfd Hthr) in Hin.
    cbv zeta in Hin.
    destruct s as [ts cb br al nc cc ci oi tl ip so eb tg rc ms]; cbn in *.
    destruct (match reg_sect with Some r => filepos a =? filepos r | None => false end);
      destruct (inf_pid ci =? 0); cbn in Hin;
      apply thread_replaced_only in Hin;
      (destruct Hin as [-> | Hin]; [right; split; reflexivity | left; exact Hin]).
  - rewrite add_to_thread_list_other in Hin by exact Hthr. left. exact Hin.
Qed.

(** The walk lists no thread but those the sections announce. *)
Lemma thread_walk_only (l : list asection) (t : ptid_t) :
  forall s, core_bfd s = Some cbfd ->
            In t (thread_list (walk l s)) ->
            In t (thread_list s)
            \/ exists a, In a l /\ is_thread_section a = true
                         /\ t = thread_of_section cbfd a.
Proof.
  induction l as [| x l IH]; intros s Hbfd Hin; [left; exact Hin |].
  cbn [fold_left] in Hin.
  assert (Hbfd' : core_bfd (add_to_thread_list x reg_sect s) = Some cbfd).
  { rewrite (proj2 (add_to_thread_list_frame x reg_sect s)). exact Hbfd. }
  destruct (IH _ Hbfd' Hin) as [Hold | (a & Ha & Hthr & ->)].
  - destruct (add_to_thread_list_only x t s Hbfd Hold) as [H | [Hthr ->]].
    + left. exact H.
    + right. exists x. split; [left; reflexivity | split; [exact Hthr | reflexivity]].
  - right. exists a. split; [right; exact Ha | split; [exact Hthr | reflexivity]].
Qed.

Lemma add_to_thread_list_current (a : asection) (s : gdb_state) :
  core_bfd s = Some cbfd ->
  current_thread_listed s ->
  current_thread_listed (add_to_thread_list a reg_sect s).
Proof.
  intros Hbfd Hcur.
  destruct (is_thread_section a) eqn:Hthr.
  - pose proof (add_to_thread_list_creates cbfd reg_sect a s Hbfd Hthr) as Hnew.
    assert (Hkeep : In (inferior_ptid s) (thread_list s) ->
                    In (inferior_ptid s)
                       (thread_list (add_to_thread_list a reg_sect s)))
      by (apply add_to_thread_list_keeps with (cbfd := cbfd); exact Hbfd).
    revert Hnew Hkeep.
    rewrite (add_to_thread_list_thread a reg_sect s cbfd Hbfd Hthr). cbv zeta.
    unfold current_thread_listed in *.
    destruct s as [ts cb br al nc cc ci oi tl ip so eb tg rc ms]; cbn in *.
    destruct (match reg_sect with Some r => filepos a =? filepos r | None => false end);
      destruct (inf_pid ci =? 0); cbn; intros Hnew Hkeep;
      try (right; exact Hnew);
      (destruct Hcur as [Hcur | Hcur]; [left; exact Hcur | right; exact (Hkeep Hcur)]).
  - rewrite add_to_thread_list_other by exact Hthr. exact Hcur.
Qed.

Lemma thread_walk_current_listed (l : list asection) :
  forall s, core_bfd s = Some cbfd ->
            current_thread_listed s -> current_thread_listed (walk l s).
Proof.
  induction l as [| x l IH]; intros s Hbfd Hcur; [exact Hcur |].
  cbn [fold_left]. apply IH.
  - rewrite (proj2 (add_to_thread_list_frame x reg_sect s)). exact Hbfd.
  - apply add_to_thread_list_current; assumption.
Qed.

End ThreadsOfSections.

(** The thread list [core_open_threads] builds on a freshly pushed
    target. *)
Lemma core_open_threads_built (temp_bfd : bfd) (x : gdb_state) :
  core_bfd x = Some temp_bfd ->
  inferior_ptid x = null_ptid ->
  thread_list x = [] ->
  let y := snd (core_open_threads temp_bfd x) in
  In (inferior_ptid y) (thread_list y)
  /\ (existsb is_thread_section (bfd_sections temp_bfd) = false ->
      thread_list y = [pid_to_ptid CORELOW_PID]
      /\ inferior_ptid y = pid_to_ptid CORELOW_PID
      /\ current_inferior y
         = {| inf_pid := CORELOW_PID; fake_pid_p := fake_pid_p (current_inferior x) |})
  /\ (existsb is_thread_section (bfd_sections temp_bfd) = true ->
      forall t,
        In t (thread_list y)
        <-> exists a, In a (bfd_sections temp_bfd) /\ is_thread_section a = true
                      /\ t = thread_of_section temp_bfd a).
Proof.
  intros Hbfd Hptid Hthreads. cbv zeta.
  rewrite core_open_threads_state. cbv zeta. unfold bfd_map_over_sections.
  set (reg := bfd_get_section_by_name temp_bfd ".reg").
  set (w := fold_left (fun acc asect => add_to_thread_list asect reg acc)
                      (bfd_sections temp_bfd) x).
  assert (Hcur : current_thread_listed w).
  { apply thread_walk_current_listed with (cbfd := temp_bfd); [exact Hbfd |].
    left. exact Hptid. }
  assert (Honly : forall t, In t (thread_list w) ->
                            exists a, In a (bfd_sections temp_bfd)
                                      /\ is_thread_section a = true
                                      /\ t = thread_of_section temp_bfd a).
  { intros t Hin.
    destruct (thread_walk_only temp_bfd reg (bfd_sections temp_bfd) t x Hbfd Hin)
      as [Hold | H]; [| exact H].
    rewrite Hthreads in Hold. contradiction. }
  assert (Hall : forall a, In a (bfd_sections temp_bfd) -> is_thread_section a = true ->
                           In (thread_of_section temp_bfd a) (thread_list w)).
  { intros a Hin Hthr.
    exact (thread_walk_creates temp_bfd reg (bfd_sections temp_bfd) a x Hbfd Hin Hthr). }
  assert (Hnone : existsb is_thread_section (bfd_sections temp_bfd) = false -> w = x).
  { intros Hex. apply thread_walk_no_thread. exact Hex. }
  clearbody w.
  split; [| split].
  - destruct (ptid_equal (inferior_ptid w) null_ptid) eqn:Hnull.
    + unfold first_thread_of_process.
      destruct w as [ts cb br al nc cc ci oi tl ip so eb tg rc ms]; cbn in *.
      destruct tl as [| t tl]; cbn.
      * left. reflexivity.
      * left. reflexivity.
    + destruct Hcur as [Hcur | Hcur]; [| exact Hcur].
      rewrite Hcur in Hnull. discriminate Hnull.
  - intros Hex. rewrite (Hnone Hex). rewrite Hptid.
    unfold first_thread_of_process. rewrite Hthreads.
    destruct x as [ts cb br al nc cc ci oi tl ip so eb tg rc ms]; cbn in *.
    subst tl. cbn. repeat split; reflexivity.
  - intros Hex t.
    assert (Hlist : thread_list
                      (if ptid_equal (inferior_ptid w) null_ptid
                       then match first_thread_of_process w with
                            | Some t0 => switch_to_thread t0 w
                            | None =>
                                add_thread (pid_to_ptid CORELOW_PID)
                                  (set_inferior_ptid (pid_to_ptid CORELOW_PID)
                                     (inferior_appeared CORELOW_PID w))
                            end
                       else w) = thread_list w).
    { destruct (ptid_equal (inferior_ptid w) null_ptid); [| reflexivity].
      apply existsb_exists in Hex. destruct Hex as (a & Hin & Hthr).
      pose proof (Hall a Hin Hthr) as Hsome.
      unfold first_thread_of_process.
      destruct w as [ts cb br al nc cc ci oi tl ip so eb tg rc ms]; cbn in *.
      destruct tl; [contradiction | reflexivity]. }
    rewrite Hlist. split.
    + apply Honly.
    + intros (a & Hin & Hthr & ->). apply Hall; assumption.
Qed.

(** The threads, the current thread and the inferiors after a
    successful open are those [core_open_threads] leaves. *)
Lemma core_open_threads_of (core_file_fns : list core_fns) (rq : open_request)
      (s s' : gdb_state) (r : result unit) :
  core_open core_file_fns rq s = (r, s') ->
  r = Ok tt \/ r = Throw err_post_create_inferior ->
  exists temp_bfd x,
    gdb_bfd_fopen rq = Some temp_bfd
    /\ core_bfd x = Some temp_bfd
    /\ inferior_ptid x = null_ptid
    /\ thread_list x = []
    /\ current_inferior x
       = current_inferior (unpush_target_core_ops (gdb_bfd_ref temp_bfd s))
    /\ let y := snd (core_open_threads temp_bfd x) in
       thread_list s' = thread_list y
       /\ inferior_ptid s' = inferior_ptid y
       /\ current_inferior s' = current_inferior y
       /\ other_inferiors s' = other_inferiors y.
Proof.
  intros Hopen Hr.
  destruct (core_open_past_push _ _ _ _ _ Hopen Hr)
    as (b & cops & ms & Hb & Hg & Hd & Hv & _ & Hs').
  cbv zeta in Hs'.
  set (u := unpush_target_core_ops (gdb_bfd_ref b s)) in *.
  set (x := pushed cops (List.length (cleanup_chain u))
              (adopt_core_gdbarch b (installing b cops ms u))) in *.
  exists b, x.
  destruct (pushed_fields b cops ms (List.length (cleanup_chain u)) u)
    as (Hcb & Hip & Htl & Hci & _).
  cbv zeta in Hcb, Hip, Htl, Hci. fold x in Hcb, Hip, Htl, Hci.
  split; [exact Hb |]. split; [exact Hcb |]. split; [exact Hip |].
  split; [exact Htl |]. split; [exact Hci |].
  cbv zeta.
  destruct Hs' as [Hok Hthrow].
  destruct Hr as [-> | ->].
  - destruct (Hok eq_refl) as (_ & rc & ms' & ->).
    destruct (output_fields rc ms' (snd (core_open_threads b x)))
      as (H1 & H2 & H3 & H4).
    cbv zeta in H1, H2, H3, H4.
    split; [exact H2 |]. split; [exact H1 |]. split; [exact H3 | exact H4].
  - destruct (Hthrow eq_refl) as [_ ->].
    destruct (touches_threads_only_fields _ _ (core_open_threads_frame b x))
      as (_ & _ & _ & _ & _ & Hcc & _).
    destruct (pushed_state b cops ms u _ Hd) as (_ & Hcc' & _).
    cbv zeta in Hcc'. fold x in Hcc'.
    assert (Hchain : cleanup_chain u = cleanup_chain s).
    { unfold u. rewrite unpush_target_core_ops_chain.
      apply (proj2 (gdb_bfd_ref_stack b s)). }
    rewrite do_cleanups_none.
    + generalize (snd (core_open_threads b x)). intros y.
      destruct y; cbn. repeat split; reflexivity.
    + rewrite <- Hchain, <- Hcc', <- Hcc.
      generalize (snd (core_open_threads b x)). intros y.
      destruct y; reflexivity.
Qed.

(** X5 — A container without a section whose name begins with [.reg/]
    opens into exactly one thread, (1, 0, 0), which is the current
    thread, and the current inferior is given the process id 1: the
    process id the container reports is not consulted on this path. *)
Theorem core_open_without_thread_sections
        (core_file_fns : list core_fns) (rq : open_request) (s s' : gdb_state)
        (temp_bfd : bfd) :
  core_open core_file_fns rq s = (Ok tt, s') ->
  gdb_bfd_fopen rq = Some temp_bfd ->
  existsb is_thread_section (bfd_sections temp_bfd) = false ->
  thread_list s' = [ptid_build CORELOW_PID 0 0]
  /\ inferior_ptid s' = ptid_build CORELOW_PID 0 0
  /\ inf_pid (current_inferior s') = CORELOW_PID.
Proof.
  intros Hopen Hfopen Hnone.
  destruct (core_open_threads_of _ _ _ _ _ Hopen (or_introl eq_refl))
    as (b & x & Hb & Hcb & Hip & Htl & _ & Hs').
  rewrite Hfopen in Hb. injection Hb as <-.
  cbv zeta in Hs'. destruct Hs' as (-> & -> & -> & _).
  destruct (core_open_threads_built temp_bfd x Hcb Hip Htl) as (_ & Hfall & _).
  destruct (Hfall Hnone) as (-> & -> & ->).
  repeat split; reflexivity.
Qed.

Lemma core_open_without_thread_sections_witness :
  bfd_core_file_pid single_thread_core = 4321
  /\ thread_list (snd (core_open [] (open_request_for single_thread_core) initial_state))
     = [ptid_build 1 0 0].
Proof.
  split; [reflexivity |].
  refine (proj1 (core_open_without_thread_sections
                   [] (open_request_for single_thread_core) initial_state
                   (snd (core_open [] (open_request_for single_thread_core)
                                   initial_state))
                   single_thread_core _ eq_refl eq_refl)).
  vm_compute. reflexivity.
Defined.

(** X6 — After a successful open of a container with sections whose
    names begin with [.reg/], the listed threads are exactly the threads
    those sections announce, (pid, lwp, 0) with the process id of the
    core, and the current thread is one of them. *)
Theorem core_open_thread_list
        (core_file_fns : list core_fns) (rq : open_request) (s s' : gdb_state)
        (temp_bfd : bfd) :
  core_open core_file_fns rq s = (Ok tt, s') ->
  gdb_bfd_fopen rq = Some temp_bfd ->
  existsb is_thread_section (bfd_sections temp_bfd) = true ->
  (forall t,
      In t (thread_list s')
      <-> exists a, In a (bfd_sections temp_bfd) /\ is_thread_section a = true
                    /\ t = ptid_build (core_pid temp_bfd)
                                      (atoi (string_drop 5 (sec_name a))) 0)
  /\ In (inferior_ptid s') (thread_list s').
Proof.
  intros Hopen Hfopen Hsome.
  destruct (core_open_threads_of _ _ _ _ _ Hopen (or_introl eq_refl))
    as (b & x & Hb & Hcb & Hip & Htl & _ & Hs').
  rewrite Hfopen in Hb. injection Hb as <-.
  cbv zeta in Hs'. destruct Hs' as (-> & -> & _).
  destruct (core_open_threads_built temp_bfd x Hcb Hip Htl) as (Hcur & _ & Hiff).
  split; [| exact Hcur].
  intros t. exact (Hiff Hsome t).
Qed.

Lemma core_open_thread_list_witness :
  let s' := snd (core_open [] (open_request_for two_thread_core) initial_state) in
  In (ptid_build 1 17 0) (thread_list s')
  /\ In (inferior_ptid s') (thread_list s').
Proof.
  cbv zeta.
  assert (Hopen : core_open [] (open_request_for two_thread_core) initial_state
                  = (Ok tt, snd (core_open [] (open_request_for two_thread_core)
                                           initial_state)))
    by (vm_compute; reflexivity).
  destruct (core_open_thread_list [] (open_request_for two_thread_core) initial_state
              _ two_thread_core Hopen eq_refl eq_refl) as [Hiff Hcur].
  split; [| exact Hcur].
  apply Hiff. exists (note_section ".reg/17" 80 4).
  split; [left; reflexivity | split; reflexivity].
Defined.


(* ------------------------------------------------------------------ *)
(** ** Closing and detaching *)

(** What [core_xclose] leaves of an open core. *)
Lemma core_xclose_open (cops : core_target_ops_with_data) (s : gdb_state) (b : bfd) :
  core_bfd s = Some b ->
  let s' := core_xclose cops s in
  core_bfd s' = None
  /\ inferior_ptid s' = null_ptid
  /\ so_list s' = []
  /\ bfd_refs s' = remove_one String.eqb (bfd_get_filename b) (bfd_refs s)
  /\ allocated s'
     = remove_one block_eqb blk_cops
         (match core_data cops with
          | Some _ => remove_one block_eqb blk_sections (allocated s)
          | None => allocated s
          end).
Proof.
  intros Hb. cbv zeta.
  destruct s as [ts cb br al nc cc ci oi tl ip so eb tg rc ms].
  cbn in Hb. subst cb.
  unfold core_xclose. cbn.
  destruct (ptid_get_pid ip =? 0); cbn.
  - destruct (core_data cops); cbn; repeat split; reflexivity.
  - unfold exit_inferior_silent, find_inferior_pid. cbn.
    destruct (inf_pid ci =? ptid_get_pid ip); cbn.
    + destruct (core_data cops); cbn; repeat split; reflexivity.
    + destruct (find _ oi); cbn; destruct (core_data cops); cbn;
        repeat split; reflexivity.
Qed.

(** X8 — [core_detach] refuses any argument and then changes nothing.
    Without an argument it pops the instance of this backend off the
    stack and closes it: the container is released (one reference is
    given back), so that the target has neither memory nor stack nor
    registers any more, no thread is current, the shared objects are
    cleared, and nothing is created; "No core file now." is printed
    exactly when the call is interactive. *)
Theorem core_detach_closes
        (args : option string) (from_tty : bool) (s : gdb_state) :
  (forall a, args = Some a ->
             core_detach args from_tty s = (inl err_too_many_arguments, s))
  /\ (args = None ->
      forall cops rest b,
        unlink_core_target (target_stack s) = (Some cops, rest) ->
        core_bfd s = Some b ->
        let s' := snd (core_detach args from_tty s) in
        fst (core_detach args from_tty s)
        = inr (if from_tty then [msg_no_core_file_now] else [])
        /\ target_stack s' = rest
        /\ core_bfd s' = None
        /\ core_has_memory s' = false
        /\ core_has_stack s' = false
        /\ core_has_registers s' = false
        /\ inferior_ptid s' = null_ptid
        /\ so_list s' = []
        /\ bfd_refs s' = remove_one String.eqb (bfd_get_filename b) (bfd_refs s)
        /\ nothing_new s s').
Proof.
  split.
  - intros a ->. reflexivity.
  - intros -> cops rest b Hun Hb. cbv zeta. unfold core_detach. cbn [fst snd].
    split; [reflexivity |].
    pose proof (unpush_target_core_ops_nothing_new s) as Hnew.
    pose proof (unpush_target_core_ops_stack s) as Hstack.
    rewrite Hun in Hstack. cbn [snd] in Hstack.
    assert (Hclose : unpush_target_core_ops s
                     = core_xclose cops (set_target_stack rest s)).
    { unfold unpush_target_core_ops. rewrite Hun. reflexivity. }
    assert (Hb' : core_bfd (set_target_stack rest s) = Some b)
      by (destruct s; exact Hb).
    destruct (core_xclose_open cops _ b Hb') as (H1 & H2 & H3 & H4 & _).
    cbv zeta in H1, H2, H3, H4. rewrite <- Hclose in H1, H2, H3, H4.
    unfold core_has_memory, core_has_stack, core_has_registers. rewrite H1.
    repeat split; try assumption.
    + rewrite H4. destruct s; reflexivity.
    + apply Hnew.
    + apply Hnew.
    + apply Hnew.
    + apply Hnew.
    + apply Hnew.
    + apply Hnew.
Qed.

Lemma core_detach_closes_witness :
  let s' := snd (core_detach None true (session_on two_thread_core None)) in
  fst (core_detach None true (session_on two_thread_core None))
  = inr [msg_no_core_file_now]
  /\ target_stack s' = [other_target "exec" file_stratum]
  /\ core_has_memory s' = false.
Proof.
  cbv zeta.
  destruct (proj2 (core_detach_closes None true (session_on two_thread_core None))
              eq_refl _ _ two_thread_core eq_refl eq_refl)
    as (H1 & H2 & _ & H4 & _).
  split; [exact H1 | split; [exact H2 | exact H4]].
Defined.
(* ------------------------------------------------------------------ *)
(** ** A session from open to detach *)

(** What a successful open holds, started without a core session. *)
Lemma core_open_resources (core_file_fns : list core_fns) (rq : open_request)
      (s s' : gdb_state) :
  core_open core_file_fns rq s = (Ok tt, s') ->
  has_core_target (target_stack s) = false ->
  exists temp_bfd cops,
    gdb_bfd_fopen rq = Some temp_bfd
    /\ core_gdbarch cops = gdbarch_from_bfd temp_bfd
    /\ core_data cops = Some (section_table_of temp_bfd)
    /\ target_stack s' = core_target cops :: target_stack s
    /\ core_bfd s' = Some temp_bfd
    /\ bfd_refs s' = bfd_get_filename temp_bfd :: bfd_refs s
    /\ allocated s' = blk_sections :: blk_cops :: allocated s
    /\ cleanup_chain s' = cleanup_chain s
    /\ new_cops s' = None
    /\ so_list s' = so_list s.
Proof.
  intros Hopen Hnone.
  destruct (core_open_past_push _ _ _ _ _ Hopen (or_introl eq_refl))
    as (b & cops & ms & Hb & Hg & Hd & _ & _ & Hs').
  cbv zeta in Hs'. destruct Hs' as [Hok _].
  destruct (Hok eq_refl) as (_ & rc & ms' & ->). clear Hok.
  rewrite unpush_target_core_ops_none by (destruct s; exact Hnone).
  exists b, cops.
  set (u := gdb_bfd_ref b s).
  destruct (pushed_state b cops ms u _ Hd) as (Hts & Hcc & Hal & Hbr & Hnc & _ & Hso).
  destruct (pushed_fields b cops ms (List.length (cleanup_chain u)) u) as (Hcb & _).
  cbv zeta in Hts, Hcc, Hal, Hbr, Hnc, Hso, Hcb.
  destruct (touches_threads_only_fields _ _
              (core_open_threads_frame b
                 (pushed cops (List.length (cleanup_chain u))
                    (adopt_core_gdbarch b (installing b cops ms u)))))
    as (Hts' & Hcb' & Hbr' & Hal' & Hnc' & Hcc' & _ & Hso' & _).
  rewrite Hts in Hts'. rewrite Hcb in Hcb'. rewrite Hnc in Hnc'. rewrite Hcc in Hcc'.
  rewrite Hal in Hal'. rewrite Hbr in Hbr'. rewrite Hso in Hso'.
  destruct (output_frame rc ms'
              (snd (core_open_threads b
                      (pushed cops (List.length (cleanup_chain u))
                         (adopt_core_gdbarch b (installing b cops ms u))))))
    as (Ets & Ecb & Ebr & Eal & Enc & Ecc & Eso).
  cbv zeta in Ets, Ecb, Ebr, Eal, Enc, Ecc, Eso.
  rewrite Hts' in Ets. rewrite Hcb' in Ecb. rewrite Hnc' in Enc. rewrite Hcc' in Ecc.
  rewrite Hal' in Eal. rewrite Hbr' in Ebr. rewrite Hso' in Eso.
  unfold u in *.
  split; [exact Hb |]. split; [exact Hg |]. split; [exact Hd |].
  split; [rewrite Ets; destruct s; reflexivity |].
  split; [exact Ecb |].
  split; [rewrite Ebr; destruct s; reflexivity |].
  split; [rewrite Eal; destruct s; reflexivity |].
  split; [rewrite Ecc; destruct s; reflexivity |].
  split; [exact Enc |].
  rewrite Eso; destruct s; reflexivity.
Qed.

(** The threads of a core opened on an inferior without a process are
    all of the process of the current inferior, the current thread
    among them. *)
Lemma core_open_process (core_file_fns : list core_fns) (rq : open_request)
      (s s' : gdb_state) :
  core_open core_file_fns rq s = (Ok tt, s') ->
  has_core_target (target_stack s) = false ->
  inf_pid (current_inferior s) = 0 ->
  inf_pid (current_inferior s') <> 0
  /\ ptid_get_pid (inferior_ptid s') = inf_pid (current_inferior s')
  /\ (forall t, In t (thread_list s') ->
                ptid_get_pid t = inf_pid (current_inferior s'))
  /\ other_inferiors s' = other_inferiors s.
Proof.
  intros Hopen Hnone Hpid.
  destruct (core_open_threads_of _ _ _ _ _ Hopen (or_introl eq_refl))
    as (b & x & Hb & Hcb & Hip & Htl & _ & Hs').
  cbv zeta in Hs'. destruct Hs' as (Etl & Eip & _).
  destruct (core_open_inferior _ _ _ _ b Hopen Hb Hnone Hpid) as [Hoth Hcur].
  destruct (core_open_threads_built b x Hcb Hip Htl) as (Hin & Hfall & Hiff).
  cbv zeta in Hin, Hfall, Hiff. rewrite <- Etl, <- Eip in *.
  split; [| split; [| split; [| exact Hoth]]].
  - rewrite Hcur. destruct (existsb is_thread_section (bfd_sections b)); cbn;
      [apply core_pid_nonzero | discriminate].
  - destruct (existsb is_thread_section (bfd_sections b)) eqn:Hex.
    + apply (Hiff eq_refl) in Hin. destruct Hin as (a & _ & _ & ->).
      rewrite Hcur. reflexivity.
    + destruct (Hfall eq_refl) as (_ & -> & _).
      rewrite Hcur. reflexivity.
  - intros t Ht.
    destruct (existsb is_thread_section (bfd_sections b)) eqn:Hex.
    + apply (Hiff eq_refl) in Ht. destruct Ht as (a & _ & _ & ->).
      rewrite Hcur. reflexivity.
    + destruct (Hfall eq_refl) as (Hl & _ & _). rewrite Hl in Ht.
      destruct Ht as [<- | []]. rewrite Hcur. reflexivity.
Qed.



(* ------------------------------------------------------------------ *)
(** ** Naming the threads of a core *)

Lemma wrap_int_range (z : Z) : - 2 ^ 31 <= wrap_int z < 2 ^ 31.
Proof.
  unfold wrap_int.
  pose proof (Z.mod_pos_bound (z + 2 ^ 31) (2 ^ 32) ltac:(lia)). lia.
Qed.

Lemma atoi_range (s : string) : - 2 ^ 31 <= atoi s < 2 ^ 31.
Proof.
  unfold atoi. destruct (strtol10 s) as [[v rest] |]; [apply wrap_int_range | lia].
Qed.

(** X10 — After a successful open on an inferior without a process, and
    with an architecture that has no formatter of its own,
    [core_pid_to_str] labels every listed thread: a thread with an LWP
    is "process <lwp>"; the thread without one is "<main task>" when its
    inferior is flagged fake-pid and "process <pid>" otherwise.  With
    [.reg/] sections the flag says whether the container reports no
    process id; without them the flag is the one the inferior record had
    before the open. *)
Theorem core_pid_to_str_after_open
        (gdbarch_core_pid_to_str : gdbarch -> option (ptid_t -> string))
        (core_file_fns : list core_fns) (rq : open_request) (s s' : gdb_state)
        (temp_bfd : bfd) :
  core_open core_file_fns rq s = (Ok tt, s') ->
  gdb_bfd_fopen rq = Some temp_bfd ->
  has_core_target (target_stack s) = false ->
  inf_pid (current_inferior s) = 0 ->
  (forall g, gdbarch_from_bfd temp_bfd = Some g -> gdbarch_core_pid_to_str g = None) ->
  forall t,
    In t (thread_list s') ->
    core_pid_to_str gdbarch_core_pid_to_str t s'
    = (Ok (thread_label
             (if existsb is_thread_section (bfd_sections temp_bfd)
              then bfd_core_file_pid temp_bfd =? 0
              else fake_pid_p (current_inferior s)) t),
       s').
Proof.
  intros Hopen Hfopen Hnone Hpid Hfmt t Ht.
  destruct (core_open_resources _ _ _ _ Hopen Hnone)
    as (b & cops & Hb & Hg & _ & Hts & _).
  rewrite Hfopen in Hb. injection Hb as <-.
  destruct (core_open_process _ _ _ _ Hopen Hnone Hpid) as (_ & _ & Hall & _).
  destruct (core_open_inferior _ _ _ _ temp_bfd Hopen Hfopen Hnone Hpid) as [_ Hcur].
  assert (Hlwp : wrap_int (ptid_get_lwp t) = ptid_get_lwp t).
  { destruct (core_open_threads_of _ _ _ _ _ Hopen (or_introl eq_refl))
      as (b & x & Hb & Hcb & Hip & Htl & _ & Hs').
    rewrite Hfopen in Hb. injection Hb as <-.
    cbv zeta in Hs'. destruct Hs' as (Etl & _).
    destruct (core_open_threads_built temp_bfd x Hcb Hip Htl) as (_ & Hfall & Hiff).
    cbv zeta in Hfall, Hiff. rewrite <- Etl in *.
    destruct (existsb is_thread_section (bfd_sections temp_bfd)).
    - apply (Hiff eq_refl) in Ht. destruct Ht as (a & _ & _ & ->).
      apply wrap_int_small. apply atoi_range.
    - destruct (Hfall eq_refl) as (Hl & _). rewrite Hl in Ht.
      destruct Ht as [<- | []]. reflexivity. }
  assert (Hinf : find_inferior_pid (ptid_get_pid t) s' = Some (current_inferior s')).
  { unfold find_inferior_pid. cbn [find]. rewrite (Hall t Ht), Z.eqb_refl. reflexivity. }
  assert (Hfake : fake_pid_p (current_inferior s')
                  = if existsb is_thread_section (bfd_sections temp_bfd)
                    then bfd_core_file_pid temp_bfd =? 0
                    else fake_pid_p (current_inferior s)).
  { rewrite Hcur. destruct (existsb is_thread_section (bfd_sections temp_bfd));
      reflexivity. }
  rewrite <- Hfake.
  unfold core_pid_to_str, thread_label, bind, gets, get_core_target_ops.
  rewrite Hts. cbn [find to_stratum process_stratum Z.eqb Pos.eqb].
  rewrite Hg.
  assert (Hnofmt : match gdbarch_from_bfd temp_bfd with
                   | Some g => gdbarch_core_pid_to_str g
                   | None => None
                   end = None).
  { destruct (gdbarch_from_bfd temp_bfd) as [g |]; [apply Hfmt |]; reflexivity. }
  rewrite Hnofmt, Hlwp.
  destruct (negb (ptid_get_lwp t =? 0)); [reflexivity |].
  rewrite Hinf.
  destruct (fake_pid_p (current_inferior s')); reflexivity.
Qed.

Lemma core_pid_to_str_after_open_witness :
  let s' := snd (core_open [] (open_request_for two_thread_core) initial_state) in
  core_pid_to_str no_core_pid_to_str (ptid_build 1 17 0) s' = (Ok "process 17"%string, s').
Proof.
  cbv zeta.
  assert (Hopen : core_open [] (open_request_for two_thread_core) initial_state
                  = (Ok tt, snd (core_open [] (open_request_for two_thread_core)
                                           initial_state)))
    by (vm_compute; reflexivity).
  refine (core_pid_to_str_after_open no_core_pid_to_str []
            (open_request_for two_thread_core) initial_state _ two_thread_core
            Hopen eq_refl eq_refl eq_refl (fun g _ => eq_refl) (ptid_build 1 17 0) _).
  vm_compute. left. reflexivity.
Defined.
(* ------------------------------------------------------------------ *)
(** ** What fetching the registers adds *)

Lemma only_adds_nothing {A} (abfd : bfd) (c : M A) :
  (forall s, (forall e, fst (c s) <> Throw e) /\ snd (c s) = s) ->
  only_adds abfd c.
Proof.
  intros Hc s _. destruct (Hc s) as [Hnt Hs]. split; [exact Hnt |].
  exists [], []. split; [constructor |]. split; [constructor |].
  rewrite Hs, !app_nil_r. destruct s; reflexivity.
Qed.

Lemma only_adds_ret {A} (abfd : bfd) (a : A) : only_adds abfd (ret a).
Proof. apply only_adds_nothing. intros s. split; [discriminate | reflexivity]. Qed.

Lemma only_adds_fault {A} (abfd : bfd) : only_adds abfd (@fault A).
Proof. apply only_adds_nothing. intros s. split; [discriminate | reflexivity]. Qed.

Lemma only_adds_gets {A} (abfd : bfd) (f : gdb_state -> A) : only_adds abfd (gets f).
Proof. apply only_adds_nothing. intros s. split; [discriminate | reflexivity]. Qed.

Lemma only_adds_warning (abfd : bfd) (m : message) :
  register_message m -> only_adds abfd (warning m).
Proof.
  intros Hm s _. split; [discriminate |].
  exists [], [m]. split; [constructor |].
  split; [constructor; [exact Hm | constructor] |].
  rewrite app_nil_r. destruct s; reflexivity.
Qed.

Lemma only_adds_supply (abfd : bfd) (c : supply_call) :
  whole_section abfd c -> only_adds abfd (supply c).
Proof.
  intros Hc s _. split; [discriminate |].
  exists [c], []. split; [constructor; [exact Hc | constructor] |].
  split; [constructor |].
  rewrite app_nil_r. destruct s; reflexivity.
Qed.

Lemma only_adds_bind {A B} (abfd : bfd) (c : M A) (k : A -> M B) :
  only_adds abfd c -> (forall a, only_adds abfd (k a)) -> only_adds abfd (bind c k).
Proof.
  intros Hc Hk s Hb. unfold bind.
  destruct (Hc s Hb) as [Hnt (rc & ms & Hrc & Hms & Hs)].
  destruct (c s) as [[a | e | ] s1] eqn:Hcs; cbn [fst snd] in *.
  - assert (Hb1 : core_bfd s1 = Some abfd).
    { rewrite Hs. destruct s; exact Hb. }
    destruct (Hk a s1 Hb1) as [Hnt' (rc' & ms' & Hrc' & Hms' & Hs')].
    split; [exact Hnt' |].
    exists (rc ++ rc'), (ms ++ ms'). split; [apply Forall_app; split; assumption |].
    split; [apply Forall_app; split; assumption |].
    rewrite Hs', Hs. destruct s; cbn. rewrite !app_assoc. reflexivity.
  - exfalso. exact (Hnt e eq_refl).
  - split; [discriminate |]. exists rc, ms. repeat split; assumption.
Qed.

Lemma bfd_get_section_by_name_In (abfd : bfd) (name : string) (section : asection) :
  bfd_get_section_by_name abfd name = Some section ->
  In section (bfd_sections abfd) /\ sec_name section = name.
Proof.
  unfold bfd_get_section_by_name. intros H. apply find_some in H.
  destruct H as [Hin Heq]. split; [exact Hin | apply String.eqb_eq; exact Heq].
Qed.

Lemma only_adds_get_core_register_section
      (abfd : bfd) (regset : option regset) (name : string)
      (min_size which : Z) (human_name : string) (required : bool) :
  only_adds abfd
    (get_core_register_section regset name min_size which human_name required).
Proof.
  intros s Hb.
  assert (Hrun :
    get_core_register_section regset name min_size which human_name required s
    = (match bfd_get_section_by_name abfd (thread_section_name name s) with
       | None => if required then warning (warn_couldnt_find_registers human_name)
                 else ret tt
       | Some section =>
           let size := wrap_u64 (bfd_section_size section) in
           if size <? wrap_u64 min_size
           then warning (warn_section_too_small (thread_section_name name s))
           else
             bind (if negb (size =? wrap_u64 min_size)
                   then match regset with
                        | None => fault
                        | Some rs =>
                            if Z.land (regset_flags rs) REGSET_VARIABLE_SIZE =? 0
                            then warning (warn_unexpected_size (thread_section_name name s))
                            else ret tt
                        end
                   else ret tt)
                  (fun _ =>
                     match bfd_get_section_contents section 0 size with
                     | None => warning (warn_couldnt_read_registers human_name name)
                     | Some contents =>
                         match regset with
                         | Some rs => supply (supply_regset rs (-1) contents size)
                         | None =>
                             match get_core_target_ops s with
                             | Some {| core_vec := Some cf |} =>
                                 if core_read_registers_p cf
                                 then supply (core_read_registers cf contents size which
                                                                  (sec_vma section))
                                 else fault
                             | _ => fault
                             end
                         end
                     end)
       end) s).
  { unfold get_core_register_section, bind, gets. cbn. rewrite Hb. reflexivity. }
  rewrite Hrun. clear Hrun.
  destruct (bfd_get_section_by_name abfd (thread_section_name name s))
    as [section |] eqn:Hsec.
  - apply bfd_get_section_by_name_In in Hsec. destruct Hsec as [Hin _].
    cbv zeta.
    destruct (wrap_u64 (bfd_section_size section) <? wrap_u64 min_size).
    + exact (only_adds_warning abfd (warn_section_too_small _) I s Hb).
    + refine (only_adds_bind abfd _ _ _ _ s Hb).
      * destruct (negb (wrap_u64 (bfd_section_size section) =? wrap_u64 min_size));
          [| apply only_adds_ret].
        destruct regset as [rs |]; [| apply only_adds_fault].
        destruct (Z.land (regset_flags rs) REGSET_VARIABLE_SIZE =? 0);
          [apply only_adds_warning; exact I | apply only_adds_ret].
      * intros _.
        destruct (bfd_get_section_contents section 0
                    (wrap_u64 (bfd_section_size section))) as [contents |] eqn:Hread;
          [| apply only_adds_warning; exact I].
        assert (Hwhole : exists sec,
                   In sec (bfd_sections abfd)
                   /\ wrap_u64 (bfd_section_size section) = wrap_u64 (bfd_section_size sec)
                   /\ bfd_get_section_contents sec 0 (wrap_u64 (bfd_section_size section))
                      = Some contents).
        { exists section. split; [exact Hin | split; [reflexivity | exact Hread]]. }
        destruct regset as [rs |]; [apply only_adds_supply; exact Hwhole |].
        destruct (get_core_target_ops s) as [[[cf |] g d] |];
          try apply only_adds_fault.
        destruct (core_read_registers_p cf);
          [apply only_adds_supply; exact Hwhole | apply only_adds_fault].
  - destruct required; [exact (only_adds_warning abfd (warn_couldnt_find_registers _) I s Hb) | exact (only_adds_ret abfd tt s Hb)].
Qed.

Lemma only_adds_for_each {A} (abfd : bfd) (f : A -> M unit) (l : list A) :
  (forall a, only_adds abfd (f a)) -> only_adds abfd (for_each f l).
Proof.
  intros Hf. induction l as [| x l IH]; cbn [for_each].
  - apply only_adds_ret.
  - apply only_adds_bind; [apply Hf | intros _; exact IH].
Qed.

Lemma only_adds_get_core_registers (abfd : bfd) : only_adds abfd get_core_registers.
Proof.
  unfold get_core_registers.
  apply only_adds_bind; [apply only_adds_gets |].
  intros [cops |]; [| apply only_adds_fault].
  destruct (negb (gdbarch_has_regset_iterator (core_gdbarch cops))
            && match core_vec cops with
               | None => true
               | Some cf => negb (core_read_registers_p cf)
               end); [apply only_adds_warning; exact I |].
  destruct (core_gdbarch cops) as [g |]; [| apply only_adds_fault].
  apply only_adds_bind.
  - destruct (gdbarch_iterate_over_regset_sections_p g).
    + apply only_adds_for_each. intros sect. unfold get_core_registers_cb.
      apply only_adds_get_core_register_section.
    + apply only_adds_bind; [| intros _];
        apply only_adds_get_core_register_section.
  - intros _. apply only_adds_supply. exact I.
Qed.


(* ------------------------------------------------------------------ *)
(** ** Fetching through register sets runs to its end *)

Lemma adds_ok_ret {A} (abfd : bfd) (a : A) : adds_ok abfd (ret a).
Proof.
  intros s _. exists a, [], []. split; [constructor |]. split; [constructor |].
  rewrite !app_nil_r. destruct s; reflexivity.
Qed.

Lemma adds_ok_warning (abfd : bfd) (m : message) :
  register_message m -> adds_ok abfd (warning m).
Proof.
  intros Hm s _. exists tt, [], [m]. split; [constructor |].
  split; [constructor; [exact Hm | constructor] |].
  rewrite app_nil_r. destruct s; reflexivity.
Qed.

Lemma adds_ok_supply (abfd : bfd) (c : supply_call) :
  whole_section abfd c -> adds_ok abfd (supply c).
Proof.
  intros Hc s _. exists tt, [c], []. split; [constructor; [exact Hc | constructor] |].
  split; [constructor |].
  rewrite app_nil_r. destruct s; reflexivity.
Qed.

Lemma adds_ok_bind {A B} (abfd : bfd) (c : M A) (k : A -> M B) :
  adds_ok abfd c -> (forall a, adds_ok abfd (k a)) -> adds_ok abfd (bind c k).
Proof.
  intros Hc Hk s Hb. unfold bind.
  destruct (Hc s Hb) as (a & rc & ms & Hrc & Hms & Hs). rewrite Hs.
  assert (Hb1 : core_bfd (set_regcache (regcache s ++ rc)
                            (set_messages (messages s ++ ms) s)) = Some abfd)
    by (destruct s; exact Hb).
  destruct (Hk a _ Hb1) as (b & rc' & ms' & Hrc' & Hms' & Hs'). rewrite Hs'.
  exists b, (rc ++ rc'), (ms ++ ms').
  split; [apply Forall_app; split; assumption |].
  split; [apply Forall_app; split; assumption |].
  destruct s; cbn. rewrite !app_assoc. reflexivity.
Qed.

(** Read for a register set, a section never stops the reader. *)
Lemma adds_ok_get_core_register_section
      (abfd : bfd) (rs : regset) (name : string)
      (min_size which : Z) (human_name : string) (required : bool) :
  adds_ok abfd
    (get_core_register_section (Some rs) name min_size which human_name required).
Proof.
  intros s Hb.
  assert (Hrun :
    get_core_register_section (Some rs) name min_size which human_name required s
    = (match bfd_get_section_by_name abfd (thread_section_name name s) with
       | None => if required then warning (warn_couldnt_find_registers human_name)
                 else ret tt
       | Some section =>
           let size := wrap_u64 (bfd_section_size section) in
           if size <? wrap_u64 min_size
           then warning (warn_section_too_small (thread_section_name name s))
           else
             bind (if negb (size =? wrap_u64 min_size)
                   then if Z.land (regset_flags rs) REGSET_VARIABLE_SIZE =? 0
                        then warning (warn_unexpected_size (thread_section_name name s))
                        else ret tt
                   else ret tt)
                  (fun _ =>
                     match bfd_get_section_contents section 0 size with
                     | None => warning (warn_couldnt_read_registers human_name name)
                     | Some contents => supply (supply_regset rs (-1) contents size)
                     end)
       end) s).
  { unfold get_core_register_section, bind, gets. cbn. rewrite Hb. reflexivity. }
  rewrite Hrun. clear Hrun.
  destruct (bfd_get_section_by_name abfd (thread_section_name name s))
    as [section |] eqn:Hsec.
  - apply bfd_get_section_by_name_In in Hsec. destruct Hsec as [Hin _].
    cbv zeta.
    destruct (wrap_u64 (bfd_section_size section) <? wrap_u64 min_size).
    + exact (adds_ok_warning abfd (warn_section_too_small _) I s Hb).
    + refine (adds_ok_bind abfd _ _ _ _ s Hb).
      * destruct (negb (wrap_u64 (bfd_section_size section) =? wrap_u64 min_size));
          [| apply adds_ok_ret].
        destruct (Z.land (regset_flags rs) REGSET_VARIABLE_SIZE =? 0);
          [apply adds_ok_warning; exact I | apply adds_ok_ret].
      * intros _.
        destruct (bfd_get_section_contents section 0
                    (wrap_u64 (bfd_section_size section))) as [contents |] eqn:Hread;
          [| apply adds_ok_warning; exact I].
        apply adds_ok_supply. exists section.
        split; [exact Hin | split; [reflexivity | exact Hread]].
  - destruct required;
      [ exact (adds_ok_warning abfd (warn_couldnt_find_registers _) I s Hb)
      | exact (adds_ok_ret abfd tt s Hb) ].
Qed.

Lemma adds_ok_for_each (abfd : bfd) (l : list core_regset_section) :
  (forall sect, In sect l -> crs_regset sect <> None) ->
  adds_ok abfd (for_each get_core_registers_cb l).
Proof.
  induction l as [| sect l IH]; intros Hall; cbn [for_each].
  - apply adds_ok_ret.
  - apply adds_ok_bind.
    + unfold get_core_registers_cb.
      destruct (crs_regset sect) as [rs |] eqn:Hrs.
      * apply adds_ok_get_core_register_section.
      * exfalso. exact (Hall sect (or_introl eq_refl) Hrs).
    + intros _. apply IH. intros sect' Hin. apply Hall. right. exact Hin.
Qed.

(** X11 — With a container open, fetching the registers never raises a
    gdb error, and whether it runs to its end or faults on the way, as
    the legacy path does on a section of unexpected size, all it has
    done to the state is to add to the messages, and nothing but
    messages of the register reader, and to the register cache, every
    set of registers supplied being a whole section of the open
    container with the size of that section.  On a core target whose
    architecture has a register-set iterator and lists every section
    with a register set, it does run to its end: a missing, short,
    oversized or unreadable section only produces a warning, and the
    last thing added to the register cache is the marking of the
    registers not found as unavailable. *)
Theorem get_core_registers_only_adds (abfd : bfd) (s : gdb_state) :
  core_bfd s = Some abfd ->
  ((forall e, fst (get_core_registers s) <> Throw e)
   /\ exists rc ms,
       Forall (whole_section abfd) rc
       /\ Forall register_message ms
       /\ snd (get_core_registers s)
          = set_regcache (regcache s ++ rc) (set_messages (messages s ++ ms) s))
  /\ (forall cops g,
         get_core_target_ops s = Some cops ->
         core_gdbarch cops = Some g ->
         gdbarch_iterate_over_regset_sections_p g = true ->
         (forall sect, In sect (gdbarch_iterate_over_regset_sections g) ->
                       crs_regset sect <> None) ->
         exists rc ms,
           Forall (whole_section abfd) rc
           /\ Forall register_message ms
           /\ get_core_registers s
              = (Ok tt,
                 set_regcache (regcache s ++ rc ++ [supply_unavailable])
                              (set_messages (messages s ++ ms) s))).
Proof.
  intros Hb. split; [exact (only_adds_get_core_registers abfd s Hb) |].
  intros cops g Hcops Hg Hit Hall.
  destruct (adds_ok_for_each abfd _ Hall s Hb) as ([] & rc & ms & Hrc & Hms & Hrun).
  exists rc, ms. split; [exact Hrc |]. split; [exact Hms |].
  unfold get_core_registers. unfold bind at 1, gets at 1. rewrite Hcops.
  unfold gdbarch_has_regset_iterator. rewrite Hg, Hit. cbn [negb andb].
  unfold bind. rewrite Hrun.
  destruct s; cbn. rewrite ?app_assoc, ?app_nil_r. reflexivity.
Qed.

Lemma get_core_registers_only_adds_witness :
  exists rc ms,
    Forall (whole_section two_thread_core) rc
    /\ Forall register_message ms
    /\ get_core_registers (session_on two_thread_core None)
       = (Ok tt,
          set_regcache (rc ++ [supply_unavailable])
                       (set_messages ms (session_on two_thread_core None))).
Proof.
  refine (proj2 (get_core_registers_only_adds two_thread_core
                   (session_on two_thread_core None) eq_refl)
                _ regset_arch eq_refl eq_refl eq_refl _).
  intros sect [<- | []]. discriminate.
Defined.
(* ------------------------------------------------------------------ *)
(** ** The register sections of a thread *)

(** X12 — The registers of a thread are read from the section that
    announced it.  With the thread of a section named [.reg/<n>]
    current, [n] a non-zero number as [printf] writes it, a read of
    [.reg] looks up that very section; when the section has the expected
    size and can be read, its whole contents are supplied without any
    message.  The thread of a section whose tail gives the number 0 (no
    number at all, for one) has its registers looked up under the plain
    name. *)
Theorem thread_registers_from_own_section
        (abfd : bfd) (a : asection) (s : gdb_state) :
  core_bfd s = Some abfd ->
  inferior_ptid s = thread_of_section abfd a ->
  (forall n, - 2 ^ 31 <= n < 2 ^ 31 -> n <> 0 ->
             sec_name a = (".reg/" ++ format_ld n)%string ->
             thread_section_name ".reg" s = sec_name a
             /\ forall rs min_size which human_name required contents,
                 bfd_get_section_by_name abfd (sec_name a) = Some a ->
                 wrap_u64 (bfd_section_size a) = wrap_u64 min_size ->
                 bfd_get_section_contents a 0 (wrap_u64 (bfd_section_size a))
                 = Some contents ->
                 get_core_register_section (Some rs) ".reg" min_size which
                                           human_name required s
                 = (Ok tt,
                    set_regcache
                      (regcache s
                       ++ [supply_regset rs (-1) contents
                                         (wrap_u64 (bfd_section_size a))]) s))
  /\ (atoi (string_drop 5 (sec_name a)) = 0 ->
      forall name, thread_section_name name s = name).
Proof.
  intros Hb Hptid. split.
  - intros n Hn Hnz Hname.
    assert (Hsection : thread_section_name ".reg" s = sec_name a).
    { unfold thread_section_name. rewrite Hptid. unfold thread_of_section.
      cbn [ptid_get_lwp ptid_build]. rewrite Hname. cbn [append string_drop].
      rewrite (atoi_format_ld n Hn).
      apply Z.eqb_neq in Hnz. rewrite Hnz. reflexivity. }
    split; [exact Hsection |].
    intros rs min_size which human_name required contents Hfind Hsize Hread.
    unfold get_core_register_section, bind, gets. cbn.
    rewrite Hb, Hsection, Hfind, Hsize.
    rewrite Z.ltb_irrefl, Z.eqb_refl. cbn.
    rewrite <- Hsize, Hread.
    destruct s; reflexivity.
  - intros Hzero name. unfold thread_section_name.
    rewrite Hptid. unfold thread_of_section.
    cbn [ptid_get_lwp ptid_build]. rewrite Hzero. reflexivity.
Qed.

Lemma thread_registers_from_own_section_witness :
  let s := set_inferior_ptid (ptid_build 1 18 0) (session_on two_thread_core None) in
  get_core_register_section (Some gp_regset) ".reg" 4 (-1) "general-purpose" true s
  = (Ok tt, set_regcache [supply_regset gp_regset (-1) [0; 0; 0; 0] 4] s).
Proof.
  cbv zeta.
  exact (proj2 (proj1 (thread_registers_from_own_section
                         two_thread_core (note_section ".reg/18" 100 4)
                         (set_inferior_ptid (ptid_build 1 18 0)
                                            (session_on two_thread_core None))
                         eq_refl eq_refl)
                      18 ltac:(lia) ltac:(lia) eq_refl)
               gp_regset 4 (-1) "general-purpose"%string true [0; 0; 0; 0]
               eq_refl eq_refl eq_refl).
Defined.

(** A section the container lacks for the current thread: reported if
    it is [.reg], passed over otherwise. *)
Lemma get_core_registers_cb_missing (sect : core_regset_section) (s : gdb_state)
      (abfd : bfd) :
  core_bfd s = Some abfd ->
  bfd_get_section_by_name abfd (thread_section_name (crs_sect_name sect) s) = None ->
  get_core_registers_cb sect s
  = (Ok tt, set_messages (messages s ++ missing_register_warning sect) s).
Proof.
  intros Hb Hmissing.
  unfold get_core_registers_cb, get_core_register_section, bind, gets. cbn.
  rewrite Hb, Hmissing. unfold missing_register_warning.
  destruct (String.eqb (crs_sect_name sect) ".reg").
  - destruct (crs_human_name sect); reflexivity.
  - rewrite app_nil_r. destruct s; reflexivity.
Qed.

Lemma for_each_missing (abfd : bfd) (l : list core_regset_section) :
  forall s,
    core_bfd s = Some abfd ->
    (forall sect, In sect l ->
                  bfd_get_section_by_name
                    abfd (thread_section_name (crs_sect_name sect) s) = None) ->
    for_each get_core_registers_cb l s
    = (Ok tt, set_messages (messages s ++ missing_register_warnings l) s).
Proof.
  induction l as [| sect l IH]; intros s Hb Hall.
  - cbn. rewrite app_nil_r. destruct s; reflexivity.
  - cbn [for_each]. unfold bind.
    rewrite (get_core_registers_cb_missing sect s abfd Hb (Hall sect (or_introl eq_refl))).
    rewrite IH.
    + unfold missing_register_warnings. cbn [flat_map].
      destruct s; cbn. rewrite <- app_assoc. reflexivity.
    + destruct s; exact Hb.
    + intros sect' Hin. rewrite <- (Hall sect' (or_intror Hin)).
      destruct s; reflexivity.
Qed.

(** X13 — Of the register sections an architecture lists, only a
    missing [.reg] is reported, under the human name the architecture
    gives or else as "general-purpose"; any other section that the
    container lacks for the current thread is passed over without a
    word.  So when the container has none of the listed sections for the
    current thread, fetching the registers supplies nothing, marks the
    registers unavailable, and the messages grow by one warning for each
    listed [.reg]. *)
Theorem get_core_registers_missing_sections
        (s : gdb_state) (abfd : bfd) (cops : core_target_ops_with_data) (g : gdbarch) :
  core_bfd s = Some abfd ->
  get_core_target_ops s = Some cops ->
  core_gdbarch cops = Some g ->
  gdbarch_iterate_over_regset_sections_p g = true ->
  (forall sect, In sect (gdbarch_iterate_over_regset_sections g) ->
                bfd_get_section_by_name
                  abfd (thread_section_name (crs_sect_name sect) s) = None) ->
  get_core_registers s
  = (Ok tt,
     set_regcache (regcache s ++ [supply_unavailable])
       (set_messages
          (messages s
           ++ missing_register_warnings (gdbarch_iterate_over_regset_sections g)) s)).
Proof.
  intros Hb Hcops Hg Hit Hall.
  unfold get_core_registers. unfold bind at 1, gets at 1. rewrite Hcops.
  unfold gdbarch_has_regset_iterator. rewrite Hg, Hit. cbn [negb andb].
  unfold bind. rewrite (for_each_missing abfd _ s Hb Hall).
  destruct s; reflexivity.
Qed.

Lemma get_core_registers_missing_sections_witness :
  get_core_registers (session_on odd_thread_core None)
  = (Ok tt,
     set_regcache [supply_unavailable]
       (set_messages [warn_couldnt_find_registers "general-purpose"]
                     (session_on odd_thread_core None))).
Proof.
  refine (get_core_registers_missing_sections
            (session_on odd_thread_core None) odd_thread_core _ regset_arch
            eq_refl eq_refl eq_refl eq_refl _).
  intros sect [<- | []]. reflexivity.
Defined.
(* ------------------------------------------------------------------ *)
(** ** The router: objects that are one section *)

Lemma xfer_section_run (cbfd : bfd) (name : string) (complaint : message)
      (rb : list Z) (offset len : Z) (s : gdb_state) :
  0 <= len <= Z.of_nat (List.length rb) ->
  xfer_section cbfd name complaint rb offset len s
  = match bfd_get_section_by_name cbfd name with
    | None => (Ok (xfer_done TARGET_XFER_E_IO (Some rb)), s)
    | Some section =>
        let size := wrap_u64 (bfd_section_size section) in
        let n := Z.min len (size - offset) in
        if (size <=? offset) || (len =? 0)
        then (Ok (xfer_done TARGET_XFER_EOF (Some rb)), s)
        else match bfd_get_section_contents section offset n with
             | Some data => (Ok (xfer_ok n (data ++ skipn (Z.to_nat n) rb)), s)
             | None => (Ok (xfer_done TARGET_XFER_E_IO (Some rb)), said complaint s)
             end
    end.
Proof.
  intros Hlen. unfold xfer_section.
  destruct (bfd_get_section_by_name cbfd name) as [section |]; [| reflexivity].
  cbv zeta.
  set (size := wrap_u64 (bfd_section_size section)).
  destruct (size <=? offset) eqn:Hend; [reflexivity |].
  apply Z.leb_gt in Hend. cbn [orb].
  assert (Hmin : (if len <? size - offset then len else size - offset)
                 = Z.min len (size - offset)).
  { destruct (len <? size - offset) eqn:Hlt.
    - apply Z.ltb_lt in Hlt. lia.
    - apply Z.ltb_ge in Hlt. lia. }
  rewrite Hmin.
  assert (Hzero : (Z.min len (size - offset) =? 0) = (len =? 0)).
  { destruct (len =? 0) eqn:Hl.
    - apply Z.eqb_eq in Hl. apply Z.eqb_eq. lia.
    - apply Z.eqb_neq in Hl. apply Z.eqb_neq. lia. }
  rewrite Hzero.
  destruct (len =? 0); [reflexivity |].
  destruct (bfd_get_section_contents section offset (Z.min len (size - offset)))
    as [data |] eqn:Hread; [| reflexivity].
  destruct (bfd_get_section_contents_exact _ _ _ _ Hread)
    as (c & _ & _ & _ & _ & _ & Hdata).
  rewrite store_bytes_prefix by (rewrite Hdata; lia).
  rewrite Hdata. reflexivity.
Qed.

(** X14 — A read of the auxiliary vector, of the StackGhost cookie or of
    an SPU context is served from one section of the container, [.auxv],
    [.wcookie] or [SPU/<annex>].  Without that section the answer is an
    I/O error; at or past the end of the section, or for no bytes asked,
    it is end of file; otherwise the request is clipped to the section:
    the bytes of the section from [offset] on, as many as asked for and
    the section has, arrive at the head of the buffer and their number
    is reported.  Only a read that the container fails produces a
    warning, and nothing else of the state changes. *)
Theorem core_xfer_partial_named_section
        (beneath : beneath_xfer) (object : target_object) (annex : option string)
        (name : string) (rb : list Z) (writebuf : option (list Z))
        (offset len : Z) (s : gdb_state) (cbfd : bfd) :
  core_bfd s = Some cbfd ->
  xfer_section_name object annex = Some name ->
  (String.length name < 100)%nat ->
  0 <= len <= Z.of_nat (List.length rb) ->
  core_xfer_partial beneath object annex (Some rb) writebuf offset len s
  = match bfd_get_section_by_name cbfd name with
    | None => (Ok (xfer_done TARGET_XFER_E_IO (Some rb)), s)
    | Some section =>
        let size := wrap_u64 (bfd_section_size section) in
        let n := Z.min len (size - offset) in
        if (size <=? offset) || (len =? 0)
        then (Ok (xfer_done TARGET_XFER_EOF (Some rb)), s)
        else match bfd_get_section_contents section offset n with
             | Some data => (Ok (xfer_ok n (data ++ skipn (Z.to_nat n) rb)), s)
             | None => (Ok (xfer_done TARGET_XFER_E_IO (Some rb)),
                        said (xfer_complaint object) s)
             end
    end.
Proof.
  intros Hb Hname Hshort Hlen.
  rewrite <- (xfer_section_run cbfd name (xfer_complaint object) rb offset len s Hlen).
  unfold core_xfer_partial, bind, gets. cbn [fst snd].
  destruct object; try discriminate Hname.
  - injection Hname as <-. unfold with_core_bfd, bind, gets. rewrite Hb. reflexivity.
  - injection Hname as <-. unfold with_core_bfd, bind, gets. rewrite Hb. reflexivity.
  - destruct annex as [annex |]; [| discriminate Hname].
    assert (Hn : name = ("SPU/" ++ annex)%string)
      by (injection Hname as <-; reflexivity).
    subst name. clear Hname. unfold core_xfer_spu. cbv zeta.
    replace (100 <=? String.length ("SPU/" ++ annex)%string)%nat with false
      by (symmetry; apply Nat.leb_gt; exact Hshort).
    unfold with_core_bfd, bind, gets. rewrite Hb. reflexivity.
Qed.

Lemma core_xfer_partial_named_section_witness :
  core_xfer_partial no_beneath TARGET_OBJECT_AUXV None (Some [0; 0; 0; 0; 0; 0; 0; 0])
                    None 4 8 (session_on auxv_core None)
  = (Ok (xfer_ok 2 [25; 26; 0; 0; 0; 0; 0; 0]), session_on auxv_core None).
Proof.
  exact (core_xfer_partial_named_section
           no_beneath TARGET_OBJECT_AUXV None ".auxv" [0; 0; 0; 0; 0; 0; 0; 0] None
           4 8 (session_on auxv_core None) auxv_core
           eq_refl eq_refl ltac:(cbn; lia) ltac:(cbn; lia)).
Defined.
(* ------------------------------------------------------------------ *)
(** ** The router: what an answer can be *)

Lemma xfer_section_transfers (cbfd : bfd) (name : string) (complaint : message)
      (rb : list Z) (offset len : Z) (s s' : gdb_state) (r : xfer_result) :
  0 <= len ->
  xfer_section cbfd name complaint rb offset len s = (Ok r, s') ->
  xfer_status r = TARGET_XFER_OK ->
  exists n, xfered_len r = Some n /\ 0 < n <= len.
Proof.
  intros Hlen Hrun Hok. unfold xfer_section in Hrun.
  destruct (bfd_get_section_by_name cbfd name) as [section |].
  2: { injection Hrun as <- _. discriminate Hok. }
  cbv zeta in Hrun.
  set (size := wrap_u64 (bfd_section_size section)) in *.
  destruct (size <=? offset) eqn:Hend.
  { injection Hrun as <- _. discriminate Hok. }
  apply Z.leb_gt in Hend.
  set (n := if len <? size - offset then len else size - offset) in *.
  assert (Hn : 0 <= n <= len).
  { unfold n. destruct (len <? size - offset) eqn:Hlt.
    - lia.
    - apply Z.ltb_ge in Hlt. lia. }
  destruct (n =? 0) eqn:Hzero.
  { injection Hrun as <- _. discriminate Hok. }
  apply Z.eqb_neq in Hzero.
  destruct (bfd_get_section_contents section offset n) as [data |].
  - destruct (store_bytes rb 0 data) as [b |]; [| discriminate Hrun].
    injection Hrun as <- _. exists n. split; [reflexivity | lia].
  - cbn in Hrun. injection Hrun as <- _. discriminate Hok.
Qed.

Lemma add_to_spuid_list_written (abfd : bfd) (asect : asection)
      (list list' : spuid_list) :
  add_to_spuid_list abfd asect list = Some list' ->
  0 <= written list -> 0 <= written list'.
Proof.
  unfold add_to_spuid_list. intros Hrun Hpos.
  destruct (sscanf_spu_regs (sec_name asect)) as [fd |].
  - destruct ((sl_offset list <=? pos list)
              && (wrap_u64 (pos list + 4) <=? wrap_u64 (sl_offset list + sl_len list))).
    + destruct (store_bytes (buf list) (pos list - sl_offset list)
                            (store_unsigned_integer_4 (bfd_big_endian abfd) fd));
        [| discriminate Hrun].
      injection Hrun as <-. cbn [written]. unfold wrap_u64.
      apply Z.mod_pos_bound. lia.
    + injection Hrun as <-. exact Hpos.
  - injection Hrun as <-. exact Hpos.
Qed.

Lemma map_spuid_list_written (abfd : bfd) (sections : list asection) :
  forall list list',
    map_spuid_list abfd sections list = Some list' ->
    0 <= written list -> 0 <= written list'.
Proof.
  induction sections as [| a sections IH]; intros list list' Hrun Hpos.
  - injection Hrun as <-. exact Hpos.
  - cbn [map_spuid_list] in Hrun.
    destruct (add_to_spuid_list abfd a list) as [list1 |] eqn:Hstep;
      [| discriminate Hrun].
    apply (IH list1 list' Hrun).
    exact (add_to_spuid_list_written abfd a list list1 Hstep Hpos).
Qed.

Lemma core_xfer_spu_transfers (annex : option string) (readbuf writebuf : option (list Z))
      (offset len : Z) (s s' : gdb_state) (r : xfer_result) :
  0 <= len ->
  core_xfer_spu annex readbuf writebuf offset len s = (Ok r, s') ->
  xfer_status r = TARGET_XFER_OK ->
  exists n, xfered_len r = Some n /\ 0 < n.
Proof.
  intros Hlen Hrun Hok. unfold core_xfer_spu in Hrun.
  destruct readbuf as [rb |].
  2: { destruct annex; injection Hrun as <- _; discriminate Hok. }
  destruct annex as [annex |].
  - cbv zeta in Hrun.
    destruct (100 <=? String.length ("SPU/" ++ annex)%string)%nat; [discriminate Hrun |].
    unfold with_core_bfd, bind, gets in Hrun.
    destruct (core_bfd s) as [cbfd |]; [| discriminate Hrun].
    destruct (xfer_section_transfers _ _ _ _ _ _ _ _ _ Hlen Hrun Hok) as (n & Hn & Hpos).
    exists n. split; [exact Hn | lia].
  - unfold with_core_bfd, bind, gets in Hrun.
    destruct (core_bfd s) as [cbfd |]; [| discriminate Hrun].
    cbv zeta in Hrun.
    destruct (map_spuid_list cbfd (bfd_sections cbfd)
                {| buf := rb; sl_offset := offset; sl_len := wrap_s64 len;
                   pos := 0; written := 0 |}) as [list |] eqn:Hwalk;
      [| discriminate Hrun].
    pose proof (map_spuid_list_written _ _ _ _ Hwalk (Z.le_refl 0)) as Hpos.
    destruct (written list =? 0) eqn:Hzero.
    + injection Hrun as <- _. discriminate Hok.
    + apply Z.eqb_neq in Hzero. injection Hrun as <- _.
      exists (written list). split; [reflexivity | lia].
Qed.

Lemma core_xfer_extractor_transfers (extract : Z -> Z -> list Z)
      (readbuf writebuf : option (list Z)) (offset len : Z)
      (s s' : gdb_state) (r : xfer_result) :
  core_xfer_extractor extract readbuf writebuf offset len s = (Ok r, s') ->
  xfer_status r = TARGET_XFER_OK ->
  exists n, xfered_len r = Some n /\ 0 < n.
Proof.
  intros Hrun Hok. unfold core_xfer_extractor in Hrun.
  destruct writebuf.
  { injection Hrun as <- _. discriminate Hok. }
  cbv zeta in Hrun.
  set (n := Z.of_nat (List.length (extract offset len))) in *.
  assert (Hn : 0 <= n) by (unfold n; lia).
  assert (Hcase : forall rb' : option (list Z),
             xfer_status {| xfer_status := if n =? 0 then TARGET_XFER_EOF
                                           else TARGET_XFER_OK;
                            xfered_len := Some n; xfer_readbuf := rb' |}
             = TARGET_XFER_OK ->
             exists m, Some n = Some m /\ 0 < m).
  { intros rb' H. cbn in H. destruct (n =? 0) eqn:Hzero; [discriminate H |].
    apply Z.eqb_neq in Hzero. exists n. split; [reflexivity | lia]. }
  destruct readbuf as [rb |].
  - destruct (store_bytes rb 0 (extract offset len)) as [b |]; [| discriminate Hrun].
    injection Hrun as <- _. exact (Hcase _ Hok).
  - injection Hrun as <- _. exact (Hcase _ Hok).
Qed.

(** X15 — For the objects the core target answers itself from the
    container or through the architecture (the auxiliary vector, the
    cookie, the two library lists, SPU and signal information),
    [core_xfer_partial] never reports success with nothing transferred:
    whenever the status is OK, the transferred length has been assigned
    and is positive. *)
Theorem core_xfer_partial_ok_transfers
        (beneath : beneath_xfer) (object : target_object) (annex : option string)
        (readbuf writebuf : option (list Z)) (offset len : Z)
        (s s' : gdb_state) (r : xfer_result) :
  answered_from_core object = true ->
  0 <= len < 2 ^ 64 ->
  core_xfer_partial beneath object annex readbuf writebuf offset len s = (Ok r, s') ->
  xfer_status r = TARGET_XFER_OK ->
  exists n, xfered_len r = Some n /\ 0 < n.
Proof.
  intros Hobj Hlen Hrun Hok.
  assert (Hlen0 : 0 <= len) by lia.
  unfold core_xfer_partial, bind, gets in Hrun. cbn [fst snd] in Hrun.
  assert (Hsection : forall name complaint,
             match readbuf with
             | Some rb => with_core_bfd (fun cbfd =>
                            xfer_section cbfd name complaint rb offset len)
             | None => ret (xfer_done TARGET_XFER_E_IO readbuf)
             end s = (Ok r, s') ->
             exists n, xfered_len r = Some n /\ 0 < n).
  { intros name complaint H. destruct readbuf as [rb |].
    - unfold with_core_bfd, bind, gets in H.
      destruct (core_bfd s) as [cbfd |]; [| discriminate H].
      destruct (xfer_section_transfers _ _ _ _ _ _ _ _ _ Hlen0 H Hok) as (n & Hn & Hpos).
      exists n. split; [exact Hn | lia].
    - injection H as <- _. discriminate Hok. }
  assert (Haix : forall cops,
             core_xfer_libraries_aix cops annex readbuf writebuf offset len s = (Ok r, s') ->
             exists n, xfered_len r = Some n /\ 0 < n).
  { intros cops H. unfold core_xfer_libraries_aix in H.
    destruct (core_gdbarch cops) as [[gn gp gl [lib |] [aix |] gr] |];
      first [ exact (core_xfer_extractor_transfers _ _ _ _ _ _ _ _ H Hok)
            | exact (core_xfer_spu_transfers _ _ _ _ _ _ _ _ Hlen0 H Hok) ]. }
  destruct object; try discriminate Hobj.
  - exact (Hsection _ _ Hrun).
  - exact (Hsection _ _ Hrun).
  - destruct (get_core_target_ops s) as [cops |]; [| discriminate Hrun].
    unfold core_xfer_libraries in Hrun.
    destruct (core_gdbarch cops) as [[gn gp gl [lib |] aix gr] |] eqn:Hg;
      first [ exact (core_xfer_extractor_transfers _ _ _ _ _ _ _ _ Hrun Hok)
            | exact (Haix cops Hrun) ].
  - destruct (get_core_target_ops s) as [cops |]; [| discriminate Hrun].
    exact (Haix cops Hrun).
  - exact (core_xfer_spu_transfers _ _ _ _ _ _ _ _ Hlen0 Hrun Hok).
  - destruct readbuf as [rb |].
    2: { injection Hrun as <- _. discriminate Hok. }
    unfold with_core_bfd, bind, gets in Hrun.
    destruct (core_bfd s) as [cbfd |]; [| discriminate Hrun].
    destruct (get_core_siginfo cbfd rb offset len s) as [[[l b] | e |] s1] eqn:Hsig;
      try discriminate Hrun.
    assert (Hl' : l = -1 \/ l = wrap_s64 len).
    { unfold get_core_siginfo, bind, gets in Hsig. cbn [fst snd] in Hsig.
      destruct (bfd_get_section_by_name cbfd (siginfo_section_name s)) as [section |].
      - destruct (bfd_get_section_contents section offset len) as [data |].
        + destruct (store_bytes rb 0 data); [| discriminate Hsig].
          injection Hsig as <- _ _. right. reflexivity.
        + injection Hsig as <- _ _. left. reflexivity.
      - injection Hsig as <- _ _. left. reflexivity. }
    destruct (0 <? l) eqn:Hl.
    + injection Hrun as <- _. exists len. split; [reflexivity |].
      apply Z.ltb_lt in Hl.
      destruct Hl' as [-> | ->]; [lia |].
      destruct (Z.eq_dec len 0) as [-> | Hne]; [| lia].
      exfalso. revert Hl. vm_compute. discriminate.
    + injection Hrun as <- _. discriminate Hok.
Qed.
Lemma core_xfer_partial_ok_transfers_witness :
  exists n, xfered_len (xfer_ok 2 [25; 26; 0; 0; 0; 0; 0; 0]) = Some n /\ 0 < n.
Proof.
  exact (core_xfer_partial_ok_transfers
           no_beneath TARGET_OBJECT_AUXV None (Some [0; 0; 0; 0; 0; 0; 0; 0]) None 4 8
           (session_on auxv_core None) (session_on auxv_core None)
           (xfer_ok 2 [25; 26; 0; 0; 0; 0; 0; 0])
           eq_refl ltac:(lia) eq_refl eq_refl).
Defined.

(** X16 — A request for the library list of an architecture that has no
    extractor for it is not passed to the target beneath: the code falls
    through to the SPU case.  Without an AIX extractor, [LibrariesAix]
    is answered as [Spu] is, whatever the target beneath would say; and
    without either extractor so is [Libraries]. *)
Theorem core_xfer_partial_libraries_fall_through
        (beneath beneath' : beneath_xfer) (annex : option string)
        (readbuf writebuf : option (list Z)) (offset len : Z)
        (s : gdb_state) (cops : core_target_ops_with_data) :
  get_core_target_ops s = Some cops ->
  (forall g, core_gdbarch cops = Some g ->
             gdbarch_core_xfer_shared_libraries_aix g = None) ->
  core_xfer_partial beneath TARGET_OBJECT_LIBRARIES_AIX annex readbuf writebuf offset len s
  = core_xfer_partial beneath' TARGET_OBJECT_SPU annex readbuf writebuf offset len s
  /\ ((forall g, core_gdbarch cops = Some g ->
                 gdbarch_core_xfer_shared_libraries g = None) ->
      core_xfer_partial beneath TARGET_OBJECT_LIBRARIES annex readbuf writebuf offset len s
      = core_xfer_partial beneath' TARGET_OBJECT_SPU annex readbuf writebuf offset len s).
Proof.
  intros Hcops Haix.
  assert (Hfall : core_xfer_libraries_aix cops annex readbuf writebuf offset len
                  = core_xfer_spu annex readbuf writebuf offset len).
  { unfold core_xfer_libraries_aix.
    destruct (core_gdbarch cops) as [g |]; [| reflexivity].
    specialize (Haix g eq_refl).
    destruct g as [gn gp gl lib aix gr]. cbn in Haix. subst aix. reflexivity. }
  split.
  - unfold core_xfer_partial, bind, gets. cbn [fst snd].
    rewrite Hcops, Hfall. reflexivity.
  - intros Hlib.
    unfold core_xfer_partial, bind, gets. cbn [fst snd].
    rewrite Hcops. unfold core_xfer_libraries.
    destruct (core_gdbarch cops) as [g |] eqn:Hg.
    + specialize (Hlib g eq_refl).
      destruct g as [gn gp gl lib aix gr]. cbn in Hlib. subst lib.
      rewrite Hfall. reflexivity.
    + rewrite Hfall. reflexivity.
Qed.

Lemma core_xfer_partial_libraries_fall_through_witness :
  core_xfer_partial no_beneath TARGET_OBJECT_LIBRARIES None
                    (Some [0; 0; 0; 0; 0; 0; 0; 0]) None 0 8 (session_on spu_core None)
  = (Ok (xfer_ok 8 [0; 0; 0; 7; 0; 0; 0; 3]), session_on spu_core None).
Proof.
  refine (eq_trans
            (proj2 (core_xfer_partial_libraries_fall_through
                      no_beneath no_beneath None (Some [0; 0; 0; 0; 0; 0; 0; 0]) None 0 8
                      (session_on spu_core None) _ eq_refl _) _) _).
  - intros g Hg. injection Hg as <-. reflexivity.
  - intros g Hg. injection Hg as <-. reflexivity.
  - vm_compute. reflexivity.
Defined.

(* ------------------------------------------------------------------ *)
(** ** The names of SPU contexts *)

Lemma decimal_digits_app (fuel : nat) :
  forall (n : Z) (acc rest : string),
    (decimal_digits fuel n acc ++ rest)%string = decimal_digits fuel n (acc ++ rest)%string.
Proof.
  induction fuel as [| fuel IH]; intros n acc rest; [reflexivity |].
  cbn [decimal_digits].
  destruct (n <? 10); [reflexivity |].
  rewrite IH. reflexivity.
Qed.

Lemma scan_digits_stop (rest : string) (acc : Z) :
  no_digit_ahead rest = true -> scan_digits rest acc = (acc, rest).
Proof.
  destruct rest as [| c r]; [reflexivity |].
  cbn [no_digit_ahead scan_digits]. intros H.
  apply negb_true_iff in H. rewrite H. reflexivity.
Qed.

(** [strtol] reads back what [printf ("%ld")] wrote and stops there. *)
Lemma strtol10_format_ld (n : Z) (rest : string) :
  - 2 ^ 63 <= n < 2 ^ 63 ->
  no_digit_ahead rest = true ->
  strtol10 (format_ld n ++ rest) = Some (n, rest).
Proof.
  intros Hn Hrest.
  assert (Hpow : 10 ^ Z.of_nat 20 = 100000000000000000000) by reflexivity.
  unfold format_ld.
  destruct (n <? 0) eqn:Hneg.
  - apply Z.ltb_lt in Hneg.
    change (String "-" (decimal_digits 20 (- n) "") ++ rest)%string
      with (String "-" (decimal_digits 20 (- n) "" ++ rest))%string.
    rewrite decimal_digits_app. cbn [append].
    destruct (decimal_digits_head 20 (- n) rest) as (c & r & Hstr & Hc);
      [left; discriminate |].
    rewrite Hstr, (strtol10_minus_digits c r Hc), <- Hstr.
    rewrite scan_digits_decimal by lia.
    rewrite (scan_digits_stop rest (- n) Hrest). cbn [fst snd].
    rewrite Z.opp_involutive. unfold clamp_long. f_equal. f_equal. lia.
  - apply Z.ltb_ge in Hneg.
    rewrite decimal_digits_app. cbn [append].
    destruct (decimal_digits_head 20 n rest) as (c & r & Hstr & Hc);
      [left; discriminate |].
    rewrite Hstr, (strtol10_digits c r Hc), <- Hstr.
    rewrite scan_digits_decimal by lia.
    rewrite (scan_digits_stop rest n Hrest). cbn [fst snd].
    unfold clamp_long. f_equal. f_equal. lia.
Qed.

Lemma expect_prefix_app (lit s : string) : expect_prefix lit (lit ++ s) = Some s.
Proof.
  unfold expect_prefix.
  assert (Hp : String.prefix lit (lit ++ s) = true).
  { induction lit as [| a l IH]; cbn [append String.prefix].
    - destruct s; reflexivity.
    - destruct (ascii_dec a a) as [_ | Hne]; [exact IH | contradiction]. }
  rewrite Hp. f_equal.
  induction lit as [| a l IH]; [reflexivity |].
  cbn [append String.length string_drop]. apply IH.
  clear - Hp. cbn [append String.prefix] in Hp.
  destruct (ascii_dec a a); [exact Hp | discriminate Hp].
Qed.

(** X17 — The name of an SPU context round-trips.  [add_to_spuid_list]
    reads the id [n] out of a section name that goes [SPU/<n>/regs],
    [<n>] as [printf] writes it, whatever follows; a name that goes on
    differently after the number gives no id.  So a section named
    [SPU/<n>/regs] has its id in the list of ids, and the read of the
    SPU object with the annex [<n>/regs] finds a section of that very
    name. *)
Theorem spu_context_name_round_trip (n : Z) :
  - 2 ^ 31 <= n < 2 ^ 31 ->
  (forall tail, sscanf_spu_regs ("SPU/" ++ format_ld n ++ "/regs" ++ tail) = Some n)
  /\ (forall rest, no_digit_ahead rest = true ->
                   String.prefix "/regs" rest = false ->
                   sscanf_spu_regs ("SPU/" ++ format_ld n ++ rest) = None)
  /\ (forall abfd a,
         In a (bfd_sections abfd) ->
         sec_name a = ("SPU/" ++ format_ld n ++ "/regs")%string ->
         In n (spu_ids abfd)
         /\ exists a', bfd_get_section_by_name
                         abfd ("SPU/" ++ (format_ld n ++ "/regs"))%string = Some a'
                       /\ sec_name a' = sec_name a).
Proof.
  intros Hn.
  assert (Hscan : forall rest, no_digit_ahead rest = true ->
                               sscanf_spu_regs ("SPU/" ++ format_ld n ++ rest)
                               = match expect_prefix "/regs" rest with
                                 | Some _ => Some n
                                 | None => None
                                 end).
  { intros rest Hrest. unfold sscanf_spu_regs.
    rewrite expect_prefix_app.
    rewrite strtol10_format_ld by (try exact Hrest; lia).
    rewrite wrap_int_small by exact Hn. reflexivity. }
  assert (Hregs : forall tail,
             sscanf_spu_regs ("SPU/" ++ format_ld n ++ "/regs" ++ tail) = Some n).
  { intros tail. rewrite Hscan by reflexivity.
    rewrite expect_prefix_app. reflexivity. }
  split; [exact Hregs |]. split.
  - intros rest Hrest Hother. rewrite Hscan by exact Hrest.
    unfold expect_prefix. rewrite Hother. reflexivity.
  - intros abfd a Hin Hname. split.
    + unfold spu_ids, spu_ids_of. apply in_flat_map. exists a.
      split; [exact Hin |].
      rewrite Hname.
      replace ("SPU/" ++ format_ld n ++ "/regs")%string
        with ("SPU/" ++ format_ld n ++ "/regs" ++ "")%string.
      * rewrite Hregs. left. reflexivity.
      * f_equal.
    + unfold bfd_get_section_by_name.
      destruct (find (fun s0 => String.eqb (sec_name s0)
                                  ("SPU/" ++ (format_ld n ++ "/regs"))%string)
                     (bfd_sections abfd)) as [a' |] eqn:Hfind.
      * exists a'. split; [reflexivity |].
        apply find_some in Hfind. destruct Hfind as [_ Heq].
        apply String.eqb_eq in Heq. rewrite Heq, Hname. reflexivity.
      * exfalso.
        pose proof (find_none _ _ Hfind a Hin) as Hno. cbn beta in Hno.
        rewrite Hname, String.eqb_refl in Hno. discriminate Hno.
Qed.

Lemma spu_context_name_round_trip_witness :
  sscanf_spu_regs "SPU/7/regs" = Some 7
  /\ sscanf_spu_regs "SPU/7/mem" = None
  /\ In 7 (spu_ids spu_core).
Proof.
  destruct (spu_context_name_round_trip 7 ltac:(lia)) as (Hregs & Hother & Hlisted).
  split; [exact (Hregs ""%string) |].
  split; [exact (Hother "/mem"%string eq_refl eq_refl) |].
  exact (proj1 (Hlisted spu_core (spu_section "7") (or_introl eq_refl) eq_refl)).
Defined.
(* ------------------------------------------------------------------ *)
(** ** Opening a core over an open core *)



(* ------------------------------------------------------------------ *)
(** ** The registers a successful open fetches *)

(** Without an exception from [post_create_inferior], what is left of
    [core_open] prints the banner and fetches the registers. *)
Lemma core_open_report_run (rq : open_request) (temp_bfd : bfd) (y : gdb_state) :
  post_create_inferior_throws rq = false ->
  core_open_report rq temp_bfd y
  = get_core_registers (set_messages (messages y ++ core_banner temp_bfd) y).
Proof.
  intros Hth. unfold core_open_report, core_banner. rewrite Hth.
  unfold bind, ret, warning, exec.
  destruct y as [ts cb br al nc cc ci oi tl ip so eb tg rc ms].
  destruct (bfd_core_file_failing_command temp_bfd) as [p |];
    destruct (0 <? bfd_core_file_failing_signal temp_bfd);
    cbn; rewrite ?app_nil_r, <- ?app_assoc; reflexivity.
Qed.

(** X19 — After a successful open the register cache holds nothing of
    an earlier debug session: [registers_changed] drops what was cached
    before the thread list is built, and every set of registers that
    the fetch at the end of the open supplies is a whole section of the
    container just opened. *)
Theorem core_open_registers_fresh
        (core_file_fns : list core_fns) (rq : open_request) (s s' : gdb_state)
        (temp_bfd : bfd) :
  core_open core_file_fns rq s = (Ok tt, s') ->
  gdb_bfd_fopen rq = Some temp_bfd ->
  Forall (whole_section temp_bfd) (regcache s').
Proof.
  intros Hopen Hfopen.
  destruct (core_open_past_push _ _ _ _ _ Hopen (or_introl eq_refl))
    as (b & cops & ms & Hb & _ & Hd & _ & _ & Hs').
  rewrite Hfopen in Hb. injection Hb as <-.
  cbv zeta in Hs'. destruct Hs' as [Hok _].
  destruct (Hok eq_refl) as (Hrep & _). clear Hok.
  set (u := unpush_target_core_ops (gdb_bfd_ref temp_bfd s)) in *.
  set (x := pushed cops (List.length (cleanup_chain u))
              (adopt_core_gdbarch temp_bfd (installing temp_bfd cops ms u))) in *.
  assert (Hth : post_create_inferior_throws rq = false).
  { destruct (core_open_report_cases rq temp_bfd (snd (core_open_threads temp_bfd x)))
      as [[_ H] | [H _]]; [| exact H].
    rewrite Hrep in H. discriminate H. }
  rewrite (core_open_report_run _ _ _ Hth) in Hrep.
  destruct (pushed_state temp_bfd cops ms u _ Hd) as (_ & _ & _ & _ & _ & Hrc & _).
  destruct (pushed_fields temp_bfd cops ms (List.length (cleanup_chain u)) u)
    as (Hcb & _).
  cbv zeta in Hrc, Hcb. fold x in Hrc, Hcb.
  destruct (touches_threads_only_fields _ _ (core_open_threads_frame temp_bfd x))
    as (_ & Hcb' & _ & _ & _ & _ & _ & _ & Hrc' & _).
  rewrite Hcb in Hcb'. rewrite Hrc in Hrc'.
  revert Hrep Hcb' Hrc'.
  generalize (snd (core_open_threads temp_bfd x)). intros y Hrep Hcb' Hrc'.
  assert (Hy1 : core_bfd (set_messages (messages y ++ core_banner temp_bfd) y)
                = Some temp_bfd) by (destruct y; exact Hcb').
  destruct (only_adds_get_core_registers temp_bfd _ Hy1)
    as [_ (rc & after & Hwhole & _ & Hsnd)].
  rewrite Hrep in Hsnd. cbn [snd] in Hsnd. subst s'.
  destruct y as [ts cb br al nc cc ci oi tl ip so eb tg rc0 ms0].
  cbn in Hrc'. subst. cbn. exact Hwhole.
Qed.

Lemma core_open_registers_fresh_witness :
  regcache stale_registers = [supply_regset gp_regset (-1) [1; 2; 3; 4] 4]
  /\ Forall (whole_section two_thread_core)
            (regcache (snd (core_open [] (open_request_for two_thread_core)
                                      stale_registers))).
Proof.
  split; [reflexivity |].
  refine (core_open_registers_fresh [] (open_request_for two_thread_core)
                                    stale_registers _ two_thread_core _ eq_refl).
  vm_compute. reflexivity.
Defined.

(* ------------------------------------------------------------------ *)
(** ** The architecture of the session *)





(* ------------------------------------------------------------------ *)
(** ** The inferior of the core, and the sizes of register sections *)

(** X21 — The inferior a successful open leaves, started without a core
    session and with the current inferior without a process.  With
    sections whose names begin with [.reg/] the current inferior carries
    the process id of the container, or [CORELOW_PID] when the container
    reports none, and its fake-pid flag is set exactly in the latter
    case.  Without such sections it carries [CORELOW_PID] and its flag
    is left as it was.  The other inferiors are not touched. *)
Theorem core_open_inferior_of_core
        (core_file_fns : list core_fns) (rq : open_request) (s s' : gdb_state)
        (temp_bfd : bfd) :
  core_open core_file_fns rq s = (Ok tt, s') ->
  gdb_bfd_fopen rq = Some temp_bfd ->
  has_core_target (target_stack s) = false ->
  inf_pid (current_inferior s) = 0 ->
  other_inferiors s' = other_inferiors s
  /\ inf_pid (current_inferior s')
     = (if existsb is_thread_section (bfd_sections temp_bfd)
        then if bfd_core_file_pid temp_bfd =? 0 then CORELOW_PID
             else bfd_core_file_pid temp_bfd
        else CORELOW_PID)
  /\ fake_pid_p (current_inferior s')
     = (if existsb is_thread_section (bfd_sections temp_bfd)
        then bfd_core_file_pid temp_bfd =? 0
        else fake_pid_p (current_inferior s)).
Proof.
  intros Hopen Hfopen Hnone Hpid.
  destruct (core_open_inferior _ _ _ _ temp_bfd Hopen Hfopen Hnone Hpid) as [Hoth Hcur].
  split; [exact Hoth |].
  rewrite Hcur.
  destruct (existsb is_thread_section (bfd_sections temp_bfd)); split; reflexivity.
Qed.

Lemma core_open_inferior_of_core_witness :
  current_inferior (snd (core_open [] (open_request_for two_thread_core) initial_state))
  = {| inf_pid := 1; fake_pid_p := true |}.
Proof.
  assert (Hopen : core_open [] (open_request_for two_thread_core) initial_state
                  = (Ok tt, snd (core_open [] (open_request_for two_thread_core)
                                           initial_state)))
    by (vm_compute; reflexivity).
  destruct (core_open_inferior_of_core [] (open_request_for two_thread_core)
              initial_state _ two_thread_core Hopen eq_refl eq_refl eq_refl)
    as (_ & Hp & Hf).
  destruct (current_inferior
              (snd (core_open [] (open_request_for two_thread_core) initial_state)))
    as [p f].
  cbn in Hp, Hf. rewrite Hp, Hf. reflexivity.
Defined.

(** X22 — Reading a register section for a register set.  A section
    smaller than the minimum gives the too-small warning and nothing
    else.  Otherwise the section is read whole: when its size is not the
    minimum and the register set is not flagged as of variable size, the
    unexpected-size warning comes first; then the whole contents are
    supplied to the register set with the size of the section, or, when
    the container fails the read, the could-not-read warning is given
    under the human name and the plain section name. *)
Theorem get_core_register_section_regset
        (rs : regset) (name : string) (min_size which : Z)
        (human_name : string) (required : bool)
        (s : gdb_state) (cbfd : bfd) (section : asection) :
  core_bfd s = Some cbfd ->
  bfd_get_section_by_name cbfd (thread_section_name name s) = Some section ->
  let size := wrap_u64 (bfd_section_size section) in
  let section_name := thread_section_name name s in
  get_core_register_section (Some rs) name min_size which human_name required s
  = (Ok tt,
     if size <? wrap_u64 min_size
     then said (warn_section_too_small section_name) s
     else
       let warned :=
         if negb (size =? wrap_u64 min_size)
            && (Z.land (regset_flags rs) REGSET_VARIABLE_SIZE =? 0)
         then said (warn_unexpected_size section_name) s
         else s in
       match bfd_get_section_contents section 0 size with
       | Some contents =>
           set_regcache (regcache s ++ [supply_regset rs (-1) contents size]) warned
       | None => said (warn_couldnt_read_registers human_name name) warned
       end).
Proof.
  intros Hb Hsec. cbv zeta.
  unfold get_core_register_section, bind, gets. cbn.
  rewrite Hb, Hsec.
  destruct (wrap_u64 (bfd_section_size section) <? wrap_u64 min_size);
    [reflexivity |].
  destruct (wrap_u64 (bfd_section_size section) =? wrap_u64 min_size); cbn.
  - destruct (bfd_get_section_contents section 0 (wrap_u64 (bfd_section_size section)));
      destruct s; reflexivity.
  - destruct (Z.land (regset_flags rs) REGSET_VARIABLE_SIZE =? 0); cbn;
      destruct (bfd_get_section_contents section 0 (wrap_u64 (bfd_section_size section)));
      destruct s; reflexivity.
Qed.

Lemma get_core_register_section_regset_witness :
  get_core_register_section
    (Some {| regset_name := "vector"; regset_flags := REGSET_VARIABLE_SIZE |})
    ".reg" 2 (-1) "general-purpose" true (session_on pidless_core None)
  = (Ok tt,
     set_regcache
       [supply_regset {| regset_name := "vector"; regset_flags := REGSET_VARIABLE_SIZE |}
                      (-1) [0; 0; 0; 0] 4]
       (session_on pidless_core None)).
Proof.
  exact (get_core_register_section_regset
           {| regset_name := "vector"; regset_flags := REGSET_VARIABLE_SIZE |}
           ".reg" 2 (-1) "general-purpose"%string true
           (session_on pidless_core None) pidless_core (note_section ".reg" 100 4)
           eq_refl eq_refl).
Defined.
